(** * payu.manifest: a shallow embedding of [src/payu/manifest.py]

    The file follows the module top to bottom: the hash policy constants,
    the [PayuManifest] class (a subclass of yamanifest's [Manifest]) and the
    [Manifest] coordinator class.  Python dictionaries are insertion-ordered
    association lists with unique keys, objects are records threaded through
    a small state-and-exception monad, and the interpreter's ways of leaving
    a function early (an exception, [sys.exit], a loop that never ends) are
    the constructors of [outcome]. *)

From Stdlib Require Import String Ascii List ZArith Bool Lia.
Import ListNotations.
Open Scope string_scope.
Open Scope list_scope.

(** ** Python dictionaries *)

Module Dict.
Section Ops.
Context {V : Type}.

Definition t := list (string * V).

Fixpoint get (k : string) (d : t) : option V :=
  match d with
  | [] => None
  | (k', v) :: r => if String.eqb k k' then Some v else get k r
  end.

(** [k in d] *)
Definition contains (k : string) (d : t) : bool :=
  match get k d with Some _ => true | None => false end.

(** [d[k] = v]: an existing key keeps its position, a new key goes last. *)
Fixpoint set (k : string) (v : V) (d : t) : t :=
  match d with
  | [] => [(k, v)]
  | (k', v') :: r =>
      if String.eqb k k' then (k, v) :: r else (k', v') :: set k v r
  end.

Definition keys (d : t) : list string := map fst d.
End Ops.
Arguments t : clear implicits.
End Dict.

(** ** Outcomes and the monad *)

Inductive exn :=
| KeyError (key : string)
| IOError (path : string)
| DistutilsFileError (msg : string).

Inductive outcome (A : Type) :=
| Normal (a : A)
| Raised (e : exn)
| SystemExit (code : Z)
| OutOfFuel.
Arguments Normal {A} a.
Arguments Raised {A} e.
Arguments SystemExit {A} code.
Arguments OutOfFuel {A}.

Definition M (S A : Type) : Type := S -> outcome A * S.

Definition ret {S A} (a : A) : M S A := fun s => (Normal a, s).

Definition bind {S A B} (m : M S A) (f : A -> M S B) : M S B :=
fun s =>
  match m s with
  | (Normal a, s') => f a s'
  | (Raised e, s') => (Raised e, s')
  | (SystemExit c, s') => (SystemExit c, s')
  | (OutOfFuel, s') => (OutOfFuel, s')
  end.

Definition raise {S A} (e : exn) : M S A := fun s => (Raised e, s).
Definition sys_exit {S A} (code : Z) : M S A := fun s => (SystemExit code, s).
Definition gets {S A} (f : S -> A) : M S A := fun s => (Normal (f s), s).
Definition modify {S} (f : S -> S) : M S unit := fun s => (Normal tt, f s).

Declare Scope monad_scope.
Delimit Scope monad_scope with monad.
Notation "x <- m ;; k" := (bind m (fun x => k))
(at level 61, m at next level, right associativity) : monad_scope.
Notation "m ;;; k" := (bind m (fun _ => k))
(at level 61, right associativity) : monad_scope.
Open Scope monad_scope.

(** [for x in xs: body x] *)
Fixpoint for_each {S A} (xs : list A) (body : A -> M S unit) : M S unit :=
match xs with
| [] => ret tt
| x :: r => body x ;;; for_each r body
end.

(** [d[k]] as an expression: a missing key raises [KeyError]. *)
Definition getitem {S V} (k : string) (d : Dict.t V) : M S V :=
match Dict.get k d with
| Some v => ret v
| None => raise (KeyError k)
end.

(** A missing key of a record dictionary. *)
Definition field {S V} (k : string) (o : option V) : M S V :=
match o with
| Some v => ret v
| None => raise (KeyError k)
end.

(** ** Strings and paths: the [str] methods and [os.path] functions used

    A Python [str] is modelled by the bytes of its UTF-8 encoding.  The
    methods that the code calls with ASCII arguments ([startswith],
    [lstrip], [split] at the separator) do on these bytes what they do on
    the code points; [int], which looks at the code points, decodes them. *)

Module Str.
Definition chars := list_ascii_of_string.
Definition of_chars := string_of_list_ascii.

Definition mem (c : ascii) (set : string) : bool :=
  existsb (Ascii.eqb c) (chars set).

Fixpoint drop_while (p : ascii -> bool) (l : list ascii) : list ascii :=
  match l with
  | [] => []
  | c :: r => if p c then drop_while p r else l
  end.

Fixpoint take_while (p : ascii -> bool) (l : list ascii) : list ascii :=
  match l with
  | [] => []
  | c :: r => if p c then c :: take_while p r else []
  end.

(** [s.startswith(pre)] *)
Definition startswith (s pre : string) : bool := String.prefix pre s.

(** [s.lstrip(set)]: drops leading characters that occur in [set]. *)
Definition lstrip (s set : string) : string :=
  of_chars (drop_while (fun c => mem c set) (chars s)).

(** [s.rstrip(set)] *)
Definition rstrip (s set : string) : string :=
  of_chars (rev (drop_while (fun c => mem c set) (rev (chars s)))).

(** *** [int]

    A Python [str] is modelled by its UTF-8 encoding, the bytes that
    [os.fsencode] gives for it.  [int] looks at code points, so it first
    reads them back from the bytes. *)

Definition byte (c : ascii) : N := N_of_ascii c.

Definition continuation (b : N) : bool := (N.leb 128 b && N.ltb b 192)%bool.

(** A byte outside every well-formed sequence, as [os.fsdecode] keeps it: a
    lone surrogate. *)
Definition escaped (b : N) : N := (56320 + b)%N.

Definition two_bytes (b0 b1 : N) : option N :=
  if (N.leb 194 b0 && N.leb b0 223 && continuation b1)%bool
  then Some ((b0 - 192) * 64 + (b1 - 128))%N
  else None.

Definition three_bytes (b0 b1 b2 : N) : option N :=
  let cp := ((b0 - 224) * 4096 + (b1 - 128) * 64 + (b2 - 128))%N in
  if (N.leb 224 b0 && N.leb b0 239 && continuation b1 && continuation b2
      && N.leb 2048 cp && negb (N.leb 55296 cp && N.leb cp 57343))%bool
  then Some cp else None.

Definition four_bytes (b0 b1 b2 b3 : N) : option N :=
  let cp := ((b0 - 240) * 262144 + (b1 - 128) * 4096 + (b2 - 128) * 64
             + (b3 - 128))%N in
  if (N.leb 240 b0 && N.leb b0 244 && continuation b1 && continuation b2
      && continuation b3 && N.leb 65536 cp && N.leb cp 1114111)%bool
  then Some cp else None.

(** The code points of a string. *)
Fixpoint decode (l : list ascii) : list N :=
  match l with
  | [] => []
  | a :: r =>
      let b0 := byte a in
      if N.ltb b0 128 then b0 :: decode r
      else
        match r with
        | [] => [escaped b0]
        | b :: r1 =>
            match two_bytes b0 (byte b) with
            | Some cp => cp :: decode r1
            | None =>
                match r1 with
                | [] => escaped b0 :: decode r
                | c :: r2 =>
                    match three_bytes b0 (byte b) (byte c) with
                    | Some cp => cp :: decode r2
                    | None =>
                        match r2 with
                        | [] => escaped b0 :: decode r
                        | d :: r3 =>
                            match four_bytes b0 (byte b) (byte c) (byte d) with
                            | Some cp => cp :: decode r3
                            | None => escaped b0 :: decode r
                            end
                        end
                    end
                end
            end
        end
  end.

(** The code points from 127 on for which [str.isspace] holds. *)
Definition unicode_spaces : list N :=
  [133; 160; 5760; 8192; 8193; 8194; 8195; 8196; 8197; 8198; 8199; 8200;
   8201; 8202; 8232; 8233; 8239; 8287; 12288]%N.

(** The zero of each run of ten decimal digits of Unicode 14.0, the
    character database of CPython 3.11. *)
Definition decimal_zeros : list N :=
  [48; 1632; 1776; 1984; 2406; 2534; 2662; 2790; 2918; 3046; 3174; 3302;
   3430; 3558; 3664; 3792; 3872; 4160; 4240; 6112; 6160; 6470; 6608; 6784;
   6800; 6992; 7088; 7232; 7248; 42528; 43216; 43264; 43472; 43504; 43600;
   44016; 65296; 66720; 68912; 69734; 69872; 69942; 70096; 70384; 70736;
   70864; 71248; 71360; 71472; 71904; 72016; 72784; 73040; 73120; 92768;
   92864; 93008; 120782; 120792; 120802; 120812; 120822; 123200; 123632;
   125264; 130032]%N.

(** [Py_UNICODE_TODECIMAL] *)
Definition decimal (cp : N) : option N :=
  match find (fun z => (N.leb z cp && N.ltb cp (z + 10))%bool) decimal_zeros with
  | Some z => Some (cp - z)%N
  | None => None
  end.

(** What [int] makes of one code point before it parses: a code point
    below 127 stays, white space becomes a space, a decimal digit becomes
    its ASCII digit, and anything else cannot be part of a number. *)
Definition to_ascii (cp : N) : option ascii :=
  if N.ltb cp 127 then Some (ascii_of_N cp)
  else if existsb (N.eqb cp) unicode_spaces then Some " "%char
  else option_map (fun d => ascii_of_N (48 + d)) (decimal cp).

Fixpoint transform (l : list N) : option (list ascii) :=
  match l with
  | [] => Some []
  | cp :: r =>
      match to_ascii cp, transform r with
      | Some c, Some r' => Some (c :: r')
      | _, _ => None
      end
  end.

(** White space as the parser skips it: space and tab to carriage return. *)
Definition is_space (c : ascii) : bool :=
  let n := nat_of_ascii c in
  (Nat.eqb n 32 || (Nat.leb 9 n && Nat.leb n 13))%bool.

Definition digit (c : ascii) : option Z :=
  let n := nat_of_ascii c in
  if (Nat.leb 48 n && Nat.leb n 57)%bool
  then Some (Z.of_nat (n - 48)) else None.

(** Decimal digits, where a single underscore may stand between two digits;
    [after_digit] says that the previous character was a digit. *)
Fixpoint digits (acc : Z) (after_digit : bool) (l : list ascii) : option Z :=
  match l with
  | [] => if after_digit then Some acc else None
  | c :: r =>
      if Ascii.eqb c "_"%char then
        if after_digit then digits acc false r else None
      else
        match digit c with
        | Some d => digits (10 * acc + d)%Z true r
        | None => None
        end
  end.

(** [sys.get_int_max_str_digits()], as CPython sets it by default. *)
Definition max_str_digits : N := 4300%N.

Definition is_digit (c : ascii) : bool :=
  match digit c with Some _ => true | None => false end.

(** A number of more than [max_str_digits] digits is refused. *)
Definition unsigned (l : list ascii) : option Z :=
  if N.ltb max_str_digits (N.of_nat (length (filter is_digit l))) then None
  else digits 0%Z false l.

(** [int(s)], base ten: surrounding white space, an optional sign, then
    digits; [None] is [ValueError]. *)
Definition int (s : string) : option Z :=
  match transform (decode (chars s)) with
  | None => None
  | Some l =>
      let body := rev (drop_while is_space (rev (drop_while is_space l))) in
      match body with
      | "-"%char :: r => option_map Z.opp (unsigned r)
      | "+"%char :: r => unsigned r
      | _ => unsigned body
      end
  end.
End Str.

Module PosixPath.
Definition sep : ascii := "/"%char.
Definition is_sep (c : ascii) : bool := Ascii.eqb c sep.
Definition not_sep (c : ascii) : bool := negb (is_sep c).

(** [head = p[:i]] with [i = p.rfind('/') + 1], before the trailing
    separators are removed. *)
Definition raw_head (p : list ascii) : list ascii :=
  rev (Str.drop_while not_sep (rev p)).

(** [p[i:]] *)
Definition raw_tail (p : list ascii) : list ascii :=
  rev (Str.take_while not_sep (rev p)).

(** [if head and head != sep*len(head): head = head.rstrip(sep)] *)
Definition trim_head (head : list ascii) : list ascii :=
  match head with
  | [] => head
  | _ => if forallb is_sep head then head
         else rev (Str.drop_while is_sep (rev head))
  end.

Definition split (p : string) : string * string :=
  let l := Str.chars p in
  (Str.of_chars (trim_head (raw_head l)), Str.of_chars (raw_tail l)).

Definition dirname (p : string) : string := fst (split p).
Definition basename (p : string) : string := snd (split p).
End PosixPath.

(** ** Hash policy *)

Definition fast_hashes : list string := ["binhash"].
Definition full_hashes : list string := ["md5"].
Definition all_hashes : list string := fast_hashes ++ full_hashes.

(** ** The manifest document *)

(** [hashes]: hash kind to digest, [None] being the YAML null. *)
Definition hashdict := Dict.t (option string).

(** One entry of [self.data]: a dictionary with the keys ['fullpath'],
    ['hashes'] and ['copy'], each of which may be missing. *)
Record file_record := {
  r_fullpath : option string;
  r_hashes : option hashdict;
  r_copy : option bool
}.

Definition empty_record : file_record :=
  {| r_fullpath := None; r_hashes := None; r_copy := None |}.

Definition with_fullpath (r : file_record) (p : string) : file_record :=
  {| r_fullpath := Some p; r_hashes := r_hashes r; r_copy := r_copy r |}.
Definition with_hashes (r : file_record) (h : hashdict) : file_record :=
  {| r_fullpath := r_fullpath r; r_hashes := Some h; r_copy := r_copy r |}.
Definition with_copy (r : file_record) (c : bool) : file_record :=
  {| r_fullpath := r_fullpath r; r_hashes := r_hashes r; r_copy := Some c |}.

(** A value handed to [str.format]. *)
Inductive arg :=
| a_str (s : string)
| a_opt (o : option string)
| a_int (n : Z)
| a_list (l : list string)
| a_dict (d : Dict.t string).

(** What a call leaves outside the object: lines written to the standard
    streams and changes to the file system. *)
Inductive event :=
| Stdout (fmt : string) (args : list arg)
| Stderr (fmt : string) (args : list arg)
| Dumped (path : string) (header : Dict.t string) (data : Dict.t file_record)
| Symlink (src dst : string)
| CopyFile (src dst : string)
| Mkpath (dir : string).

(** A [PayuManifest] object. *)
Record manifest := {
  path : string;
  header : Dict.t string;
  data : Dict.t file_record;
  ignore : list string
}.

Definition with_data (m : manifest) (d : Dict.t file_record) : manifest :=
  {| path := path m; header := header m; data := d; ignore := ignore m |}.
Definition with_header (m : manifest) (h : Dict.t string) : manifest :=
  {| path := path m; header := h; data := data m; ignore := ignore m |}.

(** The state a method of [PayuManifest] runs in: the object and the events
    emitted so far, oldest first. *)
Record pstate := {
  self : manifest;
  trace : list event
}.

Definition on_self (f : manifest -> manifest) : M pstate unit :=
  modify (fun s => {| self := f (self s); trace := trace s |}).
Definition emit (e : event) : M pstate unit :=
  modify (fun s => {| self := self s; trace := trace s ++ [e] |}).
Definition print (fmt : string) (args : list arg) : M pstate unit :=
  emit (Stdout fmt args).

(** A call of a file-system primitive.  The call is recorded, and it fails
    or not as the world has it: [io_error], given the events so far and the
    call, answers with the file name of the I/O error the call raises, or
    with [None] when the call succeeds. *)
Definition os_call (io_error : list event -> event -> option string)
    (e : event) : M pstate unit :=
  tr <- gets trace ;;
  emit e ;;;
  match io_error tr e with
  | Some name => raise (IOError name)
  | None => ret tt
  end.

(** ** The base class

    [PayuManifest] inherits [check_file], [add], [dump], [load], [fullpath],
    iteration and [len] from yamanifest's [Manifest], a separate package. *)

Module YaManifest.
Section Base.
(** The hashing primitive: hash kind and full path to the digest of the
    file's current content, [None] when that kind cannot be computed. *)
Variable hash : string -> string -> option string.

Definition record_of (filepath : string) : M pstate file_record :=
  d <- gets (fun s => data (self s)) ;;
  getitem filepath d.

(** Modelled from the spec: the accessor [fullpath(path)] of the base class,
    which is not among the sources; it reads [self.data[filepath]['fullpath']]. *)
Definition fullpath (filepath : string) : M pstate string :=
  r <- record_of filepath ;;
  field "fullpath" (r_fullpath r).

Definition hashes_of (filepath : string) : M pstate hashdict :=
  r <- record_of filepath ;;
  field "hashes" (r_hashes r).

(** [stored.get(fn) == h] *)
Definition agrees (stored : hashdict) (fn h : string) : bool :=
  match Dict.get fn stored with
  | Some (Some v) => String.eqb v h
  | _ => false
  end.

(** The hash kinds of one path, in order: a kind that cannot be computed is
    passed over, a computed digest that differs from the stored one is
    recorded, and with [shortcircuit] the first computed kind is the last. *)
Fixpoint check_kinds (fns : list string) (fp : string) (stored : hashdict)
    (shortcircuit : bool) (bad : Dict.t string) : Dict.t string :=
  match fns with
  | [] => bad
  | fn :: rest =>
      match hash fn fp with
      | None => check_kinds rest fp stored shortcircuit bad
      | Some h =>
          let bad' := if agrees stored fn h then bad else Dict.set fn h bad in
          if shortcircuit then bad'
          else check_kinds rest fp stored shortcircuit bad'
      end
  end.

(** Modelled from the spec: the base class's [check_file], which is not
    among the sources.  It recomputes the digests of the requested kinds over
    the requested paths and compares them with the stored values; it returns
    whether every path matched and leaves in [hashvals], for each path that
    did not, the freshly computed values that differ.  A stored null counts
    as a mismatch.  [hashvals] is the caller's dictionary, filled in place:
    here it is passed in and returned. *)
Fixpoint check_file (filepaths : list string) (hashfn : list string)
    (hashvals : Dict.t (Dict.t string)) (shortcircuit : bool)
    : M pstate (bool * Dict.t (Dict.t string)) :=
  match filepaths with
  | [] => ret (true, hashvals)
  | filepath :: rest =>
      fp <- fullpath filepath ;;
      stored <- hashes_of filepath ;;
      match check_kinds hashfn fp stored shortcircuit [] with
      | [] => check_file rest hashfn hashvals shortcircuit
      | bad =>
          r <- check_file rest hashfn (Dict.set filepath bad hashvals)
                 shortcircuit ;;
          ret (false, snd r)
      end
  end.

(** The hash kinds of one path under [add]: a computed digest is stored when
    forced or when the kind has no entry yet; with [shortcircuit] the first
    kind that succeeds is the last. *)
Fixpoint add_kinds (fns : list string) (fp : string) (force shortcircuit : bool)
    (stored : hashdict) : hashdict :=
  match fns with
  | [] => stored
  | fn :: rest =>
      match hash fn fp with
      | None => add_kinds rest fp force shortcircuit stored
      | Some h =>
          let stored' :=
            if (force || negb (Dict.contains fn stored))%bool
            then Dict.set fn (Some h) stored else stored in
          if shortcircuit then stored'
          else add_kinds rest fp force shortcircuit stored'
      end
  end.

(** Modelled from the spec: the base class's [add], which is not among the
    sources.  For paths already in the document it computes the requested
    hash kinds of their full paths; [force] overwrites an existing entry. *)
Definition add (filepaths : list string) (hashfn : list string)
    (force shortcircuit : bool) : M pstate unit :=
  for_each filepaths (fun filepath =>
    r <- record_of filepath ;;
    fp <- field "fullpath" (r_fullpath r) ;;
    stored <- field "hashes" (r_hashes r) ;;
    on_self (fun m =>
      with_data m
        (Dict.set filepath
           (with_hashes r (add_kinds hashfn fp force shortcircuit stored))
           (data m)))).

(** Modelled from the spec: the base class's [dump], which is not among the
    sources; it serializes header and data to the bound path. *)
Definition dump : M pstate unit :=
  m <- gets self ;;
  emit (Dumped (path m) (header m) (data m)).

(** What is read back from a persisted manifest. *)
Definition persisted : Type := Dict.t string * Dict.t file_record.

(** Modelled from the spec: the base class's [load], which is not among the
    sources; it deserializes header and data from the bound path.  [disk]
    is the content of the manifest files, [None] for a path that does not
    exist. *)
Definition load (disk : string -> option persisted) : M pstate unit :=
  m <- gets self ;;
  match disk (path m) with
  | Some (h, d) => on_self (fun m => with_data (with_header m h) d)
  | None => raise (IOError (path m))
  end.

(** [len(self)] and iteration. *)
Definition len (m : manifest) : nat := length (data m).
Definition iter (m : manifest) : list string := Dict.keys (data m).
End Base.
End YaManifest.

(** ** class PayuManifest *)

Module PayuManifest.
Section Methods.
Variable hash : string -> string -> option string.
(** [payu.fsops.get_git_revision_hash()], an opaque version string. *)
Variable get_git_revision_hash : string.
Variable isdir : string -> bool.
(** [fnmatch.fnmatch(name, pattern)] *)
Variable fnmatch : string -> string -> bool.

Definition newline : string := String (ascii_of_nat 10) "".

(** [PayuManifest(path, ignore=ignore)]; [base_ignore] is what the base
    class's constructor leaves in [self.ignore]. *)
Definition init (base_ignore : list string) (path : string)
    (ignore : option (list string)) : manifest :=
  {| path := path; header := []; data := [];
     ignore := match ignore with Some i => i | None => base_ignore end |}.

(** [self.data[filepath]["hashes"][hash] = val] *)
Definition set_hash (filepath hash : string) (val : option string)
    : M pstate unit :=
  r <- YaManifest.record_of filepath ;;
  h <- field "hashes" (r_hashes r) ;;
  on_self (fun m =>
    with_data m
      (Dict.set filepath (with_hashes r (Dict.set hash val h)) (data m))).

(** [self.data[path]['hashes'].get(hash, None)] *)
Definition stored_hash (path hash : string) : M pstate (option string) :=
  h <- YaManifest.hashes_of path ;;
  ret (match Dict.get hash h with Some v => v | None => None end).

Definition dump : M pstate unit :=
  on_self (fun m =>
    with_header m (Dict.set "githash" get_git_revision_hash (header m))) ;;;
  YaManifest.dump.

Definition add_fast (filepath : string) (hashfn : list string) (force : bool)
    : M pstate unit :=
  YaManifest.add hash [filepath] hashfn force true.

(** The body of [for filepath in hashvals] under [if reproduce]. *)
Definition recheck (filepath : string) (vals : Dict.t string) : M pstate unit :=
  print "Check failed for {} {}" [a_str filepath; a_dict vals] ;;;
  r <- YaManifest.check_file hash [filepath] full_hashes [] false ;;
  if fst r then
    print "Full hashes ({}) checked ok" [a_list full_hashes] ;;;
    p <- gets (fun s => path (self s)) ;;
    print "Updating fast hashes for {} in {}" [a_str filepath; a_str p] ;;;
    add_fast filepath fast_hashes true ;;;
    print "Saving updated manifest" [] ;;;
    dump
  else
    p <- gets (fun s => path (self s)) ;;
    emit (Stderr ("Run cannot reproduce: manifest {} is not correct" ++ newline)
            [a_str p]) ;;;
    for_each (snd r) (fun '(path, hashdict) =>
      print "    {}:" [a_str path] ;;;
      for_each hashdict (fun '(hash, val) =>
        old <- stored_hash path hash ;;
        print "        {}: {} != {}" [a_str hash; a_str val; a_opt old])) ;;;
    sys_exit 1%Z.

Definition check_fast (reproduce : bool) : M pstate unit :=
  keys <- gets (fun s => Dict.keys (data (self s))) ;;
  r <- YaManifest.check_file hash keys fast_hashes [] true ;;
  let hashvals := snd r in
  if negb (fst r) then
    for_each hashvals (fun '(filepath, vals) =>
      for_each vals (fun '(hash, val) =>
        set_hash filepath hash (Some val))) ;;;
    if reproduce then
      for_each hashvals (fun '(filepath, vals) => recheck filepath vals)
    else
      p <- gets (fun s => path (self s)) ;;
      print "Updating full hashes for {} files in {}"
        [a_int (Z.of_nat (length hashvals)); a_str p] ;;;
      YaManifest.add hash (Dict.keys hashvals) full_hashes true false ;;;
      print "Writing {}" [a_str p] ;;;
      dump
  else ret tt.

(** [for pattern in self.ignore: if fnmatch(basename(fullpath), pattern): return] *)
Definition ignored (m : manifest) (fullpath : string) : bool :=
  existsb (fun pattern => fnmatch (PosixPath.basename fullpath) pattern)
    (ignore m).

Definition fresh_hashes : hashdict := map (fun h => (h, None)) all_hashes.

Definition add_filepath (filepath fullpath : string) (copy : bool)
    : M pstate unit :=
  if isdir fullpath then ret tt else
  m <- gets self ;;
  if ignored m fullpath then ret tt else
  (if Dict.contains filepath (data m) then ret tt
   else on_self (fun m => with_data m (Dict.set filepath empty_record (data m)))) ;;;
  r <- YaManifest.record_of filepath ;;
  on_self (fun m =>
    with_data m (Dict.set filepath (with_fullpath r fullpath) (data m))) ;;;
  r <- YaManifest.record_of filepath ;;
  (match r_hashes r with
   | Some _ => ret tt
   | None =>
       on_self (fun m =>
         with_data m (Dict.set filepath (with_hashes r fresh_hashes) (data m)))
   end) ;;;
  if copy then
    r <- YaManifest.record_of filepath ;;
    on_self (fun m =>
      with_data m (Dict.set filepath (with_copy r copy) (data m)))
  else ret tt.

(** [try: ... except KeyError: return False] *)
Definition except_KeyError {A} (m : M pstate A) (handler : M pstate A)
    : M pstate A :=
  fun s =>
    match m s with
    | (Raised (KeyError _), s') => handler s'
    | r => r
    end.

Definition copy_file (filepath : string) : M pstate bool :=
  except_KeyError
    (r <- YaManifest.record_of filepath ;;
     field "copy" (r_copy r))
    (ret false).

(** What the file system answers to [shutil.copy] and to [make_symlink].
    Modelled from the spec: [make_symlink] of payu.fsops is a primitive that
    creates a link and can fail with an I/O error. *)
Variable io_error : list event -> event -> option string.

Definition make_links : M pstate unit :=
  files <- gets (fun s => YaManifest.iter (self s)) ;;
  for_each files (fun filepath =>
    c <- copy_file filepath ;;
    src <- YaManifest.fullpath filepath ;;
    if c then os_call io_error (CopyFile src filepath)
    else os_call io_error (Symlink src filepath)).

(** [shutil.copy(self.path, path)] *)
Definition copy (dest : string) : M pstate unit :=
  p <- gets (fun s => path (self s)) ;;
  os_call io_error (CopyFile p dest).
End Methods.
End PayuManifest.

(** ** class Manifest *)

Module Manifest.

(** The value of the ['ignore'] key: a string or a list of strings. *)
Inductive ignore_value :=
| ignore_str (s : string)
| ignore_list (l : list string).

(** [expt.config.get('manifest', {})], with the keys the class reads. *)
Record manifest_config_t := {
  cfg_reproduce_exe : option bool;
  cfg_ignore : option ignore_value;
  cfg_overwrite : option bool
}.

(** A model collaborator, with the attribute [setup] writes. *)
Record model := { model_have_restart_manifest : bool }.

(** The experiment, with what the class reads and writes. *)
Record experiment := {
  config_manifest : option manifest_config_t;
  models : list model;
  counter : option Z
}.

Record coordinator := {
  expt : experiment;
  reproduce : bool;
  manifest_config : manifest_config_t;
  have_exe_manifest : bool;
  have_input_manifest : bool;
  have_restart_manifest : bool;
  reproduce_exe : bool;
  ignore_patterns : list string;
  input_manifest : manifest;
  restart_manifest : manifest;
  exe_manifest : manifest
}.

Definition set_expt (c : coordinator) (e : experiment) : coordinator :=
  {| expt := e; reproduce := reproduce c; manifest_config := manifest_config c;
     have_exe_manifest := have_exe_manifest c;
     have_input_manifest := have_input_manifest c;
     have_restart_manifest := have_restart_manifest c;
     reproduce_exe := reproduce_exe c; ignore_patterns := ignore_patterns c;
     input_manifest := input_manifest c;
     restart_manifest := restart_manifest c; exe_manifest := exe_manifest c |}.
Definition set_have_exe_manifest (c : coordinator) (b : bool) : coordinator :=
  {| expt := expt c; reproduce := reproduce c;
     manifest_config := manifest_config c;
     have_exe_manifest := b;
     have_input_manifest := have_input_manifest c;
     have_restart_manifest := have_restart_manifest c;
     reproduce_exe := reproduce_exe c; ignore_patterns := ignore_patterns c;
     input_manifest := input_manifest c;
     restart_manifest := restart_manifest c; exe_manifest := exe_manifest c |}.
Definition set_have_input_manifest (c : coordinator) (b : bool) : coordinator :=
  {| expt := expt c; reproduce := reproduce c;
     manifest_config := manifest_config c;
     have_exe_manifest := have_exe_manifest c;
     have_input_manifest := b;
     have_restart_manifest := have_restart_manifest c;
     reproduce_exe := reproduce_exe c; ignore_patterns := ignore_patterns c;
     input_manifest := input_manifest c;
     restart_manifest := restart_manifest c; exe_manifest := exe_manifest c |}.
Definition set_have_restart_manifest (c : coordinator) (b : bool) : coordinator :=
  {| expt := expt c; reproduce := reproduce c;
     manifest_config := manifest_config c;
     have_exe_manifest := have_exe_manifest c;
     have_input_manifest := have_input_manifest c;
     have_restart_manifest := b;
     reproduce_exe := reproduce_exe c; ignore_patterns := ignore_patterns c;
     input_manifest := input_manifest c;
     restart_manifest := restart_manifest c; exe_manifest := exe_manifest c |}.
Definition set_input_manifest (c : coordinator) (m : manifest) : coordinator :=
  {| expt := expt c; reproduce := reproduce c;
     manifest_config := manifest_config c;
     have_exe_manifest := have_exe_manifest c;
     have_input_manifest := have_input_manifest c;
     have_restart_manifest := have_restart_manifest c;
     reproduce_exe := reproduce_exe c; ignore_patterns := ignore_patterns c;
     input_manifest := m;
     restart_manifest := restart_manifest c; exe_manifest := exe_manifest c |}.
Definition set_restart_manifest (c : coordinator) (m : manifest) : coordinator :=
  {| expt := expt c; reproduce := reproduce c;
     manifest_config := manifest_config c;
     have_exe_manifest := have_exe_manifest c;
     have_input_manifest := have_input_manifest c;
     have_restart_manifest := have_restart_manifest c;
     reproduce_exe := reproduce_exe c; ignore_patterns := ignore_patterns c;
     input_manifest := input_manifest c;
     restart_manifest := m; exe_manifest := exe_manifest c |}.
Definition set_exe_manifest (c : coordinator) (m : manifest) : coordinator :=
  {| expt := expt c; reproduce := reproduce c;
     manifest_config := manifest_config c;
     have_exe_manifest := have_exe_manifest c;
     have_input_manifest := have_input_manifest c;
     have_restart_manifest := have_restart_manifest c;
     reproduce_exe := reproduce_exe c; ignore_patterns := ignore_patterns c;
     input_manifest := input_manifest c;
     restart_manifest := restart_manifest c; exe_manifest := m |}.

(** The state a method of [Manifest] runs in. *)
Record cstate := {
  this : coordinator;
  ctrace : list event
}.

Definition on_this (f : coordinator -> coordinator) : M cstate unit :=
  modify (fun s => {| this := f (this s); ctrace := ctrace s |}).
Definition cprint (fmt : string) (args : list arg) : M cstate unit :=
  modify (fun s => {| this := this s; ctrace := ctrace s ++ [Stdout fmt args] |}).

(** A method call on one of the three manifests the coordinator owns. *)
Definition zoom {A} (sel : coordinator -> manifest)
    (upd : coordinator -> manifest -> coordinator) (m : M pstate A)
    : M cstate A :=
  fun s =>
    let r := m {| self := sel (this s); trace := ctrace s |} in
    (fst r, {| this := upd (this s) (self (snd r)); ctrace := trace (snd r) |}).

Definition on_input {A} := @zoom A input_manifest set_input_manifest.
Definition on_restart {A} := @zoom A restart_manifest set_restart_manifest.
Definition on_exe {A} := @zoom A exe_manifest set_exe_manifest.

Definition empty_config : manifest_config_t :=
  {| cfg_reproduce_exe := None; cfg_ignore := None; cfg_overwrite := None |}.

(** [d.get(key, default)] *)
Definition get_default {A} (o : option A) (default : A) : A :=
  match o with Some v => v | None => default end.

Section Methods.
Variable hash : string -> string -> option string.
Variable get_git_revision_hash : string.
(** The persisted manifests: [os.path.exists] and [load] read them. *)
Variable disk : string -> option YaManifest.persisted.
(** [os.environ.get('PAYU_CURRENT_RUN')] *)
Variable PAYU_CURRENT_RUN : option string.

Definition exists_ (p : string) : bool :=
  match disk p with Some _ => true | None => false end.

(** [Manifest(expt, reproduce)]: the object and the directory it makes. *)
Definition init (base_ignore : list string) (expt : experiment)
    (reproduce : bool) : cstate :=
  let manifest_config := get_default (config_manifest expt) empty_config in
  let ignore :=
    match get_default (cfg_ignore manifest_config) (ignore_list [".*"]) with
    | ignore_str s => [s]
    | ignore_list l => l
    end in
  let exe := PayuManifest.init base_ignore "manifests/exe.yaml" (Some ignore) in
  {| this :=
       {| expt := expt;
          reproduce := reproduce;
          manifest_config := manifest_config;
          have_exe_manifest := false;
          have_input_manifest := false;
          have_restart_manifest := false;
          reproduce_exe :=
            reproduce && get_default (cfg_reproduce_exe manifest_config) true;
          ignore_patterns := ignore;
          input_manifest :=
            PayuManifest.init base_ignore "manifests/input.yaml" (Some ignore);
          restart_manifest :=
            PayuManifest.init base_ignore "manifests/restart.yaml" (Some ignore);
          exe_manifest := exe |};
     ctrace := [Mkpath (PosixPath.dirname (path exe))] |}.

(** What one ancestor directory name says about the restart sequence:
    [tail.startswith('restart')] and [int(tail.lstrip('restart'))] succeeds. *)
Definition restart_number (tail : string) : option Z :=
  if Str.startswith tail "restart" then Str.int (Str.lstrip tail "restart")
  else None.

(** The [while True] loop over the ancestors of [head].  It leaves only
    through [break], with the number found; [None] says that [fuel] rounds
    did not reach a [break]. *)
Fixpoint walk (fuel : nat) (head : string) : option Z :=
  match fuel with
  | O => None
  | S fuel' =>
      let (head', tail) := PosixPath.split head in
      match restart_number tail with
      | Some n => Some n
      | None => walk fuel' head'
      end
  end.

Definition set_counter (c : coordinator) (n : option Z) : coordinator :=
  set_expt c {| config_manifest := config_manifest (expt c);
                models := models (expt c);
                counter := n |}.

(** [self.expt.counter == 0] *)
Definition counter_is_zero (c : coordinator) : bool :=
  match counter (expt c) with
  | Some n => Z.eqb n 0
  | None => false
  end.

(** [for filepath in self.restart_manifest], each [while True] loop running
    for at most [fuel] rounds. *)
Fixpoint scan (fuel : nat) (filepaths : list string) : M cstate unit :=
  match filepaths with
  | [] => ret tt
  | filepath :: rest =>
      fp <- on_restart (YaManifest.fullpath filepath) ;;
      match walk fuel (PosixPath.dirname fp) with
      | None => fun s => (OutOfFuel, s)
      | Some n =>
          on_this (fun c => set_counter c (Some (n + 1)%Z)) ;;;
          c <- gets this ;;
          if counter_is_zero c then ret tt else scan fuel rest
      end
  end.

Definition mark_models (c : coordinator) : coordinator :=
  set_expt c {| config_manifest := config_manifest (expt c);
                models := map (fun _ => {| model_have_restart_manifest := true |})
                              (models (expt c));
                counter := counter (expt c) |}.

(** The truth value of a string or [None]. *)
Definition truthy (o : option string) : bool :=
  match o with
  | Some s => negb (String.eqb s "")
  | None => false
  end.

Definition setup (fuel : nat) : M cstate unit :=
  c <- gets this ;;
  on_this (fun c =>
    set_have_restart_manifest c (exists_ (path (restart_manifest c)))) ;;;
  (if (exists_ (path (input_manifest c))
       && negb (get_default (cfg_overwrite (manifest_config c)) false))%bool
   then
     cprint "Loading input manifest: {}" [a_str (path (input_manifest c))] ;;;
     on_input (YaManifest.load disk) ;;;
     c <- gets this ;;
     if (0 <? YaManifest.len (input_manifest c))%nat
     then on_this (fun c => set_have_input_manifest c true)
     else ret tt
   else ret tt) ;;;
  (if exists_ (path (exe_manifest c)) then
     cprint "Loading exe manifest: {}" [a_str (path (exe_manifest c))] ;;;
     on_exe (YaManifest.load disk) ;;;
     c <- gets this ;;
     if (0 <? YaManifest.len (exe_manifest c))%nat
     then on_this (fun c => set_have_exe_manifest c true)
     else ret tt
   else ret tt) ;;;
  if reproduce c then
    cprint "Loading restart manifest: {}" [a_str (path (restart_manifest c))] ;;;
    on_restart (YaManifest.load disk) ;;;
    c <- gets this ;;
    (if (0 <? YaManifest.len (restart_manifest c))%nat
     then on_this (fun c => set_have_restart_manifest c true)
     else
       cprint "Restart manifest cannot be empty if reproduce is True" [] ;;;
       sys_exit 1%Z) ;;;
    c <- gets this ;;
    (if negb (have_input_manifest c) then
       cprint "Input manifest cannot be empty if reproduce is True" [] ;;;
       sys_exit 1%Z
     else ret tt) ;;;
    (if (reproduce_exe c && negb (have_exe_manifest c))%bool then
       cprint "Executable manifest cannot empty if reproduce and reproduce_exe are True" [] ;;;
       sys_exit 1%Z
     else ret tt) ;;;
    on_this mark_models ;;;
    if negb (truthy PAYU_CURRENT_RUN) then
      c <- gets this ;;
      scan fuel (YaManifest.iter (restart_manifest c))
    else ret tt
  else
    on_this (fun c => set_have_restart_manifest c false).

(** What the file system answers to the link and copy calls. *)
Variable io_error : list event -> event -> option string.

Definition make_links : M cstate unit :=
  cprint "Making links from manifests" [] ;;;
  on_exe (PayuManifest.make_links io_error) ;;;
  on_input (PayuManifest.make_links io_error) ;;;
  on_restart (PayuManifest.make_links io_error) ;;;
  cprint "Checking exe and input manifests" [] ;;;
  c <- gets this ;;
  on_exe (PayuManifest.check_fast hash get_git_revision_hash (reproduce_exe c)) ;;;
  on_input (PayuManifest.check_fast hash get_git_revision_hash (reproduce c)) ;;;
  (if reproduce c then cprint "Checking restart manifest" []
   else cprint "Creating restart manifest" []) ;;;
  on_restart (PayuManifest.check_fast hash get_git_revision_hash (reproduce c)).

(** [try: ... except IOError: pass] *)
Definition except_IOError (m : M cstate unit) : M cstate unit :=
  fun s =>
    match m s with
    | (Raised (IOError _), s') => (Normal tt, s')
    | r => r
    end.

(** What the file system answers to [mkpath]: given the events so far and
    the directory, the message of the [DistutilsFileError] raised, or [None]
    when the directory is there afterwards. *)
Variable mkpath_error : list event -> string -> option string.

(** [mkpath(path)] of distutils *)
Definition mkpath (path : string) : M cstate unit :=
  tr <- gets ctrace ;;
  modify (fun s => {| this := this s; ctrace := ctrace s ++ [Mkpath path] |}) ;;;
  match mkpath_error tr path with
  | Some msg => raise (DistutilsFileError msg)
  | None => ret tt
  end.

Definition copy_manifests (path : string) : M cstate unit :=
  mkpath path ;;;
  except_IOError
    (on_exe (PayuManifest.copy io_error path) ;;;
     on_input (PayuManifest.copy io_error path) ;;;
     on_restart (PayuManifest.copy io_error path)).
End Methods.
End Manifest.

(** ** Vocabulary of the statements *)

(** The full path a document records for a tracked path. *)
Definition fullpath_of (d : Dict.t file_record) (p : string) : option string :=
  match Dict.get p d with
  | Some r => r_fullpath r
  | None => None
  end.

(** The entry of one hash kind of a tracked path: [None] when the path or
    the kind has no entry, [Some None] for a stored null. *)
Definition entry (d : Dict.t file_record) (p kind : string)
    : option (option string) :=
  match Dict.get p d with
  | Some r =>
      match r_hashes r with
      | Some st => Dict.get kind st
      | None => None
      end
  | None => None
  end.

(** Every record of the document has a full path and a hash dictionary. *)
Definition wf_record (r : file_record) : bool :=
  match r_fullpath r, r_hashes r with
  | Some _, Some _ => true
  | _, _ => false
  end.
Definition wf_doc (d : Dict.t file_record) : bool :=
  forallb (fun kr => wf_record (snd kr)) d.

(** The digest of kind [kind] that a check of path [p] observes and finds
    different from the stored one; [None] when the path passes. *)
Definition mismatch (hash : string -> string -> option string) (kind : string)
    (d : Dict.t file_record) (p : string) : option string :=
  match Dict.get p d with
  | Some r =>
      match r_fullpath r, r_hashes r with
      | Some fp, Some st =>
          match hash kind fp with
          | Some h => if YaManifest.agrees st kind h then None else Some h
          | None => None
          end
      | _, _ => None
      end
  | None => None
  end.

Definition fast_mismatch hash := mismatch hash "binhash".
Definition full_mismatch hash := mismatch hash "md5".

(** What [check_fast] may change in a document [d]: in [dc] every record
    is still well formed, every path has the full path it had, and every hash
    entry other than the fast one is as it was. *)
Definition frame (d dc : Dict.t file_record) : Prop :=
  wf_doc dc = true
  /\ (forall p, fullpath_of dc p = fullpath_of d p)
  /\ (forall p kind, kind <> "binhash" -> entry dc p kind = entry d p kind).

(** Every path of [d] that fails the fast check has, in [dc], the fast
    digest the check observed, and every other path the fast entry it had. *)
Definition fast_saved (hash : string -> string -> option string)
    (d dc : Dict.t file_record) : Prop :=
  (forall p f, fast_mismatch hash d p = Some f ->
     entry dc p "binhash" = Some (Some f))
  /\ (forall p, fast_mismatch hash d p = None ->
       entry dc p "binhash" = entry d p "binhash").

(** What [check_file] leaves in [hashvals] for the fast kinds: exactly one
    pair, the fast kind and the digest observed. *)
Definition fast_item (hash : string -> string -> option string)
    (d : Dict.t file_record) (item : string * Dict.t string) : Prop :=
  exists f, fast_mismatch hash d (fst item) = Some f
            /\ snd item = [("binhash", f)].

(** The first of [paths] whose full check fails, with the digest observed. *)
Fixpoint first_full_mismatch (hash : string -> string -> option string)
    (d : Dict.t file_record) (paths : list string) : option (string * string) :=
  match paths with
  | [] => None
  | p :: rest =>
      match full_mismatch hash d p with
      | Some w => Some (p, w)
      | None => first_full_mismatch hash d rest
      end
  end.

(** [d.get(k, None)] on a hash dictionary entry. *)
Definition flat (o : option (option string)) : option string :=
  match o with Some v => v | None => None end.

(** The manifest file at [p] exists and holds no record. *)
Definition loads_empty (disk : string -> option YaManifest.persisted)
    (p : string) : bool :=
  match disk p with
  | Some (_, []) => true
  | _ => false
  end.

(** The manifest file at [p] exists and holds at least one record. *)
Definition present_and_non_empty (disk : string -> option YaManifest.persisted)
    (p : string) : bool :=
  match disk p with
  | Some (_, _ :: _) => true
  | _ => false
  end.

(** [base/c1/.../cn]: the directories [dirs] below [base], outermost first. *)
Definition under (base : string) (dirs : list string) : string :=
  fold_left (fun p c => (p ++ "/" ++ c)%string) dirs base.

(** A directory name: not empty and without a separator. *)
Definition component (c : string) : bool :=
  (negb (String.eqb c "") && forallb PosixPath.not_sep (Str.chars c))%bool.

(** A path that ends in a character other than the separator. *)
Definition clean (l : list ascii) : Prop :=
  exists q x, l = q ++ [x] /\ PosixPath.is_sep x = false.

(** The parts of [l] between separators. *)
Fixpoint parts (cur : list ascii) (l : list ascii) : list string :=
  match l with
  | [] => [Str.of_chars (rev cur)]
  | c :: r =>
      if PosixPath.is_sep c then Str.of_chars (rev cur) :: parts [] r
      else parts (c :: cur) r
  end.

(** The names of the directories above the file [p]. *)
Definition ancestor_names (p : string) : list string :=
  parts [] (Str.chars (PosixPath.dirname p)).

(** The copy flag as [copy_file] reads it. *)
Definition copy_flag (d : Dict.t file_record) (p : string) : bool :=
  match Dict.get p d with
  | Some r => match r_copy r with Some flag => flag | None => false end
  | None => false
  end.

(** The call [make_links] makes for one tracked path with a full path. *)
Definition link_call (d : Dict.t file_record) (p fp : string) : event :=
  if copy_flag d p then CopyFile fp p else Symlink fp p.

(** The calls [make_links] makes for the paths [ps], one for each path that
    has a full path. *)
Definition link_calls (d : Dict.t file_record) (ps : list string) : list event :=
  flat_map (fun p => match fullpath_of d p with
                     | Some fp => [link_call d p fp]
                     | None => []
                     end) ps.

(** No tracked path fails the check of [kind]. *)
Definition all_pass (hash : string -> string -> option string) (kind : string)
    (d : Dict.t file_record) : Prop :=
  forall p, mismatch hash kind d p = None.

(** The non-empty names among the parts of a path. *)
Definition names (head : string) : list string :=
  filter (fun c => negb (String.eqb c "")) (parts [] (Str.chars head)).

(** The restart number of the last name of [cs] that gives one. *)
Fixpoint nearest (cs : list string) : option Z :=
  match cs with
  | [] => None
  | c :: rest =>
      match nearest rest with
      | Some n => Some n
      | None => Manifest.restart_number c
      end
  end.

(** Among the names of the directories above the file [fp], the last one
    that gives a restart number is [restart003]. *)
Definition nearest_restart003 (fp : string) : Prop :=
  exists pre post,
    names (PosixPath.dirname fp) = pre ++ "restart003" :: post
    /\ Forall (fun c => Manifest.restart_number c = None) post.

(** Every call of [calls], made one after the other after the events [tr],
    succeeds. *)
Fixpoint calls_succeed (io_error : list event -> event -> option string)
    (tr : list event) (calls : list event) : bool :=
  match calls with
  | [] => true
  | e :: rest =>
      match io_error tr e with
      | Some _ => false
      | None => calls_succeed io_error (tr ++ [e]) rest
      end
  end.

(** The copies [copy_manifests] attempts after the events [tr]: that of
    each manifest up to and including the first whose copy fails. *)
Fixpoint copy_attempts (io_error : list event -> event -> option string)
    (tr : list event) (dest : string) (srcs : list string) : list event :=
  match srcs with
  | [] => []
  | src :: rest =>
      CopyFile src dest ::
      match io_error tr (CopyFile src dest) with
      | Some _ => []
      | None => copy_attempts io_error (tr ++ [CopyFile src dest]) dest rest
      end
  end.

(** The number the walk finds above the tracked path [p], within [fuel]
    rounds. *)
Definition resolved (fuel : nat) (d : Dict.t file_record) (p : string)
    : option Z :=
  match fullpath_of d p with
  | Some fp => Manifest.walk fuel (PosixPath.dirname fp)
  | None => None
  end.

Definition is_stdout (e : event) : bool :=
  match e with Stdout _ _ => true | _ => false end.

(** Every model collaborator has been told that there is a restart manifest. *)
Definition all_marked (e : Manifest.experiment) : bool :=
  forallb Manifest.model_have_restart_manifest (Manifest.models e).

(** The record [add_filepath] leaves for a path: the full path given, the
    hash dictionary the path had or every kind mapped to null, and the copy
    flag set when [copy] is true and otherwise as it was. *)
Definition registered (old : option file_record) (fullpath : string)
    (copy : bool) : file_record :=
  {| r_fullpath := Some fullpath;
     r_hashes :=
       Some match old with
            | Some {| r_hashes := Some h |} => h
            | _ => PayuManifest.fresh_hashes
            end;
     r_copy :=
       if copy then Some true
       else match old with Some r => r_copy r | None => None end |}.

(** *** Sample worlds *)

Definition sample_record (fullpath : string) (binhash md5 : option string)
    : file_record :=
  {| r_fullpath := Some fullpath;
     r_hashes := Some [("binhash", binhash); ("md5", md5)];
     r_copy := None |}.

(** Manifest files of a run that has input and executable manifests and
    the given restart manifest. *)
Definition sample_disk (restart : Dict.t file_record) (p : string)
    : option YaManifest.persisted :=
  if String.eqb p "manifests/restart.yaml" then Some ([], restart)
  else if String.eqb p "manifests/input.yaml" then
    Some ([], [("INPUT/grid.nc",
                sample_record "/g/data/input/grid.nc" (Some "b1") (Some "m1"))])
  else if String.eqb p "manifests/exe.yaml" then
    Some ([], [("mom.x",
                sample_record "/g/data/bin/mom.x" (Some "b2") (Some "m2"))])
  else None.

Definition sample_expt : Manifest.experiment :=
  {| Manifest.config_manifest := None;
     Manifest.models := [ {| Manifest.model_have_restart_manifest := false |} ];
     Manifest.counter := Some 0%Z |}.

(** Two restart files kept under different restart directories. *)
Definition two_restarts : Dict.t file_record :=
  [("ocean.res.nc",
    sample_record "/scratch/archive/restart003/ocean.res.nc" (Some "b3") (Some "m3"));
   ("ice.res.nc",
    sample_record "/scratch/archive/restart007/ice.res.nc" (Some "b4") (Some "m4"))].

(** A restart file with no restart directory above it. *)
Definition stray_restart : Dict.t file_record :=
  [("ocean.res.nc",
    sample_record "/scratch/run/ocean.res.nc" (Some "b3") (Some "m3"))].

(** A restart file with a second numbered directory below [restart003]. *)
Definition nested_restart : Dict.t file_record :=
  [("ocean.res.nc",
    sample_record "/scratch/archive/restart003/restart1/ocean.res.nc"
      (Some "b3") (Some "m3"))].

(** A document that tracks one file. *)
Definition sample_manifest : manifest :=
  {| path := "manifests/input.yaml";
     header := [];
     data := [("report.txt",
               sample_record "/data/report.txt" (Some "ab12") (Some "m1"))];
     ignore := [".*"] |}.

(** A hashing primitive under which every file has the fast digest [cd34]
    and the full digest [md5]. *)
Definition sample_hash (md5 : string) (kind fullpath : string) : option string :=
  if String.eqb kind "binhash" then Some "cd34"
  else if String.eqb kind "md5" then Some md5
  else None.

(** A document that tracks two files, and a hashing primitive under which
    both have a new fast digest and only the second a new full digest. *)
Definition two_files : manifest :=
  {| path := "manifests/input.yaml";
     header := [];
     data := [("a.nc", sample_record "/data/a.nc" (Some "a0") (Some "ma"));
              ("b.nc", sample_record "/data/b.nc" (Some "b0") (Some "mb"))];
     ignore := [".*"] |}.

Definition two_files_hash (kind fullpath : string) : option string :=
  if String.eqb kind "binhash" then
    Some (if String.eqb fullpath "/data/a.nc" then "a1" else "b1")
  else if String.eqb kind "md5" then
    Some (if String.eqb fullpath "/data/a.nc" then "ma" else "mb-new")
  else None.

(** A restart file two directories below [restart003]. *)
Definition deep_restart : Dict.t file_record :=
  [("ocean.res.nc",
    sample_record "/scratch/archive/restart003/ocean/ocean.res.nc"
      (Some "b3") (Some "m3"))].

(** The calls the coordinator's [make_links] makes for its three manifests. *)
Definition link_calls_all (c : Manifest.coordinator) : list event :=
  link_calls (data (Manifest.exe_manifest c))
    (Dict.keys (data (Manifest.exe_manifest c))) ++
  link_calls (data (Manifest.input_manifest c))
    (Dict.keys (data (Manifest.input_manifest c))) ++
  link_calls (data (Manifest.restart_manifest c))
    (Dict.keys (data (Manifest.restart_manifest c))).

(** What the first half of the coordinator's [make_links] writes when no
    call fails: its first line, the calls for the three manifests, and the
    line that announces the checks. *)
Definition links_made (c : Manifest.coordinator) : list event :=
  Stdout "Making links from manifests" [] ::
  link_calls_all c ++ [Stdout "Checking exe and input manifests" []].

(** A file system on which every call succeeds. *)
Definition no_error {A} (tr : list event) (e : A) : option string := None.

(** A file system on which copying [/data/b.nc] fails. *)
Definition b_unreadable (tr : list event) (e : event) : option string :=
  match e with
  | CopyFile src _ =>
      if String.eqb src "/data/b.nc" then Some "/data/b.nc" else None
  | _ => None
  end.

(** A document of three files, to be copied rather than linked. *)
Definition three_copies : manifest :=
  {| path := "manifests/input.yaml";
     header := [];
     data :=
       map (fun '(p, fp) =>
              (p, {| r_fullpath := Some fp;
                     r_hashes := Some [("binhash", None); ("md5", None)];
                     r_copy := Some true |}))
           [("a.nc", "/data/a.nc"); ("b.nc", "/data/b.nc");
            ("c.nc", "/data/c.nc")];
     ignore := [".*"] |}.

(** A hashing primitive under which the file of [sample_manifest] has the
    digests recorded for it. *)
Definition steady_hash (kind fullpath : string) : option string :=
  if String.eqb kind "binhash" then Some "ab12"
  else if String.eqb kind "md5" then Some "m1"
  else None.

(** A document whose second record has no full path. *)
Definition broken_manifest : manifest :=
  {| path := "manifests/input.yaml";
     header := [];
     data := [("a.nc", sample_record "/data/a.nc" (Some "a0") (Some "ma"));
              ("b.nc", {| r_fullpath := None; r_hashes := None;
                          r_copy := None |});
              ("c.nc", sample_record "/data/c.nc" (Some "c0") (Some "mc"))];
     ignore := [".*"] |}.

(** An experiment configured to overwrite its input manifest. *)
Definition overwrite_expt : Manifest.experiment :=
  {| Manifest.config_manifest :=
       Some {| Manifest.cfg_reproduce_exe := None;
               Manifest.cfg_ignore := None;
               Manifest.cfg_overwrite := Some true |};
     Manifest.models := [ {| Manifest.model_have_restart_manifest := false |} ];
     Manifest.counter := Some 0%Z |}.

(** A coordinator under [reproduce] whose three manifests track the file of
    [sample_manifest]. *)
Definition sample_coordinator : Manifest.coordinator :=
  let c := Manifest.this (Manifest.init [] sample_expt true) in
  Manifest.set_exe_manifest
    (Manifest.set_input_manifest
       (Manifest.set_restart_manifest c sample_manifest) sample_manifest)
    sample_manifest.

(** The counter [setup] leaves in the experiment. *)
Definition counter_after (r : outcome unit * Manifest.cstate) : option Z :=
  Manifest.counter (Manifest.expt (Manifest.this (snd r))).

(** Events that materialize a tracked file in the work directory. *)
Definition is_link (e : event) : bool :=
  match e with Symlink _ _ | CopyFile _ _ => true | _ => false end.

(** ** Dictionaries *)

Section DictFacts.
Context {V : Type}.
Implicit Types (d : Dict.t V) (k : string) (v : V).

Lemma get_set_same d k v : Dict.get k (Dict.set k v d) = Some v.
Proof.
  induction d as [|[k' v'] d IH]; simpl.
  - now rewrite String.eqb_refl.
  - destruct (String.eqb k k') eqn:E; simpl.
    + now rewrite String.eqb_refl.
    + now rewrite E.
Qed.

Lemma get_set_other d k k' v :
  k' <> k -> Dict.get k' (Dict.set k v d) = Dict.get k' d.
Proof.
  intros N. induction d as [|[k0 v0] d IH]; simpl.
  - apply String.eqb_neq in N. now rewrite N.
  - destruct (String.eqb k k0) eqn:E; simpl.
    + apply String.eqb_eq in E. subst k0.
      apply String.eqb_neq in N. now rewrite N.
    + now rewrite IH.
Qed.

Lemma get_In d k v : Dict.get k d = Some v -> In (k, v) d.
Proof.
  induction d as [|[k0 v0] d IH]; simpl; [discriminate|].
  destruct (String.eqb k k0) eqn:E.
  - apply String.eqb_eq in E. intros [= ->]. subst. now left.
  - intros H. right. auto.
Qed.

Lemma get_keys d k v : Dict.get k d = Some v -> In k (Dict.keys d).
Proof.
  intros H. apply get_In in H. unfold Dict.keys.
  change k with (fst (k, v)). now apply in_map.
Qed.

Lemma keys_get d k : In k (Dict.keys d) -> exists v, Dict.get k d = Some v.
Proof.
  induction d as [|[k0 v0] d IH]; simpl; [tauto|].
  intros [E|H].
  - subst. rewrite String.eqb_refl. eauto.
  - destruct (String.eqb k k0); eauto.
Qed.

Lemma get_Forall (P : string * V -> Prop) d k v :
  Forall P d -> Dict.get k d = Some v -> P (k, v).
Proof.
  intros F H. apply get_In in H. rewrite Forall_forall in F. auto.
Qed.

Lemma set_Forall (P : string * V -> Prop) d k v :
  Forall P d -> P (k, v) -> Forall P (Dict.set k v d).
Proof.
  intros F H. induction F as [|[k0 v0] d H0 F IH]; simpl.
  - constructor; auto.
  - destruct (String.eqb k k0); constructor; auto.
Qed.

Lemma set_nonempty d k v : Dict.set k v d <> [].
Proof.
  destruct d as [|[k0 v0] d]; simpl; [discriminate|].
  destruct (String.eqb k k0); discriminate.
Qed.
End DictFacts.

(** ** copy_file and add_filepath *)

(** C10.  For every document and every path, [copy_file] returns normally,
    leaves the state unchanged, and yields the stored copy flag when the
    path is tracked and its record has one, [False] otherwise: a missing
    path or a missing flag never raises. *)
Theorem copy_file_never_raises (filepath : string) (s : pstate) :
  PayuManifest.copy_file filepath s =
  (Normal
     match Dict.get filepath (data (self s)) with
     | Some r => match r_copy r with Some flag => flag | None => false end
     | None => false
     end, s).
Proof.
  unfold PayuManifest.copy_file, PayuManifest.except_KeyError,
    YaManifest.record_of, getitem, field, bind, gets, ret, raise.
  destruct (Dict.get filepath (data (self s))) as [r|]; [|reflexivity].
  destruct (r_copy r); reflexivity.
Qed.

(** C9.  [add_filepath] always returns normally and emits nothing.  When the
    full path is a directory, or its base name matches one of the ignore
    patterns, the state is left exactly as it was: no record is created.
    Otherwise the path is tracked afterwards with the given full path; its
    hash dictionary is the one it already had, or every hash kind mapped to
    null, so no digest is computed; its copy flag is set when [copy] is true;
    and every other path is left as it was. *)
Theorem add_filepath_skips_or_registers
    (isdir : string -> bool) (fnmatch : string -> string -> bool)
    (filepath fullpath : string) (copy : bool) (s : pstate) :
  exists s',
    PayuManifest.add_filepath isdir fnmatch filepath fullpath copy s
      = (Normal tt, s') /\
    trace s' = trace s /\
    if (isdir fullpath
        || existsb (fun pattern => fnmatch (PosixPath.basename fullpath) pattern)
             (ignore (self s)))%bool
    then s' = s
    else
      let old := Dict.get filepath (data (self s)) in
      Dict.get filepath (data (self s')) =
        Some {| r_fullpath := Some fullpath;
                r_hashes :=
                  Some match old with
                       | Some {| r_hashes := Some h |} => h
                       | _ => map (fun kind => (kind, None)) ["binhash"; "md5"]
                       end;
                r_copy :=
                  if copy then Some true
                  else match old with Some r => r_copy r | None => None end |}
      /\ forall other, other <> filepath ->
           Dict.get other (data (self s')) = Dict.get other (data (self s)).
Proof.
  unfold PayuManifest.add_filepath, PayuManifest.ignored.
  destruct (isdir fullpath); simpl; [exists s; auto|].
  unfold bind at 1. unfold gets at 1.
  destruct (existsb _ (ignore (self s))); [exists s; auto|].
  destruct s as [m tr]. simpl.
  unfold YaManifest.record_of, Dict.contains, on_self, modify, bind, gets,
    getitem, ret. simpl.
  destruct (Dict.get filepath (data m)) as [r|] eqn:G; simpl.
  - rewrite G. simpl. rewrite get_set_same. simpl.
    destruct r as [fp [h|] c]; simpl;
      destruct copy; simpl; repeat rewrite get_set_same; simpl;
      eexists; (split; [reflexivity|]); simpl; (split; [reflexivity|]);
      rewrite get_set_same; (split; [reflexivity|]);
      intros other N; repeat rewrite get_set_other by assumption; reflexivity.
  - rewrite get_set_same. simpl. repeat rewrite get_set_same. simpl.
    destruct copy; simpl; repeat rewrite get_set_same; simpl;
      eexists; (split; [reflexivity|]); simpl; (split; [reflexivity|]);
      rewrite get_set_same; (split; [reflexivity|]);
      intros other N; repeat rewrite get_set_other by assumption; reflexivity.
Qed.

(** ** setup: the preconditions of a reproducible run *)

(** Unfolds [setup] and the monad down to the tests on the disk and on the
    coordinator's fields. *)
Ltac run_setup :=
  cbv beta iota zeta delta
    [Manifest.setup bind gets Manifest.on_this modify Manifest.cprint
     Manifest.on_input Manifest.on_exe Manifest.on_restart Manifest.zoom
     YaManifest.load Manifest.exists_ sys_exit ret raise on_self
     YaManifest.len YaManifest.iter];
  simpl.

Section SetupFacts.
Variable disk : string -> option YaManifest.persisted.
Variable PAYU_CURRENT_RUN : option string.

(** C4.  Take a coordinator with [reproduce] set whose input and executable
    flags are still false, as the constructor leaves them.  If the restart
    manifest loads empty, or the input manifest is not present and non-empty,
    or executables are to be reproduced and the executable manifest is not
    present and non-empty, then [setup] does not return: whatever the fuel it
    ends in [exit(1)], or, when there is no restart manifest file to load at
    all, in the error raised by [load].  What it emitted up to there
    contains no link and no copy. *)
Theorem setup_reproduce_requires_manifests
    (fuel : nat) (s : Manifest.cstate) :
  Manifest.reproduce (Manifest.this s) = true ->
  Manifest.have_input_manifest (Manifest.this s) = false ->
  Manifest.have_exe_manifest (Manifest.this s) = false ->
  loads_empty disk (path (Manifest.restart_manifest (Manifest.this s))) = true
  \/ present_and_non_empty disk
       (path (Manifest.input_manifest (Manifest.this s))) = false
  \/ (Manifest.reproduce_exe (Manifest.this s) = true
      /\ present_and_non_empty disk
           (path (Manifest.exe_manifest (Manifest.this s))) = false) ->
  exists s' evs,
    Manifest.setup disk PAYU_CURRENT_RUN fuel s =
      (match disk (path (Manifest.restart_manifest (Manifest.this s))) with
       | Some _ => SystemExit 1
       | None =>
           Raised (IOError (path (Manifest.restart_manifest (Manifest.this s))))
       end, s') /\
    Manifest.ctrace s' = Manifest.ctrace s ++ evs /\
    existsb is_link evs = false.
Proof.
  destruct s as [c tr]. simpl. intros Hrep Hin Hexe Hcase.
  unfold present_and_non_empty, loads_empty in Hcase.
  run_setup. rewrite Hrep.
  destruct (disk (path (Manifest.input_manifest c))) as [[hi di]|] eqn:Di;
    simpl;
    [destruct (Manifest.get_default
                 (Manifest.cfg_overwrite (Manifest.manifest_config c)) false)
       eqn:Ov; simpl;
     [|rewrite ?Di; simpl; destruct di as [|ri di]; simpl]|];
    (destruct (disk (path (Manifest.exe_manifest c))) as [[he de]|] eqn:De;
     simpl; [rewrite ?De; simpl; destruct de as [|re de]; simpl|]);
    (destruct (disk (path (Manifest.restart_manifest c)))
       as [[hr [|rr dr]]|] eqn:Dr;
     simpl; rewrite ?Dr; simpl; rewrite ?Hin, ?Hexe; simpl).
  all: try (do 2 eexists; split; [reflexivity|]; simpl; split;
            [rewrite <- ?app_assoc; reflexivity | reflexivity]).
  all: destruct (Manifest.reproduce_exe c) eqn:Rexe; simpl.
  all: try (do 2 eexists; split; [reflexivity|]; simpl; split;
            [rewrite <- ?app_assoc; reflexivity | reflexivity]).
  all: exfalso; destruct Hcase as [H|[H|[H1 H2]]]; congruence.
Qed.
End SetupFacts.

(** ** Paths *)

Example split_examples :
  PosixPath.split "/scratch/restart003/ocean" = ("/scratch/restart003", "ocean")
  /\ PosixPath.split "/scratch" = ("/", "scratch")
  /\ PosixPath.split "/" = ("/", "")
  /\ PosixPath.split "" = ("", "")
  /\ PosixPath.split "a//b" = ("a", "b")
  /\ PosixPath.split "//a" = ("//", "a")
  /\ PosixPath.split "work/" = ("work", "").
Proof. repeat split. Qed.

Example restart_number_examples :
  Manifest.restart_number "restart003" = Some 3%Z
  /\ Manifest.restart_number "restart-1" = Some (-1)%Z
  /\ Manifest.restart_number "restart1_0" = Some 10%Z
  /\ Manifest.restart_number "restarts12" = Some 12%Z
  /\ Manifest.restart_number "restart" = None
  /\ Manifest.restart_number "restart_01" = None
  /\ Manifest.restart_number "restart003.old" = None
  /\ Manifest.restart_number "RESTART" = None
  /\ Manifest.restart_number "ocean" = None.
Proof. repeat split. Qed.

(** Names that [int] reads as Python does: Arabic-Indic digits and a
    leading no-break space are accepted, a separator control character is
    not white space. *)
Example restart_number_unicode_examples :
  Manifest.restart_number
    ("restart" ++ Str.of_chars (map ascii_of_nat [217; 161; 217; 162]))%string
    = Some 12%Z
  /\ Manifest.restart_number
       ("restart" ++ Str.of_chars (map ascii_of_nat [194; 160; 53]))%string
     = Some 5%Z
  /\ Manifest.restart_number
       ("restart" ++ Str.of_chars (map ascii_of_nat [28; 53]))%string
     = None.
Proof. repeat split; reflexivity. Qed.

Lemma chars_append (a b : string) :
  Str.chars (a ++ b)%string = Str.chars a ++ Str.chars b.
Proof.
  unfold Str.chars. induction a as [|x a IH]; simpl; [reflexivity|].
  now rewrite IH.
Qed.

Lemma of_chars_chars (s : string) : Str.of_chars (Str.chars s) = s.
Proof. apply string_of_list_ascii_of_string. Qed.

Lemma forallb_rev {A} (p : A -> bool) (l : list A) :
  forallb p (rev l) = forallb p l.
Proof.
  induction l as [|x l IH]; simpl; [reflexivity|].
  rewrite forallb_app, IH. simpl. rewrite andb_true_r. apply andb_comm.
Qed.

Lemma take_while_stop (p : ascii -> bool) (a b : list ascii) (x : ascii) :
  forallb p a = true -> p x = false -> Str.take_while p (a ++ x :: b) = a.
Proof.
  intros Ha Hx. induction a as [|y a IH]; simpl in *.
  - now rewrite Hx.
  - apply andb_prop in Ha as [Hy Ha]. rewrite Hy. now rewrite IH.
Qed.

Lemma drop_while_stop (p : ascii -> bool) (a b : list ascii) (x : ascii) :
  forallb p a = true -> p x = false -> Str.drop_while p (a ++ x :: b) = x :: b.
Proof.
  intros Ha Hx. induction a as [|y a IH]; simpl in *.
  - now rewrite Hx.
  - apply andb_prop in Ha as [Hy Ha]. rewrite Hy. now apply IH.
Qed.

Lemma raw_tail_join (q c : list ascii) :
  forallb PosixPath.not_sep c = true ->
  PosixPath.raw_tail (q ++ "/"%char :: c) = c.
Proof.
  intros Hc. unfold PosixPath.raw_tail.
  rewrite rev_app_distr. simpl. rewrite <- app_assoc. simpl.
  rewrite take_while_stop; [apply rev_involutive | | reflexivity].
  now rewrite forallb_rev.
Qed.

Lemma raw_head_join (q c : list ascii) :
  forallb PosixPath.not_sep c = true ->
  PosixPath.raw_head (q ++ "/"%char :: c) = q ++ ["/"%char].
Proof.
  intros Hc. unfold PosixPath.raw_head.
  rewrite rev_app_distr. simpl. rewrite <- app_assoc. simpl.
  rewrite drop_while_stop; [| now rewrite forallb_rev | reflexivity].
  simpl. now rewrite rev_involutive.
Qed.

Lemma trim_head_clean (q : list ascii) :
  clean q -> PosixPath.trim_head (q ++ ["/"%char]) = q.
Proof.
  intros (q0 & x & -> & Hx). unfold PosixPath.trim_head.
  destruct ((q0 ++ [x]) ++ ["/"%char]) eqn:E.
  - destruct q0; discriminate.
  - rewrite <- E. clear E.
    rewrite !forallb_app. simpl. rewrite Hx. simpl.
    rewrite andb_false_r. simpl.
    rewrite !rev_app_distr. simpl. rewrite Hx.
    simpl. rewrite rev_involutive. reflexivity.
Qed.

Lemma split_join (q c : string) :
  clean (Str.chars q) ->
  forallb PosixPath.not_sep (Str.chars c) = true ->
  PosixPath.split (q ++ "/" ++ c)%string = (q, c).
Proof.
  intros Hq Hc. unfold PosixPath.split.
  rewrite !chars_append. change (Str.chars "/") with ["/"%char]. simpl.
  rewrite raw_tail_join, raw_head_join by assumption.
  rewrite trim_head_clean by assumption.
  now rewrite !of_chars_chars.
Qed.

Lemma split_tail (q c : string) :
  forallb PosixPath.not_sep (Str.chars c) = true ->
  snd (PosixPath.split (q ++ "/" ++ c)%string) = c.
Proof.
  intros Hc. unfold PosixPath.split. simpl.
  rewrite !chars_append. change (Str.chars "/") with ["/"%char]. simpl.
  rewrite raw_tail_join by assumption. apply of_chars_chars.
Qed.

Lemma component_sep_free (c : string) :
  component c = true -> forallb PosixPath.not_sep (Str.chars c) = true.
Proof. unfold component. intros H. now apply andb_prop in H. Qed.

Lemma component_clean (q c : string) :
  component c = true -> clean (Str.chars (q ++ "/" ++ c)%string).
Proof.
  unfold component. intros H. apply andb_prop in H as [Hne Hsf].
  rewrite !chars_append.
  destruct (exists_last (l := Str.chars c)) as (l & x & E).
  - intros E. destruct c; [discriminate|]. discriminate.
  - rewrite E in *. exists (Str.chars q ++ Str.chars "/" ++ l), x. split.
    + now rewrite <- !app_assoc.
    + rewrite forallb_app in Hsf. apply andb_prop in Hsf as [_ Hx].
      simpl in Hx. rewrite andb_true_r in Hx.
      unfold PosixPath.not_sep in Hx. now apply negb_true_iff in Hx.
Qed.

Lemma under_snoc (base : string) (dirs : list string) (c : string) :
  under base (dirs ++ [c]) = (under base dirs ++ "/" ++ c)%string.
Proof. unfold under. now rewrite fold_left_app. Qed.

Lemma under_clean (base : string) (dirs : list string) :
  clean (Str.chars base) ->
  Forall (fun c => component c = true) dirs ->
  clean (Str.chars (under base dirs)).
Proof.
  intros Hb F. destruct dirs as [|c0 dirs0] using rev_ind; [exact Hb|].
  rewrite under_snoc. apply component_clean.
  apply Forall_app in F as [_ F]. now inversion F.
Qed.

(** ** The walk over the ancestors *)

Lemma walk_found (fuel : nat) (head : string) (n : Z) :
  Manifest.restart_number (snd (PosixPath.split head)) = Some n ->
  Manifest.walk (S fuel) head = Some n.
Proof.
  intros H. cbn [Manifest.walk].
  destruct (PosixPath.split head) as [h t]. cbn [snd] in H. now rewrite H.
Qed.

Lemma walk_step (fuel : nat) (head head' tail : string) :
  PosixPath.split head = (head', tail) ->
  Manifest.restart_number tail = None ->
  Manifest.walk (S fuel) head = Manifest.walk fuel head'.
Proof. intros E H. cbn [Manifest.walk]. now rewrite E, H. Qed.

(** At the root the walk stays at the root. *)
Lemma walk_root (fuel : nat) : Manifest.walk fuel "/" = None.
Proof.
  induction fuel as [|fuel IH]; [reflexivity|].
  now rewrite (walk_step fuel "/" "/" "").
Qed.

(** The nearest ancestor whose name gives a number decides. *)
Lemma walk_under (base : string) (n : Z) (dirs : list string) :
  forall fuel,
  clean (Str.chars base) ->
  Manifest.restart_number (snd (PosixPath.split base)) = Some n ->
  Forall (fun c => component c = true /\ Manifest.restart_number c = None)
    dirs ->
  length dirs < fuel ->
  Manifest.walk fuel (under base dirs) = Some n.
Proof.
  induction dirs as [|c dirs IH] using rev_ind; intros fuel Hb Hn F L.
  - destruct fuel; [inversion L|]. now apply walk_found.
  - apply Forall_app in F as [F Fc]. inversion Fc as [|? ? [Hc Hr] _]. subst.
    rewrite length_app in L. simpl in L.
    destruct fuel; [inversion L|].
    rewrite under_snoc.
    rewrite (walk_step fuel _ (under base dirs) c); auto.
    + apply IH; auto. lia.
    + apply split_join.
      * apply under_clean; auto.
        eapply Forall_impl; [|exact F]. now intros a [Ha _].
      * now apply component_sep_free.
Qed.

Lemma dirname_file (dir f : string) :
  clean (Str.chars dir) ->
  forallb PosixPath.not_sep (Str.chars f) = true ->
  PosixPath.dirname (dir ++ "/" ++ f)%string = dir.
Proof.
  intros Hd Hf. unfold PosixPath.dirname. now rewrite split_join.
Qed.

(** ** The names above a path and the walk *)

Lemma parts_app (a b cur : list ascii) :
  parts cur (a ++ "/"%char :: b) = parts cur a ++ parts [] b.
Proof.
  revert cur. induction a as [|c a IH]; intros cur; simpl; [reflexivity|].
  destruct (PosixPath.is_sep c); simpl; now rewrite IH.
Qed.

Lemma parts_sep_free (c cur : list ascii) :
  forallb PosixPath.not_sep c = true ->
  parts cur c = [Str.of_chars (rev cur ++ c)].
Proof.
  revert cur. induction c as [|x c IH]; intros cur H; simpl in *.
  - now rewrite app_nil_r.
  - apply andb_prop in H as [Hx Hc]. unfold PosixPath.not_sep in Hx.
    apply negb_true_iff in Hx. rewrite Hx. rewrite IH by assumption.
    simpl. now rewrite <- app_assoc.
Qed.

Lemma is_sep_eq (c : ascii) : PosixPath.is_sep c = true -> c = "/"%char.
Proof. unfold PosixPath.is_sep, PosixPath.sep. apply Ascii.eqb_eq. Qed.

Lemma take_drop_while (p : ascii -> bool) (l : list ascii) :
  Str.take_while p l ++ Str.drop_while p l = l.
Proof.
  induction l as [|c l IH]; simpl; [reflexivity|].
  destruct (p c); simpl; [now rewrite IH | reflexivity].
Qed.

Lemma take_while_all (p : ascii -> bool) (l : list ascii) :
  forallb p (Str.take_while p l) = true.
Proof.
  induction l as [|c l IH]; simpl; [reflexivity|].
  destruct (p c) eqn:E; simpl; [now rewrite E | reflexivity].
Qed.

Lemma drop_while_head (p : ascii -> bool) (l : list ascii) :
  Str.drop_while p l = [] \/
  exists c r, Str.drop_while p l = c :: r /\ p c = false.
Proof.
  induction l as [|c l IH]; simpl; [now left|].
  destruct (p c) eqn:E; [exact IH|]. right. eauto.
Qed.

Lemma drop_while_length (p : ascii -> bool) (l : list ascii) :
  length (Str.drop_while p l) <= length l.
Proof.
  induction l as [|c l IH]; simpl; [lia|]. destruct (p c); simpl; lia.
Qed.

(** A path is its raw head followed by its tail; the tail has no separator
    and the raw head is empty or ends with one. *)
Lemma raw_head_tail (l : list ascii) :
  l = PosixPath.raw_head l ++ PosixPath.raw_tail l
  /\ forallb PosixPath.not_sep (PosixPath.raw_tail l) = true
  /\ (PosixPath.raw_head l = [] \/
      exists q, PosixPath.raw_head l = q ++ ["/"%char]).
Proof.
  unfold PosixPath.raw_head, PosixPath.raw_tail. split; [|split].
  - rewrite <- rev_app_distr, take_drop_while. now rewrite rev_involutive.
  - rewrite forallb_rev. apply take_while_all.
  - destruct (drop_while_head PosixPath.not_sep (rev l)) as [E|(c & r & E & Hc)].
    + left. now rewrite E.
    + right. rewrite E. simpl. exists (rev r).
      unfold PosixPath.not_sep in Hc. apply negb_false_iff in Hc.
      now rewrite (is_sep_eq c Hc).
Qed.

Local Abbreviation named := (filter (fun c : string => negb (String.eqb c ""))).

Lemma named_rstrip (y : list ascii) :
  named (parts [] (rev (Str.drop_while PosixPath.is_sep y)))
  = named (parts [] (rev y)).
Proof.
  induction y as [|c y IH]; simpl; [reflexivity|].
  destruct (PosixPath.is_sep c) eqn:E; [|reflexivity].
  rewrite IH, (is_sep_eq c E), parts_app, filter_app. simpl.
  now rewrite app_nil_r.
Qed.

Lemma named_trim_head (x : list ascii) :
  named (parts [] (PosixPath.trim_head x)) = named (parts [] x).
Proof.
  unfold PosixPath.trim_head. destruct x as [|c x]; [reflexivity|].
  destruct (forallb PosixPath.is_sep (c :: x)); [reflexivity|].
  rewrite named_rstrip. now rewrite rev_involutive.
Qed.

Lemma named_all_sep (x : list ascii) :
  forallb PosixPath.is_sep x = true -> named (parts [] x) = [].
Proof.
  induction x as [|c x IH]; simpl; [reflexivity|].
  intros H. apply andb_prop in H as [Hc Hx]. rewrite Hc. simpl. auto.
Qed.

Lemma chars_of_chars (l : list ascii) : Str.chars (Str.of_chars l) = l.
Proof. apply list_ascii_of_string_of_list_ascii. Qed.

Lemma chars_length (s : string) : length (Str.chars s) = String.length s.
Proof. induction s as [|c s IH]; simpl; [reflexivity | now rewrite IH]. Qed.

(** One round of the walk takes the last name off the path. *)
Lemma names_split (head : string) :
  names head =
  names (fst (PosixPath.split head))
  ++ named [snd (PosixPath.split head)].
Proof.
  unfold names, PosixPath.split. cbn [fst snd].
  rewrite !chars_of_chars.
  destruct (raw_head_tail (Str.chars head)) as (E & Hsf & [H0|[q Hq]]).
  - rewrite H0 in *. simpl in E. rewrite <- E. simpl.
    rewrite parts_sep_free by (now rewrite E). reflexivity.
  - rewrite named_trim_head.
    rewrite E at 1. rewrite Hq, <- app_assoc. simpl.
    rewrite !parts_app, !filter_app.
    rewrite (parts_sep_free (PosixPath.raw_tail (Str.chars head)) [] Hsf).
    simpl. now rewrite app_nil_r.
Qed.

Lemma nearest_snoc (cs : list string) (t : string) :
  nearest (cs ++ named [t]) =
  match Manifest.restart_number t with
  | Some n => Some n
  | None => nearest cs
  end.
Proof.
  assert (T : nearest (named [t]) = Manifest.restart_number t).
  { simpl. destruct (String.eqb_spec t "") as [->|N]; reflexivity. }
  induction cs as [|c cs IH].
  - cbn [app]. rewrite T. now destruct (Manifest.restart_number t).
  - cbn [app nearest]. rewrite IH. now destruct (Manifest.restart_number t).
Qed.

(** A round that leaves names above makes the path shorter. *)
Lemma split_shorter (head : string) :
  names (fst (PosixPath.split head)) <> [] ->
  String.length (fst (PosixPath.split head)) < String.length head.
Proof.
  unfold names, PosixPath.split. cbn [fst].
  rewrite <- !chars_length, !chars_of_chars. intros N.
  destruct (raw_head_tail (Str.chars head)) as (E & Hsf & [H0|[q Hq]]).
  - rewrite H0 in N. now elim N.
  - rewrite Hq in *.
    assert (L0 : length (q ++ ["/"%char]) <= length (Str.chars head)).
    { rewrite E at 1. rewrite !length_app. simpl. lia. }
    rewrite length_app in L0. simpl in L0. clear E.
    unfold PosixPath.trim_head in *.
    destruct (q ++ ["/"%char]) as [|c x] eqn:Eq; [now elim N|].
    destruct (forallb PosixPath.is_sep (c :: x)) eqn:A.
    + elim N. now apply named_all_sep.
    + rewrite <- Eq in *. clear Eq A N.
      rewrite length_rev, rev_app_distr. simpl.
      pose proof (drop_while_length PosixPath.is_sep (rev q)) as L.
      rewrite length_rev in L. lia.
Qed.

(** The walk is sound: a number it ends with is that of the nearest name. *)
Lemma walk_sound (fuel : nat) :
  forall (head : string) (n : Z),
  Manifest.walk fuel head = Some n -> nearest (names head) = Some n.
Proof.
  induction fuel as [|fuel IH]; intros head n; [discriminate|].
  cbn [Manifest.walk]. rewrite (names_split head), nearest_snoc.
  destruct (PosixPath.split head) as [h t]. cbn [fst snd].
  destruct (Manifest.restart_number t); [auto|]. apply IH.
Qed.

(** The walk ends within as many rounds as the path has characters. *)
Lemma walk_complete (fuel : nat) :
  forall (head : string) (n : Z),
  nearest (names head) = Some n -> String.length head < fuel ->
  Manifest.walk fuel head = Some n.
Proof.
  induction fuel as [|fuel IH]; intros head n Hn L; [lia|].
  cbn [Manifest.walk]. pose proof (split_shorter head) as Sh.
  rewrite (names_split head), nearest_snoc in Hn.
  destruct (PosixPath.split head) as [h t]. cbn [fst snd] in *.
  destruct (Manifest.restart_number t); [exact Hn|].
  apply IH; [exact Hn|].
  assert (names h <> []) by (intros E; rewrite E in Hn; discriminate).
  specialize (Sh H). lia.
Qed.

(** The last name that gives a number decides. *)
Lemma nearest_found (pre post : list string) (c : string) (n : Z) :
  Manifest.restart_number c = Some n ->
  Forall (fun c => Manifest.restart_number c = None) post ->
  nearest (pre ++ c :: post) = Some n.
Proof.
  intros Hc Hp.
  assert (P : nearest post = None).
  { induction Hp as [|x post Hx _ IH]; [reflexivity|].
    cbn [nearest]. now rewrite IH. }
  induction pre as [|x pre IH].
  - cbn [app nearest]. now rewrite P.
  - cbn [app nearest]. now rewrite IH.
Qed.

(** ** setup: the restart sequence *)

Arguments Manifest.scan : simpl never.

Section ScanFacts.
Variable disk : string -> option YaManifest.persisted.
Variable PAYU_CURRENT_RUN : option string.

Lemma walk_restart003 (fuel : nat) (fp : string) :
  nearest_restart003 fp ->
  String.length (PosixPath.dirname fp) < fuel ->
  Manifest.walk fuel (PosixPath.dirname fp) = Some 3%Z.
Proof.
  intros (pre & post & E & F) L. apply walk_complete; [|exact L].
  rewrite E. now apply nearest_found.
Qed.

Lemma scan_cons (fuel : nat) (filepath : string) (rest : list string) :
  Manifest.scan fuel (filepath :: rest) =
  (fp <- Manifest.on_restart (YaManifest.fullpath filepath) ;;
   match Manifest.walk fuel (PosixPath.dirname fp) with
   | None => fun s => (OutOfFuel, s)
   | Some n =>
       Manifest.on_this (fun c => Manifest.set_counter c (Some (n + 1)%Z)) ;;;
       c <- gets Manifest.this ;;
       if Manifest.counter_is_zero c then ret tt
       else Manifest.scan fuel rest
   end).
Proof. reflexivity. Qed.

(** The scan when the walk of every path ends with the same number. *)
Lemma scan_all (fuel : nat) (n : Z) (dr : Dict.t file_record)
    (paths : list string) :
  forall s : Manifest.cstate,
  data (Manifest.restart_manifest (Manifest.this s)) = dr ->
  (forall p, In p paths ->
     exists r fp, Dict.get p dr = Some r /\ r_fullpath r = Some fp
                  /\ Manifest.walk fuel (PosixPath.dirname fp) = Some n) ->
  exists s',
    Manifest.scan fuel paths s = (Normal tt, s') /\
    Manifest.counter (Manifest.expt (Manifest.this s')) =
      match paths with
      | [] => Manifest.counter (Manifest.expt (Manifest.this s))
      | _ => Some (n + 1)%Z
      end.
Proof.
  induction paths as [|p paths IH]; intros s Hd Hp.
  - exists s. split; reflexivity.
  - destruct (Hp p (or_introl eq_refl)) as (r & fp & G & Hfp & Hw).
    destruct s as [c tr]. simpl in Hd. subst dr.
    rewrite scan_cons.
    cbv beta iota zeta delta
      [bind gets Manifest.on_this modify Manifest.on_restart
       Manifest.zoom YaManifest.fullpath YaManifest.record_of getitem field
       ret raise].
    simpl. rewrite G. simpl. rewrite Hfp. simpl. rewrite Hw.
    unfold Manifest.counter_is_zero. simpl.
    destruct (n + 1 =? 0)%Z eqn:Z0.
    + eexists. split; [reflexivity|]. simpl.
      apply Z.eqb_eq in Z0. now rewrite Z0.
    + match goal with
      | |- context [Manifest.scan fuel paths ?s1] =>
          destruct (IH s1) as (s' & E & C)
      end.
      { reflexivity. }
      { intros q I. apply Hp. now right. }
      exists s'. split; [exact E|]. rewrite C.
      destruct paths; reflexivity.
Qed.

Lemma scan_stuck (fuel : nat) (s : Manifest.cstate)
    (filepath fp : string) (r : file_record) (rest : list string) :
  Dict.get filepath (data (Manifest.restart_manifest (Manifest.this s)))
    = Some r ->
  r_fullpath r = Some fp ->
  Manifest.walk fuel (PosixPath.dirname fp) = None ->
  fst (Manifest.scan fuel (filepath :: rest) s) = OutOfFuel.
Proof.
  intros Hd Hfp Hw. destruct s as [c tr]. simpl in Hd.
  cbv beta iota zeta delta
    [Manifest.scan bind gets Manifest.on_this modify Manifest.on_restart
     Manifest.zoom YaManifest.fullpath YaManifest.record_of getitem field
     ret raise].
  simpl. rewrite Hd. simpl. rewrite Hfp. simpl. now rewrite Hw.
Qed.

(** C7, as amended.  Under [reproduce], with no [PAYU_CURRENT_RUN], with
    input and executable manifests that pass [setup]'s checks, and with a
    non-empty restart manifest in which, for every tracked path, the nearest
    directory above the file whose name gives a restart number is named
    [restart003], [setup] returns normally, given a round of the walk for
    every byte of the directory's path, and leaves the run counter at 4. *)
Theorem setup_counter_from_nearest_restart003
    (fuel : nat) (s : Manifest.cstate) (hr : Dict.t string)
    (dr : Dict.t file_record) :
  Manifest.reproduce (Manifest.this s) = true ->
  Manifest.truthy PAYU_CURRENT_RUN = false ->
  present_and_non_empty disk
    (path (Manifest.input_manifest (Manifest.this s))) = true ->
  Manifest.get_default
    (Manifest.cfg_overwrite (Manifest.manifest_config (Manifest.this s)))
    false = false ->
  (negb (Manifest.reproduce_exe (Manifest.this s))
   || present_and_non_empty disk
        (path (Manifest.exe_manifest (Manifest.this s))))%bool = true ->
  disk (path (Manifest.restart_manifest (Manifest.this s))) = Some (hr, dr) ->
  dr <> [] ->
  Forall (fun kr => exists fp,
            r_fullpath (snd kr) = Some fp
            /\ nearest_restart003 fp
            /\ String.length (PosixPath.dirname fp) < fuel) dr ->
  exists s',
    Manifest.setup disk PAYU_CURRENT_RUN fuel s = (Normal tt, s') /\
    Manifest.counter (Manifest.expt (Manifest.this s')) = Some 4%Z.
Proof.
  destruct s as [c tr]. simpl.
  intros Hrep Henv Hin Hov Hexe Hdisk Hne Hall.
  assert (Hp : forall p, In p (Dict.keys dr) ->
             exists r fp, Dict.get p dr = Some r /\ r_fullpath r = Some fp
               /\ Manifest.walk fuel (PosixPath.dirname fp) = Some 3%Z).
  { intros p I. destruct (keys_get dr p I) as [r G].
    destruct (get_Forall _ dr p r Hall G) as (fp & Hfp & Hb & Hl).
    exists r, fp. split; [exact G|]. split; [exact Hfp|].
    now apply walk_restart003. }
  destruct dr as [|kr dr]; [congruence|].
  unfold present_and_non_empty in *.
  run_setup. rewrite Hrep, Hov.
  destruct (disk (path (Manifest.input_manifest c))) as [[hi [|ri di]]|] eqn:Di;
    try discriminate.
  simpl. rewrite ?Di. simpl.
  destruct (disk (path (Manifest.exe_manifest c))) as [[he [|re de]]|] eqn:De;
    simpl; rewrite ?De; simpl; rewrite ?Hdisk; simpl; rewrite ?Hdisk; simpl;
    destruct (Manifest.reproduce_exe c) eqn:Rexe; try discriminate; simpl;
    rewrite ?Rexe; simpl; rewrite Henv; simpl;
    match goal with
    | |- context [Manifest.scan fuel ?ps ?s1] =>
        destruct (scan_all fuel 3%Z (kr :: dr) ps s1 eq_refl Hp) as (s' & E & C)
    end;
    exists s'; (split; [exact E | exact C]).
Qed.
End ScanFacts.

(** C5.  The restart manifest [two_restarts] tracks a file below
    [restart003] and then a file below [restart007].  The walk for the first
    path finds 3, which makes the counter 4, but the scan goes on to the
    second path and [setup] leaves the counter at 8: the first resolved
    value does not win. *)
Theorem setup_scan_does_not_stop_at_first :
  Manifest.walk 10
    (PosixPath.dirname "/scratch/archive/restart003/ocean.res.nc") = Some 3%Z
  /\ let r := Manifest.setup (sample_disk two_restarts) None 10
                (Manifest.init [] sample_expt true) in
     fst r = Normal tt /\ counter_after r = Some 8%Z.
Proof. vm_compute. auto. Qed.

(** C6.  The restart manifest [stray_restart] tracks a file with no restart
    directory above it.  Whatever the number of rounds allowed, the walk
    over its ancestors does not leave the loop, and neither does [setup]:
    once at the root the walk stays there. *)
Theorem setup_walk_never_ends_without_restart_dir (fuel : nat) :
  Manifest.walk fuel (PosixPath.dirname "/scratch/run/ocean.res.nc") = None
  /\ fst (Manifest.setup (sample_disk stray_restart) None fuel
            (Manifest.init [] sample_expt true)) = OutOfFuel.
Proof.
  assert (W : Manifest.walk fuel
                (PosixPath.dirname "/scratch/run/ocean.res.nc") = None).
  { change (PosixPath.dirname "/scratch/run/ocean.res.nc") with "/scratch/run".
    destruct fuel as [|fuel]; [reflexivity|].
    rewrite (walk_step fuel "/scratch/run" "/scratch" "run") by reflexivity.
    destruct fuel as [|fuel]; [reflexivity|].
    rewrite (walk_step fuel "/scratch" "/" "scratch") by reflexivity.
    apply walk_root. }
  split; [exact W|].
  run_setup.
  eapply scan_stuck; [reflexivity | reflexivity | exact W].
Qed.

(** C7, as stated, fails: the only tracked restart path of [nested_restart]
    has an ancestor directory named [restart003], no override is set, and
    [setup] leaves the counter at 2, the number of the nearer directory
    [restart1] plus one. *)
Lemma setup_restart003_ancestor_counter_2 :
  In "restart003"
    (ancestor_names "/scratch/archive/restart003/restart1/ocean.res.nc")
  /\ let r := Manifest.setup (sample_disk nested_restart) None 10
                (Manifest.init [] sample_expt true) in
     fst r = Normal tt /\ counter_after r = Some 2%Z
     /\ counter_after r <> Some 4%Z.
Proof.
  split; [vm_compute; tauto|].
  vm_compute. repeat split; congruence.
Qed.

(** ** check_fast *)

Lemma wf_record_fields (r : file_record) :
  wf_record r = true ->
  exists fp st, r_fullpath r = Some fp /\ r_hashes r = Some st.
Proof.
  unfold wf_record. destruct (r_fullpath r), (r_hashes r); try discriminate.
  eauto.
Qed.

Lemma wf_doc_get (d : Dict.t file_record) (p : string) (r : file_record) :
  wf_doc d = true -> Dict.get p d = Some r -> wf_record r = true.
Proof.
  unfold wf_doc. intros W G. apply get_In in G.
  rewrite forallb_forall in W. exact (W _ G).
Qed.

Lemma wf_doc_set (d : Dict.t file_record) (p : string) (r : file_record) :
  wf_doc d = true -> wf_record r = true -> wf_doc (Dict.set p r d) = true.
Proof.
  unfold wf_doc. intros W R. induction d as [|[k v] d IH]; simpl in *.
  - now rewrite R.
  - apply andb_prop in W as [Wv W].
    destruct (String.eqb p k); simpl; [now rewrite R | now rewrite Wv, IH].
Qed.

Lemma tracked_fields (d : Dict.t file_record) (p : string) :
  wf_doc d = true -> In p (Dict.keys d) ->
  exists r fp st,
    Dict.get p d = Some r /\ r_fullpath r = Some fp /\ r_hashes r = Some st.
Proof.
  intros W I. destruct (keys_get d p I) as [r G].
  destruct (wf_record_fields r (wf_doc_get d p r W G)) as (fp & st & F & H).
  eauto 6.
Qed.

(** Replacing the hash dictionary of one record. *)
Lemma rehash_fullpath (d : Dict.t file_record) (p : string) (r : file_record)
    (st' : hashdict) (q : string) :
  Dict.get p d = Some r ->
  fullpath_of (Dict.set p (with_hashes r st') d) q = fullpath_of d q.
Proof.
  intros G. unfold fullpath_of.
  destruct (String.eqb_spec q p) as [->|N].
  - now rewrite get_set_same, G.
  - now rewrite get_set_other.
Qed.

Lemma rehash_entry_same (d : Dict.t file_record) (p : string)
    (r : file_record) (st' : hashdict) (kind : string) :
  entry (Dict.set p (with_hashes r st') d) p kind = Dict.get kind st'.
Proof. unfold entry. now rewrite get_set_same. Qed.

Lemma rehash_entry_other (d : Dict.t file_record) (p q : string)
    (r : file_record) (st' : hashdict) (kind : string) :
  q <> p -> entry (Dict.set p (with_hashes r st') d) q kind = entry d q kind.
Proof. intros N. unfold entry. now rewrite get_set_other. Qed.

Lemma frame_refl (d : Dict.t file_record) : wf_doc d = true -> frame d d.
Proof. intros W. repeat split; auto. Qed.

(** Writing a fast digest into a record keeps the frame. *)
Lemma frame_rehash (d dc : Dict.t file_record) (p : string) (r : file_record)
    (st : hashdict) (v : option string) :
  frame d dc ->
  Dict.get p dc = Some r -> r_hashes r = Some st ->
  frame d (Dict.set p (with_hashes r (Dict.set "binhash" v st)) dc).
Proof.
  intros (W & F & E) G H. repeat split.
  - apply wf_doc_set; auto.
    pose proof (wf_doc_get dc p r W G) as Wr. unfold wf_record in *.
    simpl. now destruct (r_fullpath r).
  - intros q. rewrite rehash_fullpath by assumption. apply F.
  - intros q kind N. destruct (String.eqb_spec q p) as [->|Nq].
    + rewrite rehash_entry_same, get_set_other by assumption.
      rewrite <- E by assumption. unfold entry. now rewrite G, H.
    + rewrite rehash_entry_other by assumption. now apply E.
Qed.

Section CheckFacts.
Variable hash : string -> string -> option string.
Variable get_git_revision_hash : string.

Lemma check_kinds_single (kind fp : string) (st : hashdict) (sc : bool) :
  YaManifest.check_kinds hash [kind] fp st sc [] =
  match hash kind fp with
  | Some h => if YaManifest.agrees st kind h then [] else [(kind, h)]
  | None => []
  end.
Proof.
  simpl. destruct (hash kind fp); [|reflexivity].
  destruct (YaManifest.agrees st kind s), sc; reflexivity.
Qed.

Lemma mismatch_check_kinds (kind : string) (d : Dict.t file_record)
    (p fp : string) (r : file_record) (st : hashdict) (sc : bool) :
  Dict.get p d = Some r -> r_fullpath r = Some fp -> r_hashes r = Some st ->
  YaManifest.check_kinds hash [kind] fp st sc [] =
  match mismatch hash kind d p with
  | Some h => [(kind, h)]
  | None => []
  end.
Proof.
  intros G F H. rewrite check_kinds_single. unfold mismatch.
  rewrite G, F, H. destruct (hash kind fp); [|reflexivity].
  now destruct (YaManifest.agrees st kind s).
Qed.

(** One round of [check_file] over a tracked, well-formed path. *)
Lemma check_file_cons (kind : string) (p : string) (rest : list string)
    (hv : Dict.t (Dict.t string)) (sc : bool) (s : pstate)
    (r : file_record) (fp : string) (st : hashdict) :
  Dict.get p (data (self s)) = Some r ->
  r_fullpath r = Some fp -> r_hashes r = Some st ->
  YaManifest.check_file hash (p :: rest) [kind] hv sc s =
  match mismatch hash kind (data (self s)) p with
  | None => YaManifest.check_file hash rest [kind] hv sc s
  | Some h =>
      (x <- YaManifest.check_file hash rest [kind]
              (Dict.set p [(kind, h)] hv) sc ;;
       ret (false, snd x)) s
  end.
Proof.
  intros G F H.
  pose proof (mismatch_check_kinds kind _ p fp r st sc G F H) as K.
  cbn [YaManifest.check_file].
  unfold bind at 1. unfold YaManifest.fullpath at 1.
  unfold bind at 1. unfold YaManifest.record_of at 1.
  unfold bind at 1. unfold gets at 1. unfold getitem at 1. rewrite G.
  unfold ret at 1. unfold field at 1. rewrite F. unfold ret at 1.
  unfold bind at 1. unfold YaManifest.hashes_of at 1.
  unfold bind at 1. unfold YaManifest.record_of at 1.
  unfold bind at 1. unfold gets at 1. unfold getitem at 1. rewrite G.
  unfold ret at 1. unfold field at 1. rewrite H. unfold ret at 1.
  rewrite K. destruct (mismatch hash kind (data (self s)) p); reflexivity.
Qed.
Lemma keys_set_mono {V} (d : Dict.t V) (k k' : string) (v : V) :
  In k (Dict.keys d) -> In k (Dict.keys (Dict.set k' v d)).
Proof.
  intros I. destruct (keys_get d k I) as [w G].
  destruct (String.eqb_spec k k') as [->|N].
  - eapply get_keys. apply get_set_same.
  - eapply get_keys. rewrite get_set_other; eauto.
Qed.

Lemma keys_set_new {V} (d : Dict.t V) (k : string) (v : V) :
  In k (Dict.keys (Dict.set k v d)).
Proof. eapply get_keys. apply get_set_same. Qed.

(** The fast check over tracked paths: the state is untouched; [hashvals]
    gains one fast item for each path that fails and nothing else. *)
Lemma check_file_fast (paths : list string) :
  forall (hv : Dict.t (Dict.t string)) (s : pstate),
  wf_doc (data (self s)) = true ->
  (forall p, In p paths -> In p (Dict.keys (data (self s)))) ->
  Forall (fast_item hash (data (self s))) hv ->
  exists ok hv',
    YaManifest.check_file hash paths fast_hashes hv true s
      = (Normal (ok, hv'), s)
    /\ Forall (fast_item hash (data (self s))) hv'
    /\ (forall k, In k (Dict.keys hv) -> In k (Dict.keys hv'))
    /\ (forall p f, In p paths ->
          fast_mismatch hash (data (self s)) p = Some f ->
          ok = false /\ In p (Dict.keys hv'))
    /\ (ok = true -> hv' = hv).
Proof.
  induction paths as [|p paths IH]; intros hv s W T F.
  - exists true, hv.
    split; [reflexivity|]. split; [assumption|]. split; [auto|].
    split; [|auto]. intros q f [].
  - destruct (tracked_fields _ p W (T p (or_introl eq_refl)))
      as (r & fp & st & G & Hfp & Hst).
    unfold fast_hashes.
    rewrite (check_file_cons "binhash" p paths hv true s r fp st G Hfp Hst).
    destruct (mismatch hash "binhash" (data (self s)) p) as [h|] eqn:Mp.
    + destruct (IH (Dict.set p [("binhash", h)] hv) s W) as
        (ok & hv' & E & F' & K & B & _).
      { intros q I. apply T. now right. }
      { apply set_Forall; auto. exists h. split; auto. }
      exists false, hv'. unfold bind, ret. unfold fast_hashes in E. rewrite E.
      split; [reflexivity|]. split; [assumption|].
      split; [|split; [|discriminate]].
      * intros k I. apply K. now apply keys_set_mono.
      * intros q f [<-|I] M; split; auto.
        -- apply K. apply keys_set_new.
        -- now apply (B q f).
    + destruct (IH hv s W) as (ok & hv' & E & F' & K & B & O); auto.
      { intros q I. apply T. now right. }
      exists ok, hv'.
      split; [assumption|]. split; [assumption|].
      split; [assumption|]. split; [|assumption].
      intros q f [<-|I] M.
      * unfold fast_mismatch in M. congruence.
      * now apply (B q f).
Qed.

(** The vocabulary against the model: over a well-formed document the fast
    check returns normally, leaves the state alone, and puts into [hashvals]
    exactly the paths with a fast mismatch, each with the digest observed. *)
Lemma fast_check_failures (m : manifest) (tr : list event) :
  wf_doc (data m) = true ->
  exists ok hv,
    YaManifest.check_file hash (Dict.keys (data m)) fast_hashes [] true
      {| self := m; trace := tr |}
    = (Normal (ok, hv), {| self := m; trace := tr |})
    /\ (forall p, In p (Dict.keys hv) <->
                  fast_mismatch hash (data m) p <> None)
    /\ (forall p f, fast_mismatch hash (data m) p = Some f ->
          Dict.get p hv = Some [("binhash", f)])
    /\ (ok = true <-> hv = []).
Proof.
  intros W.
  destruct (check_file_fast (Dict.keys (data m)) [] {| self := m; trace := tr |}
              W (fun p I => I) (Forall_nil _))
    as (ok & hv & E & Fi & _ & B & O).
  cbn [self data] in *.
  assert (T : forall p f, fast_mismatch hash (data m) p = Some f ->
                In p (Dict.keys (data m))).
  { intros p f M. unfold fast_mismatch, mismatch in M.
    destruct (Dict.get p (data m)) eqn:G; [|discriminate].
    eapply get_keys; eauto. }
  exists ok, hv. split; [exact E|]. split; [|split].
  - intros p. split.
    + intros I. unfold Dict.keys in I. apply in_map_iff in I as (x & <- & I).
      rewrite Forall_forall in Fi. destruct (Fi x I) as (f & M & _). congruence.
    + intros N. destruct (fast_mismatch hash (data m) p) as [f|] eqn:M;
        [|congruence].
      now destruct (B p f (T p f M) M).
  - intros p f M. destruct (B p f (T p f M) M) as [_ I].
    destruct (keys_get hv p I) as [vals G]. rewrite G. f_equal.
    destruct (get_Forall _ hv p vals Fi G) as (f' & M' & V).
    simpl in M', V. congruence.
  - split; [exact O|]. intros ->. destruct ok; [reflexivity|].
    exfalso.
    assert (N : forall p, fast_mismatch hash (data m) p = None).
    { intros p. destruct (fast_mismatch hash (data m) p) as [f|] eqn:M;
        [|reflexivity].
      destruct (B p f (T p f M) M) as [_ []]. }
    clear - E N W.
    assert (G : forall paths hv0 s,
              data (self s) = data m ->
              wf_doc (data m) = true ->
              (forall p, In p paths -> In p (Dict.keys (data m))) ->
              exists hv1, YaManifest.check_file hash paths fast_hashes hv0 true s
                          = (Normal (true, hv1), s)).
    { induction paths as [|p paths IH]; intros hv0 s Hs Wm Tp.
      - eexists. reflexivity.
      - destruct (tracked_fields _ p Wm (Tp p (or_introl eq_refl)))
          as (r & fp & st & Gp & Hfp & Hst).
        unfold fast_hashes. rewrite <- Hs in Gp.
        rewrite (check_file_cons "binhash" p paths hv0 true s r fp st
                   Gp Hfp Hst).
        rewrite Hs. specialize (N p). unfold fast_mismatch in N. rewrite N.
        apply IH; auto. intros q I. apply Tp. now right. }
    destruct (G (Dict.keys (data m)) [] {| self := m; trace := tr |}
                eq_refl W (fun p I => I)) as (hv1 & E1).
    rewrite E1 in E. congruence.
Qed.

(** A path of [d] for which a check computes a digest is tracked in every
    document of the same shape, with the same full path. *)
Lemma frame_tracked (d dc : Dict.t file_record) (kind p h : string) :
  frame d dc -> mismatch hash kind d p = Some h ->
  exists r fp st,
    Dict.get p dc = Some r /\ r_fullpath r = Some fp /\ r_hashes r = Some st
    /\ fullpath_of d p = Some fp /\ hash kind fp = Some h.
Proof.
  intros (W & F & _) M. unfold mismatch in M.
  specialize (F p). unfold fullpath_of in *.
  destruct (Dict.get p d) as [r0|]; [|discriminate].
  destruct (r_fullpath r0) as [fp|]; [|discriminate].
  destruct (r_hashes r0) as [st0|]; [|discriminate].
  destruct (hash kind fp) as [h'|] eqn:Hh; [|discriminate].
  destruct (YaManifest.agrees st0 kind h'); [discriminate|].
  injection M as ->.
  destruct (Dict.get p dc) as [r|] eqn:G; [|discriminate].
  destruct (wf_record_fields r (wf_doc_get dc p r W G)) as (fp' & st & A & B).
  exists r, fp, st. rewrite A in F. injection F as ->. auto.
Qed.

(** Checks of kinds other than the fast one do not see the difference. *)
Lemma mismatch_frame (d dc : Dict.t file_record) (kind p : string) :
  wf_doc d = true -> frame d dc -> kind <> "binhash" ->
  mismatch hash kind dc p = mismatch hash kind d p.
Proof.
  intros Wd (W & F & E) N. specialize (F p). specialize (E p kind N).
  unfold mismatch, fullpath_of, entry in *.
  destruct (Dict.get p d) as [r0|] eqn:G0;
    destruct (Dict.get p dc) as [r|] eqn:G; auto.
  - destruct (wf_record_fields r0 (wf_doc_get d p r0 Wd G0))
      as (fp0 & st0 & A0 & B0).
    destruct (wf_record_fields r (wf_doc_get dc p r W G)) as (fp & st & A & B).
    rewrite A0, B0 in *. rewrite A, B in *. injection F as ->.
    unfold YaManifest.agrees. now rewrite E.
  - destruct (wf_record_fields r0 (wf_doc_get d p r0 Wd G0))
      as (fp0 & st0 & A0 & B0).
    rewrite A0 in F. discriminate.
  - destruct (wf_record_fields r (wf_doc_get dc p r W G)) as (fp & st & A & B).
    rewrite A in F. discriminate.
Qed.
(** *** Single steps *)

Local Abbreviation mk pth hdr dat ign tr :=
  (Build_pstate (Build_manifest pth hdr dat ign) tr).

Ltac mrun :=
  cbv beta iota zeta delta
    [bind ret gets modify on_self emit print raise sys_exit getitem field
     YaManifest.record_of YaManifest.hashes_of YaManifest.fullpath
     YaManifest.dump PayuManifest.dump PayuManifest.set_hash
     PayuManifest.stored_hash with_data with_header
     self trace path header data ignore fst snd].

Lemma set_hash_run pth hdr dat ign tr p k v r st :
  Dict.get p dat = Some r -> r_hashes r = Some st ->
  PayuManifest.set_hash p k v (mk pth hdr dat ign tr) =
  (Normal tt,
   mk pth hdr (Dict.set p (with_hashes r (Dict.set k v st)) dat) ign tr).
Proof. intros G H. mrun. rewrite G. mrun. rewrite H. reflexivity. Qed.

Lemma stored_hash_run pth hdr dat ign tr p k :
  wf_doc dat = true -> In p (Dict.keys dat) ->
  PayuManifest.stored_hash p k (mk pth hdr dat ign tr) =
  (Normal (flat (entry dat p k)), mk pth hdr dat ign tr).
Proof.
  intros W I. destruct (tracked_fields dat p W I) as (r & fp & st & G & F & H).
  unfold entry. mrun. rewrite G. mrun. rewrite H. reflexivity.
Qed.

Lemma dump_run pth hdr dat ign tr :
  PayuManifest.dump get_git_revision_hash (mk pth hdr dat ign tr) =
  (Normal tt,
   mk pth (Dict.set "githash" get_git_revision_hash hdr) dat ign
     (tr ++ [Dumped pth (Dict.set "githash" get_git_revision_hash hdr) dat])).
Proof. reflexivity. Qed.

(** The full check of one path. *)
Lemma check_file_full pth hdr dat ign tr p :
  wf_doc dat = true -> In p (Dict.keys dat) ->
  YaManifest.check_file hash [p] full_hashes [] false (mk pth hdr dat ign tr) =
  (Normal match full_mismatch hash dat p with
          | None => (true, [])
          | Some w => (false, [(p, [("md5", w)])])
          end, mk pth hdr dat ign tr).
Proof.
  intros W I. destruct (tracked_fields dat p W I) as (r & fp & st & G & F & H).
  unfold full_hashes.
  rewrite (check_file_cons "md5" p [] [] false (mk pth hdr dat ign tr)
             r fp st G F H).
  unfold full_mismatch. simpl.
  now destruct (mismatch hash "md5" dat p).
Qed.

(** One round of [add] with a single hash kind, forced. *)
Lemma add_cons pth hdr dat ign tr kind sc p rest r fp st :
  Dict.get p dat = Some r -> r_fullpath r = Some fp -> r_hashes r = Some st ->
  YaManifest.add hash (p :: rest) [kind] true sc (mk pth hdr dat ign tr) =
  YaManifest.add hash rest [kind] true sc
    (mk pth hdr
       (Dict.set p
          (with_hashes r
             match hash kind fp with
             | Some h => Dict.set kind (Some h) st
             | None => st
             end) dat) ign tr).
Proof.
  intros G F H. unfold YaManifest.add. cbn [for_each].
  mrun. rewrite G. mrun. rewrite F, H. mrun.
  cbn [YaManifest.add_kinds orb].
  destruct (hash kind fp); [destruct sc|]; reflexivity.
Qed.
(** *** The loops *)

(** Saving the fast digests already calculated. *)
Lemma save_loop d pth hdr ign tr (items : Dict.t (Dict.t string)) :
  forall dc,
  frame d dc -> Forall (fast_item hash d) items ->
  exists dc',
    for_each items (fun '(filepath, vals) =>
      for_each vals (fun '(hash0, val) =>
        PayuManifest.set_hash filepath hash0 (Some val)))
      (mk pth hdr dc ign tr)
    = (Normal tt, mk pth hdr dc' ign tr)
    /\ frame d dc'
    /\ (forall p f, fast_mismatch hash d p = Some f ->
         In p (Dict.keys items) \/ entry dc p "binhash" = Some (Some f) ->
         entry dc' p "binhash" = Some (Some f))
    /\ (forall p, fast_mismatch hash d p = None ->
         entry dc' p "binhash" = entry dc p "binhash").
Proof.
  induction items as [|[p vals] items IH]; intros dc Fr Fi.
  - exists dc. split; [reflexivity|]. split; [assumption|].
    split; [|reflexivity]. intros p f _ [[]|E]. exact E.
  - inversion Fi as [|? ? (f0 & M0 & V) Fi']. subst. simpl in M0, V. subst vals.
    destruct (frame_tracked d dc "binhash" p f0 Fr M0)
      as (r & fp & st & G & Hfp & Hst & _ & _).
    cbn [for_each]. unfold bind at 1. unfold bind at 1.
    rewrite (set_hash_run pth hdr dc ign tr p "binhash" (Some f0) r st G Hst).
    unfold ret at 1.
    destruct (IH _ (frame_rehash d dc p r st (Some f0) Fr G Hst) Fi')
      as (dc' & E & Fr' & S & K).
    exists dc'. split; [exact E|]. split; [exact Fr'|]. split.
    + intros q f M C. apply S; [exact M|].
      destruct (String.eqb_spec q p) as [->|N].
      * right. rewrite rehash_entry_same, get_set_same.
        unfold fast_mismatch in *. congruence.
      * destruct C as [[E'|I]|E'].
        -- simpl in E'. congruence.
        -- now left.
        -- right. now rewrite rehash_entry_other.
    + intros q M. rewrite (K q M). apply rehash_entry_other.
      intros ->. unfold fast_mismatch in *. congruence.
Qed.
Lemma fast_saved_rehash d dc p r st f :
  fast_saved hash d dc -> fast_mismatch hash d p = Some f ->
  fast_saved hash d
    (Dict.set p (with_hashes r (Dict.set "binhash" (Some f) st)) dc).
Proof.
  intros [S K] M. split.
  - intros q g Mq. destruct (String.eqb_spec q p) as [->|N].
    + rewrite rehash_entry_same, get_set_same. congruence.
    + rewrite rehash_entry_other by assumption. now apply S.
  - intros q Mq. rewrite <- (K q Mq). apply rehash_entry_other.
    intros ->. congruence.
Qed.

(** A path whose full digest still agrees: its fast entry is refreshed and
    the document is dumped. *)
Lemma recheck_ok d pth hdr dc ign tr p vals f :
  wf_doc d = true -> frame d dc -> fast_saved hash d dc ->
  fast_mismatch hash d p = Some f -> full_mismatch hash d p = None ->
  exists dc',
    PayuManifest.recheck hash get_git_revision_hash p vals
      (mk pth hdr dc ign tr)
    = (Normal tt,
       mk pth (Dict.set "githash" get_git_revision_hash hdr) dc' ign
         (tr ++ [Stdout "Check failed for {} {}" [a_str p; a_dict vals];
                 Stdout "Full hashes ({}) checked ok" [a_list full_hashes];
                 Stdout "Updating fast hashes for {} in {}"
                   [a_str p; a_str pth];
                 Stdout "Saving updated manifest" [];
                 Dumped pth (Dict.set "githash" get_git_revision_hash hdr)
                   dc']))
    /\ frame d dc' /\ fast_saved hash d dc'.
Proof.
  intros Wd Fr Sv Mf Mm.
  destruct (frame_tracked d dc "binhash" p f Fr Mf)
    as (r & fp & st & G & Hfp & Hst & _ & Hh).
  pose proof (get_keys _ _ _ G) as I.
  pose proof Fr as (W & _ & _).
  exists (Dict.set p (with_hashes r (Dict.set "binhash" (Some f) st)) dc).
  split; [|split; [now apply frame_rehash | now apply fast_saved_rehash]].
  unfold PayuManifest.recheck.
  unfold bind at 1. unfold print at 1, emit at 1, modify at 1. cbn [self trace].
  unfold bind at 1. rewrite (check_file_full _ _ _ _ _ _ W I).
  unfold full_mismatch in *.
  rewrite (mismatch_frame d dc "md5" p Wd Fr) by discriminate.
  rewrite Mm. cbn [fst].
  unfold PayuManifest.add_fast, fast_hashes.
  mrun.
  rewrite (add_cons _ _ _ _ _ "binhash" true p [] r fp st G Hfp Hst).
  rewrite Hh. unfold YaManifest.add. cbn [for_each]. mrun.
  rewrite <- !app_assoc. reflexivity.
Qed.

(** A path whose full digest differs too: the diagnostic and [sys.exit(1)]. *)
Lemma recheck_bad d pth hdr dc ign tr p vals f w :
  wf_doc d = true -> frame d dc ->
  fast_mismatch hash d p = Some f -> full_mismatch hash d p = Some w ->
  PayuManifest.recheck hash get_git_revision_hash p vals
    (mk pth hdr dc ign tr)
  = (SystemExit 1,
     mk pth hdr dc ign
       (tr ++ [Stdout "Check failed for {} {}" [a_str p; a_dict vals];
               Stderr ("Run cannot reproduce: manifest {} is not correct"
                       ++ PayuManifest.newline) [a_str pth];
               Stdout "    {}:" [a_str p];
               Stdout "        {}: {} != {}"
                 [a_str "md5"; a_str w; a_opt (flat (entry d p "md5"))]])).
Proof.
  intros Wd Fr Mf Mm.
  destruct (frame_tracked d dc "binhash" p f Fr Mf)
    as (r & fp & st & G & Hfp & Hst & _ & Hh).
  pose proof (get_keys _ _ _ G) as I.
  pose proof Fr as (W & _ & E).
  unfold PayuManifest.recheck.
  unfold bind at 1. unfold print at 1, emit at 1, modify at 1. cbn [self trace].
  unfold bind at 1. rewrite (check_file_full _ _ _ _ _ _ W I).
  unfold full_mismatch in *.
  rewrite (mismatch_frame d dc "md5" p Wd Fr) by discriminate.
  rewrite Mm. cbn [fst snd for_each].
  unfold bind at 1. unfold gets at 1. cbn [self path].
  unfold bind at 1. unfold emit at 1, modify at 1. cbn [self trace].
  unfold bind at 1. unfold bind at 1. unfold bind at 1.
  unfold print at 1, emit at 1, modify at 1. cbn [self trace].
  unfold bind at 1. unfold bind at 1.
  rewrite (stored_hash_run _ _ _ _ _ p "md5" W I).
  rewrite (E p "md5") by discriminate.
  mrun. rewrite <- !app_assoc. reflexivity.
Qed.
(** The three lines that end a failed reproduction. *)
Local Abbreviation diagnostic d pth q w :=
  [Stderr ("Run cannot reproduce: manifest {} is not correct"
           ++ PayuManifest.newline) [a_str pth];
   Stdout "    {}:" [a_str q];
   Stdout "        {}: {} != {}"
     [a_str "md5"; a_str w; a_opt (flat (entry d q "md5"))]].

(** The loop over the failed paths under [reproduce]. *)
Lemma recheck_loop d pth ign (items : Dict.t (Dict.t string)) :
  forall hdr dc tr,
  wf_doc d = true -> frame d dc -> fast_saved hash d dc ->
  Forall (fast_item hash d) items ->
  exists o hdr' dc' evs,
    for_each items (fun '(filepath, vals) =>
      PayuManifest.recheck hash get_git_revision_hash filepath vals)
      (mk pth hdr dc ign tr)
    = (o, mk pth hdr' dc' ign (tr ++ evs))
    /\ frame d dc' /\ fast_saved hash d dc'
    /\ (forall pth0 h0 dat, In (Dumped pth0 h0 dat) evs ->
          frame d dat /\ fast_saved hash d dat)
    /\ match first_full_mismatch hash d (Dict.keys items) with
       | None =>
           o = Normal tt
           /\ (items <> [] -> exists evs0, evs = evs0 ++ [Dumped pth hdr' dc'])
       | Some (q, w) =>
           o = SystemExit 1
           /\ exists evs0, evs = evs0 ++ diagnostic d pth q w
       end.
Proof.
  induction items as [|[p vals] items IH]; intros hdr dc tr Wd Fr Sv Fi.
  - exists (Normal tt), hdr, dc, []. rewrite app_nil_r.
    split; [reflexivity|]. split; [assumption|]. split; [assumption|].
    split; [intros ? ? ? []|]. split; [reflexivity|]. now intros N.
  - inversion Fi as [|? ? (f & Mf & V) Fi']. subst. simpl in Mf.
    cbn [for_each Dict.keys map fst first_full_mismatch].
    unfold bind at 1.
    destruct (full_mismatch hash d p) as [w|] eqn:Mm.
    + rewrite (recheck_bad d pth hdr dc ign tr p vals f w Wd Fr Mf Mm).
      eexists (SystemExit 1), hdr, dc, _.
      split; [reflexivity|]. split; [assumption|]. split; [assumption|].
      split.
      * intros pth0 h0 dat I. simpl in I.
        repeat (destruct I as [I|I]; [discriminate|]). destruct I.
      * split; [reflexivity|].
        now exists [Stdout "Check failed for {} {}" [a_str p; a_dict vals]].
    + destruct (recheck_ok d pth hdr dc ign tr p vals f Wd Fr Sv Mf Mm)
        as (dc1 & E1 & Fr1 & Sv1).
      rewrite E1.
      destruct (IH (Dict.set "githash" get_git_revision_hash hdr) dc1
                  (tr ++ [Stdout "Check failed for {} {}" [a_str p; a_dict vals];
                          Stdout "Full hashes ({}) checked ok"
                            [a_list full_hashes];
                          Stdout "Updating fast hashes for {} in {}"
                            [a_str p; a_str pth];
                          Stdout "Saving updated manifest" [];
                          Dumped pth
                            (Dict.set "githash" get_git_revision_hash hdr) dc1])
                  Wd Fr1 Sv1 Fi')
        as (o & hdr' & dc' & evs & E & Fr' & Sv' & Dm & Last).
      rewrite <- app_assoc in E.
      eexists o, hdr', dc', _.
      split; [exact E|]. split; [assumption|]. split; [assumption|].
      split.
      * intros pth0 h0 dat I. apply in_app_or in I as [I|I]; [|eauto].
        simpl in I. repeat (destruct I as [I|I]; [try discriminate|]).
        -- injection I as <- <- <-. now split.
        -- destruct I.
      * change (map fst items) with (Dict.keys items).
        destruct (first_full_mismatch hash d (Dict.keys items)) as [[q w]|];
          cbn beta iota in Last |- *.
        -- destruct Last as (-> & evs0 & ->). split; [reflexivity|].
           eexists. rewrite app_assoc. reflexivity.
        -- destruct Last as (-> & Last). split; [reflexivity|]. intros _.
           destruct items as [|i items].
           ++ simpl in E. injection E as <- <- E.
              apply app_inv_head in E. injection E as <-.
              eexists. rewrite app_nil_r.
              change [?a; ?b; ?c; ?e; ?x] with ([a; b; c; e] ++ [x]).
              reflexivity.
           ++ destruct Last as (evs0 & ->); [discriminate|].
              eexists. rewrite app_assoc. reflexivity.
Qed.
Lemma mismatch_tracked (kind : string) (d : Dict.t file_record) (p h : string) :
  mismatch hash kind d p = Some h -> In p (Dict.keys d).
Proof.
  unfold mismatch. destruct (Dict.get p d) eqn:G; [|discriminate].
  intros _. eapply get_keys; eauto.
Qed.

Lemma fast_item_key d (items : Dict.t (Dict.t string)) (q : string) :
  Forall (fast_item hash d) items -> In q (Dict.keys items) ->
  fast_mismatch hash d q <> None.
Proof.
  intros F I. unfold Dict.keys in I. apply in_map_iff in I as (x & <- & I).
  rewrite Forall_forall in F. destruct (F x I) as (f & M & _). congruence.
Qed.

Lemma first_full_mismatch_some d (paths : list string) (p v : string) :
  In p paths -> full_mismatch hash d p = Some v ->
  exists q w, first_full_mismatch hash d paths = Some (q, w)
              /\ In q paths /\ full_mismatch hash d q = Some w.
Proof.
  induction paths as [|a paths IH]; intros I M; [destruct I|].
  cbn [first_full_mismatch].
  destruct (full_mismatch hash d a) as [w|] eqn:Ma.
  - exists a, w. split; [reflexivity|]. split; [now left | assumption].
  - destruct I as [->|I]; [congruence|].
    destruct (IH I M) as (q & w & E & Iq & Mq).
    exists q, w. split; [assumption|]. split; [now right | assumption].
Qed.

Lemma first_full_mismatch_found d (paths : list string) (q w : string) :
  first_full_mismatch hash d paths = Some (q, w) ->
  In q paths /\ full_mismatch hash d q = Some w.
Proof.
  induction paths as [|a paths IH]; cbn [first_full_mismatch]; [discriminate|].
  destruct (full_mismatch hash d a) as [w'|] eqn:Ma.
  - intros [= -> ->]. split; [now left | assumption].
  - intros E. destruct (IH E). split; [now right | assumption].
Qed.

Lemma first_full_mismatch_none d (paths : list string) :
  (forall q, In q paths -> full_mismatch hash d q = None) ->
  first_full_mismatch hash d paths = None.
Proof.
  induction paths as [|a paths IH]; intros A; [reflexivity|].
  cbn [first_full_mismatch]. rewrite (A a (or_introl eq_refl)).
  apply IH. intros q I. apply A. now right.
Qed.

(** Up to the loop over the failed paths: the fast check fills [hashvals]
    and the digests it observed are saved in the document. *)
Lemma check_fast_saves pth hdr d ign tr :
  wf_doc d = true ->
  exists ok hv dc1,
    Forall (fast_item hash d) hv
    /\ (forall p f, fast_mismatch hash d p = Some f ->
          ok = false /\ In p (Dict.keys hv))
    /\ (ok = true -> hv = [] /\ dc1 = d)
    /\ frame d dc1 /\ fast_saved hash d dc1
    /\ forall reproduce,
        PayuManifest.check_fast hash get_git_revision_hash reproduce
          (mk pth hdr d ign tr)
        = if ok then (Normal tt, mk pth hdr d ign tr)
          else
            (if reproduce then
               for_each hv (fun '(filepath, vals) =>
                 PayuManifest.recheck hash get_git_revision_hash filepath vals)
             else
               p <- gets (fun s => path (self s)) ;;
               print "Updating full hashes for {} files in {}"
                 [a_int (Z.of_nat (length hv)); a_str p] ;;;
               YaManifest.add hash (Dict.keys hv) full_hashes true false ;;;
               print "Writing {}" [a_str p] ;;;
               PayuManifest.dump get_git_revision_hash)
              (mk pth hdr dc1 ign tr).
Proof.
  intros W.
  destruct (check_file_fast (Dict.keys d) [] (mk pth hdr d ign tr) W
              (fun p I => I) (Forall_nil _))
    as (ok & hv & E & Fi & _ & B & O).
  cbn [self data] in *.
  assert (B' : forall p f, fast_mismatch hash d p = Some f ->
                 ok = false /\ In p (Dict.keys hv)).
  { intros p f M. apply (B p f); [|exact M].
    eapply mismatch_tracked. exact M. }
  destruct ok.
  - exists true, hv, d. split; [assumption|]. split; [assumption|].
    split; [auto|]. split; [now apply frame_refl|].
    split; [split; [intros p f M; now destruct (B' p f M) | reflexivity]|].
    intros reproduce. unfold PayuManifest.check_fast.
    unfold bind at 1. unfold gets at 1. cbn [self data].
    unfold bind at 1. rewrite E. reflexivity.
  - destruct (save_loop d pth hdr ign tr hv d (frame_refl d W) Fi)
      as (dc1 & Es & Fr & S & K).
    exists false, hv, dc1. split; [assumption|]. split; [assumption|].
    split; [discriminate|]. split; [assumption|].
    split.
    + split; [|exact K].
      intros p f M. apply S; [exact M|]. left. now destruct (B' p f M).
    + intros reproduce. unfold PayuManifest.check_fast.
      unfold bind at 1. unfold gets at 1. cbn [self data].
      unfold bind at 1. rewrite E. cbn [fst snd negb].
      unfold bind at 1. rewrite Es. reflexivity.
Qed.
(** Regenerating the full digests of the failed paths. *)
Lemma add_full_loop d pth hdr ign tr (paths : list string) :
  forall dc,
  wf_doc dc = true ->
  (forall p, fullpath_of dc p = fullpath_of d p) ->
  (forall p, In p paths -> In p (Dict.keys dc)) ->
  exists dc',
    YaManifest.add hash paths full_hashes true false (mk pth hdr dc ign tr)
    = (Normal tt, mk pth hdr dc' ign tr)
    /\ (forall p fp w,
          fullpath_of d p = Some fp -> hash "md5" fp = Some w ->
          In p paths \/ entry dc p "md5" = Some (Some w) ->
          entry dc' p "md5" = Some (Some w))
    /\ (forall p kind, kind <> "md5" -> entry dc' p kind = entry dc p kind).
Proof.
  induction paths as [|p paths IH]; intros dc W F T.
  - exists dc. split; [reflexivity|]. split; [|reflexivity].
    intros p fp w _ _ [[]|E]. exact E.
  - destruct (tracked_fields dc p W (T p (or_introl eq_refl)))
      as (r & fp0 & st & G & Hfp & Hst).
    unfold full_hashes.
    rewrite (add_cons _ _ _ _ _ "md5" false p paths r fp0 st G Hfp Hst).
    set (st1 := match hash "md5" fp0 with
                | Some h => Dict.set "md5" (Some h) st
                | None => st
                end).
    destruct (IH (Dict.set p (with_hashes r st1) dc)) as (dc' & E & Md & Ot).
    { apply wf_doc_set; auto. unfold wf_record. simpl. now rewrite Hfp. }
    { intros q. now rewrite rehash_fullpath. }
    { intros q I. apply keys_set_mono. apply T. now right. }
    exists dc'. split; [exact E|]. split.
    + intros q fp w Fq Hw C. apply (Md q fp w Fq Hw).
      destruct (String.eqb_spec q p) as [->|N].
      * right. rewrite rehash_entry_same.
        assert (fp0 = fp) as ->.
        { specialize (F p). unfold fullpath_of in F at 1.
          rewrite G, Hfp, Fq in F. congruence. }
        subst st1. rewrite Hw. apply get_set_same.
      * destruct C as [[C|C]|C]; [congruence | now left |].
        right. now rewrite rehash_entry_other.
    + intros q kind N. rewrite (Ot q kind N).
      destruct (String.eqb_spec q p) as [->|Nq].
      * rewrite rehash_entry_same. unfold entry. rewrite G, Hst.
        subst st1. destruct (hash "md5" fp0); [|reflexivity].
        now apply get_set_other.
      * now apply rehash_entry_other.
Qed.

(** C1.  Take a well-formed document and a tracked path whose fast digest
    differs from the stored one and whose freshly computed full digest
    differs from the stored one too.  Then [check_fast] under [reproduce]
    ends in [sys.exit(1)], never in a normal return, and the last things it
    wrote are the line on the standard error stream and, for a path [q]
    that fails both checks, the path line and the line with the hash kind
    [md5], the digest [w] just computed and the digest stored in the
    document. *)
Theorem check_fast_reproduce_full_mismatch_exits
    (m : manifest) (tr : list event) (p f v : string) :
  wf_doc (data m) = true ->
  fast_mismatch hash (data m) p = Some f ->
  full_mismatch hash (data m) p = Some v ->
  exists s' q w evs,
    PayuManifest.check_fast hash get_git_revision_hash true
      {| self := m; trace := tr |} = (SystemExit 1, s')
    /\ fast_mismatch hash (data m) q <> None
    /\ full_mismatch hash (data m) q = Some w
    /\ trace s' = tr ++ evs ++ diagnostic (data m) (path m) q w.
Proof.
  destruct m as [pth hdr d ign]. cbn [data path]. intros W Mf Mm.
  destruct (check_fast_saves pth hdr d ign tr W)
    as (ok & hv & dc1 & Fi & B & _ & Fr & Sv & E).
  destruct (B p f Mf) as [-> I].
  destruct (first_full_mismatch_some d (Dict.keys hv) p v I Mm)
    as (q & w & Ef & Iq & Mq).
  destruct (recheck_loop d pth ign hv hdr dc1 tr W Fr Sv Fi)
    as (o & hdr' & dc' & evs & El & _ & _ & _ & Last).
  rewrite Ef in Last. destruct Last as (-> & evs0 & ->).
  rewrite (E true). cbn beta iota. rewrite El.
  eexists _, q, w, evs0. split; [reflexivity|].
  split; [now apply (fast_item_key d hv)|]. split; [assumption|]. reflexivity.
Qed.

(** C2.  Take a well-formed document in which some tracked path fails the
    fast check.  Then [check_fast] without [reproduce] returns normally; the
    last thing it does is dump the document it leaves in memory, with the
    revision in the header; and in that document every path that failed the
    fast check has as its [md5] entry the full digest of the current
    content of its full path, whatever the entry was before. *)
Theorem check_fast_update_rewrites_full_hashes
    (m : manifest) (tr : list event) (p f : string) :
  wf_doc (data m) = true ->
  fast_mismatch hash (data m) p = Some f ->
  exists m' n,
    PayuManifest.check_fast hash get_git_revision_hash false
      {| self := m; trace := tr |}
    = (Normal tt,
       {| self := m';
          trace := tr ++ [Stdout "Updating full hashes for {} files in {}"
                            [a_int n; a_str (path m)];
                          Stdout "Writing {}" [a_str (path m)];
                          Dumped (path m) (header m') (data m')] |})
    /\ header m' = Dict.set "githash" get_git_revision_hash (header m)
    /\ forall q fq fp w,
         fast_mismatch hash (data m) q = Some fq ->
         fullpath_of (data m) q = Some fp ->
         hash "md5" fp = Some w ->
         entry (data m') q "md5" = Some (Some w).
Proof.
  destruct m as [pth hdr d ign]. cbn [data path header]. intros W Mf.
  destruct (check_fast_saves pth hdr d ign tr W)
    as (ok & hv & dc1 & Fi & B & _ & Fr & Sv & E).
  destruct (B p f Mf) as [-> _].
  pose proof Fr as (W1 & F1 & _).
  destruct (add_full_loop d pth hdr ign
              (tr ++ [Stdout "Updating full hashes for {} files in {}"
                        [a_int (Z.of_nat (length hv)); a_str pth]])
              (Dict.keys hv) dc1 W1 F1)
    as (dc' & Ea & Md & _).
  { intros q I. pose proof (fast_item_key d hv q Fi I) as N.
    destruct (fast_mismatch hash d q) as [g|] eqn:Mq; [|congruence].
    destruct (frame_tracked d dc1 "binhash" q g Fr Mq) as (r & _ & _ & G & _).
    eapply get_keys; eauto. }
  exists (Build_manifest pth
            (Dict.set "githash" get_git_revision_hash hdr) dc' ign),
    (Z.of_nat (length hv)).
  split; [|split; [reflexivity|]].
  - rewrite (E false). cbn beta iota.
    unfold bind at 1. unfold gets at 1. cbn [self path].
    unfold bind at 1. unfold print at 1, emit at 1, modify at 1.
    cbn [self trace].
    unfold bind at 1. rewrite Ea.
    mrun. rewrite <- !app_assoc. reflexivity.
  - cbn [data]. intros q fq fp w Mq Fq Hw.
    apply (Md q fp w Fq Hw). left. now destruct (B q fq Mq).
Qed.
(** C3.  Take a well-formed document and a tracked path [p] whose fast
    digest differs from the stored one while its full check passes.  If no
    failed path has a full mismatch, [check_fast] under [reproduce] returns
    normally.  Whenever it returns normally: the fast entry of [p] is the
    digest [f] freshly computed from its full path; its [md5] entry, every
    other entry of [p] and its full path are as before; every entry of a
    path that passed the fast check is as before; and the last thing done
    is the dump of the document left in memory. *)
Theorem check_fast_reproduce_refreshes_fast_entry
    (m : manifest) (tr : list event) (p f : string) :
  wf_doc (data m) = true ->
  fast_mismatch hash (data m) p = Some f ->
  full_mismatch hash (data m) p = None ->
  let r := PayuManifest.check_fast hash get_git_revision_hash true
             {| self := m; trace := tr |} in
  ((forall q, fast_mismatch hash (data m) q <> None ->
              full_mismatch hash (data m) q = None) ->
   fst r = Normal tt)
  /\ (fst r = Normal tt ->
      let m' := self (snd r) in
      (exists fp, fullpath_of (data m) p = Some fp
                  /\ hash "binhash" fp = Some f)
      /\ entry (data m') p "binhash" = Some (Some f)
      /\ entry (data m') p "md5" = entry (data m) p "md5"
      /\ (forall kind, kind <> "binhash" ->
            entry (data m') p kind = entry (data m) p kind)
      /\ fullpath_of (data m') p = fullpath_of (data m) p
      /\ (forall q kind, fast_mismatch hash (data m) q = None ->
            entry (data m') q kind = entry (data m) q kind)
      /\ exists evs,
          trace (snd r)
          = tr ++ evs ++ [Dumped (path m) (header m') (data m')]).
Proof.
  destruct m as [pth hdr d ign]. cbn [data path]. intros W Mf Mm.
  destruct (check_fast_saves pth hdr d ign tr W)
    as (ok & hv & dc1 & Fi & B & _ & Fr & Sv & E).
  destruct (B p f Mf) as [-> I].
  destruct (recheck_loop d pth ign hv hdr dc1 tr W Fr Sv Fi)
    as (o & hdr' & dc' & evs & El & Fr' & Sv' & _ & Last).
  cbn zeta. rewrite (E true). cbn beta iota. rewrite El. cbn [fst snd self].
  split.
  - intros A.
    rewrite (first_full_mismatch_none d (Dict.keys hv)) in Last.
    + now destruct Last.
    + intros q Iq. apply A. now apply (fast_item_key d hv).
  - intros ->.
    destruct (first_full_mismatch hash d (Dict.keys hv)) as [[q w]|];
      [destruct Last; discriminate|].
    destruct Last as (_ & evs0 & ->).
    { intros ->. destruct I. }
    destruct (frame_tracked d dc1 "binhash" p f Fr Mf)
      as (r0 & fp & st & _ & _ & _ & Fd & Hh).
    destruct Fr' as (_ & F' & E'). destruct Sv' as (S' & K').
    cbn [data header trace].
    split; [now exists fp|]. split; [now apply S'|].
    split; [apply E'; discriminate|]. split; [intros kind N; now apply E'|].
    split; [apply F'|]. split; [|now exists evs0].
    intros q kind Mq. destruct (String.eqb_spec kind "binhash") as [->|N].
    + now apply K'.
    + now apply E'.
Qed.

(** C8.  For a well-formed document, [check_fast] under [reproduce] is the
    loop of full-hash rechecks over the failed paths, started in a state
    that has emitted nothing yet and in which every path that fails the
    fast check already has the fast digest just observed as its fast
    entry.  Hence every dump made during the loop, for whichever path's
    passing recheck, holds the observed fast digest of every failed path,
    those not yet rechecked included. *)
Theorem check_fast_reproduce_saves_fast_hashes_first
    (m : manifest) (tr : list event) :
  wf_doc (data m) = true ->
  (exists hashvals s1,
     PayuManifest.check_fast hash get_git_revision_hash true
       {| self := m; trace := tr |}
     = for_each hashvals (fun '(filepath, vals) =>
         PayuManifest.recheck hash get_git_revision_hash filepath vals) s1
     /\ trace s1 = tr
     /\ forall q f, fast_mismatch hash (data m) q = Some f ->
          In q (Dict.keys hashvals)
          /\ entry (data (self s1)) q "binhash" = Some (Some f))
  /\ (exists evs,
       trace (snd (PayuManifest.check_fast hash get_git_revision_hash true
                     {| self := m; trace := tr |})) = tr ++ evs
       /\ forall pth hdr dat q f,
            In (Dumped pth hdr dat) evs ->
            fast_mismatch hash (data m) q = Some f ->
            entry dat q "binhash" = Some (Some f)).
Proof.
  destruct m as [pth hdr d ign]. cbn [data path]. intros W.
  destruct (check_fast_saves pth hdr d ign tr W)
    as (ok & hv & dc1 & Fi & B & O & Fr & Sv & E).
  destruct (recheck_loop d pth ign hv hdr dc1 tr W Fr Sv Fi)
    as (o & hdr' & dc' & evs & El & _ & _ & Dm & _).
  assert (Er : PayuManifest.check_fast hash get_git_revision_hash true
                 (mk pth hdr d ign tr)
               = for_each hv (fun '(filepath, vals) =>
                   PayuManifest.recheck hash get_git_revision_hash
                     filepath vals) (mk pth hdr dc1 ign tr)).
  { rewrite (E true). destruct ok; [|reflexivity].
    destruct (O eq_refl) as [-> ->]. reflexivity. }
  split.
  - exists hv, (mk pth hdr dc1 ign tr). split; [exact Er|].
    split; [reflexivity|]. intros q f M. split.
    + now destruct (B q f M).
    + cbn [self data]. now apply (proj1 Sv).
  - exists evs. rewrite Er, El. split; [reflexivity|].
    intros pth0 hdr0 dat q f I M.
    destruct (Dm pth0 hdr0 dat I) as [_ [S _]]. now apply S.
Qed.
End CheckFacts.

(** ** The theorems at sample inputs *)

(** C1 at [sample_manifest], when both digests of the file have changed. *)
Lemma check_fast_reproduce_full_mismatch_exits_witness :
  exists s' q w evs,
    PayuManifest.check_fast (sample_hash "m9") "rev" true
      {| self := sample_manifest; trace := [] |} = (SystemExit 1, s')
    /\ fast_mismatch (sample_hash "m9") (data sample_manifest) q <> None
    /\ full_mismatch (sample_hash "m9") (data sample_manifest) q = Some w
    /\ trace s' =
       [] ++ evs ++
       [Stderr ("Run cannot reproduce: manifest {} is not correct"
                ++ PayuManifest.newline) [a_str (path sample_manifest)];
        Stdout "    {}:" [a_str q];
        Stdout "        {}: {} != {}"
          [a_str "md5"; a_str w;
           a_opt (flat (entry (data sample_manifest) q "md5"))]].
Proof.
  apply (check_fast_reproduce_full_mismatch_exits (sample_hash "m9") "rev"
           sample_manifest [] "report.txt" "cd34" "m9"); reflexivity.
Defined.

(** C2 at [sample_manifest], when both digests of the file have changed. *)
Lemma check_fast_update_rewrites_full_hashes_witness :
  exists m' n,
    PayuManifest.check_fast (sample_hash "m9") "rev" false
      {| self := sample_manifest; trace := [] |}
    = (Normal tt,
       {| self := m';
          trace := [] ++ [Stdout "Updating full hashes for {} files in {}"
                            [a_int n; a_str (path sample_manifest)];
                          Stdout "Writing {}" [a_str (path sample_manifest)];
                          Dumped (path sample_manifest) (header m') (data m')] |})
    /\ header m' = Dict.set "githash" "rev" (header sample_manifest)
    /\ forall q fq fp w,
         fast_mismatch (sample_hash "m9") (data sample_manifest) q = Some fq ->
         fullpath_of (data sample_manifest) q = Some fp ->
         sample_hash "m9" "md5" fp = Some w ->
         entry (data m') q "md5" = Some (Some w).
Proof.
  apply (check_fast_update_rewrites_full_hashes (sample_hash "m9") "rev"
           sample_manifest [] "report.txt" "cd34"); reflexivity.
Defined.

(** C3 at [sample_manifest], when only the fast digest has changed. *)
Lemma check_fast_reproduce_refreshes_fast_entry_witness :
  fst (PayuManifest.check_fast (sample_hash "m1") "rev" true
         {| self := sample_manifest; trace := [] |}) = Normal tt
  /\ entry
       (data (self (snd (PayuManifest.check_fast (sample_hash "m1") "rev" true
                           {| self := sample_manifest; trace := [] |}))))
       "report.txt" "binhash" = Some (Some "cd34")
  /\ entry
       (data (self (snd (PayuManifest.check_fast (sample_hash "m1") "rev" true
                           {| self := sample_manifest; trace := [] |}))))
       "report.txt" "md5" = Some (Some "m1").
Proof.
  destruct (check_fast_reproduce_refreshes_fast_entry (sample_hash "m1") "rev"
              sample_manifest [] "report.txt" "cd34"
              eq_refl eq_refl eq_refl) as [_ H].
  destruct (H eq_refl) as (_ & Hb & Hm & _).
  split; [reflexivity|]. split; [exact Hb | exact Hm].
Defined.

(** C8 at [two_files]: the first file passes its full recheck, the second
    does not, and the one dump made holds the new fast digest of both. *)
Lemma check_fast_reproduce_saves_fast_hashes_first_witness :
  exists evs,
    trace (snd (PayuManifest.check_fast two_files_hash "rev" true
                  {| self := two_files; trace := [] |})) = [] ++ evs
    /\ forall pth hdr dat q f,
         In (Dumped pth hdr dat) evs ->
         fast_mismatch two_files_hash (data two_files) q = Some f ->
         entry dat q "binhash" = Some (Some f).
Proof.
  apply (check_fast_reproduce_saves_fast_hashes_first two_files_hash "rev"
           two_files [] eq_refl).
Defined.

(** At [two_files] the run ends in [sys.exit(1)] on the second file, after
    a dump in which that file has its new fast digest and its old full one. *)
Example two_files_dump_before_exit :
  let r := PayuManifest.check_fast two_files_hash "rev" true
             {| self := two_files; trace := [] |} in
  fst r = SystemExit 1
  /\ exists hdr dat,
       In (Dumped "manifests/input.yaml" hdr dat) (trace (snd r))
       /\ entry dat "b.nc" "binhash" = Some (Some "b1")
       /\ entry dat "b.nc" "md5" = Some (Some "mb").
Proof.
  split; [reflexivity|]. do 2 eexists. split.
  - vm_compute. do 4 right. left. reflexivity.
  - split; reflexivity.
Qed.

(** C4 at a freshly built coordinator whose restart manifest is empty. *)
Lemma setup_reproduce_requires_manifests_witness :
  exists s' evs,
    Manifest.setup (sample_disk []) None 10 (Manifest.init [] sample_expt true)
      = (SystemExit 1, s')
    /\ Manifest.ctrace s'
       = Manifest.ctrace (Manifest.init [] sample_expt true) ++ evs
    /\ existsb is_link evs = false.
Proof.
  apply (setup_reproduce_requires_manifests (sample_disk []) None 10
           (Manifest.init [] sample_expt true));
    try reflexivity.
  left. reflexivity.
Defined.

(** C7, as amended, at [deep_restart]. *)
Lemma setup_counter_from_nearest_restart003_witness :
  exists s',
    Manifest.setup (sample_disk deep_restart) None 40
      (Manifest.init [] sample_expt true) = (Normal tt, s')
    /\ Manifest.counter (Manifest.expt (Manifest.this s')) = Some 4%Z.
Proof.
  apply (setup_counter_from_nearest_restart003 (sample_disk deep_restart) None
           40 (Manifest.init [] sample_expt true) [] deep_restart);
    try reflexivity.
  - discriminate.
  - repeat constructor. eexists. split; [reflexivity|]. split.
    + exists ["scratch"; "archive"], ["ocean"].
      split; [reflexivity | repeat constructor].
    + simpl. lia.
Defined.

(** * Further properties *)

(** ** The walk *)

(** X1.  The walk over the ancestors of [head], when it ends, ends with the
    restart number of the nearest name of [head] that gives one; it ends
    within as many rounds as [head] has bytes, plus one, when some name
    gives a number; and it ends for no fuel at all when none does. *)
Theorem walk_finds_nearest_restart_number (fuel : nat) (head : string) :
  (forall n, Manifest.walk fuel head = Some n ->
             nearest (names head) = Some n)
  /\ (forall n, nearest (names head) = Some n ->
                String.length head < fuel ->
                Manifest.walk fuel head = Some n)
  /\ (nearest (names head) = None -> Manifest.walk fuel head = None).
Proof.
  split; [apply walk_sound|]. split; [apply walk_complete|].
  intros Hn. destruct (Manifest.walk fuel head) as [n|] eqn:W; [|reflexivity].
  rewrite (walk_sound _ _ _ W) in Hn. discriminate.
Qed.

(** ** setup: what it changes and when it returns *)

Lemma set_counter_same (c : Manifest.coordinator) :
  Manifest.set_counter c (Manifest.counter (Manifest.expt c)) = c.
Proof. destruct c as [[cfg ms n] ? ? ? ? ? ? ? ? ? ?]. reflexivity. Qed.

Lemma set_counter_twice (c : Manifest.coordinator) (a b : option Z) :
  Manifest.set_counter (Manifest.set_counter c a) b = Manifest.set_counter c b.
Proof. reflexivity. Qed.

Lemma set_restart_manifest_same (c : Manifest.coordinator) :
  Manifest.set_restart_manifest c (Manifest.restart_manifest c) = c.
Proof. destruct c. reflexivity. Qed.

(** The accessor reads: it leaves the state as it is. *)
Lemma fullpath_reads (filepath : string) (s : pstate) :
  snd (YaManifest.fullpath filepath s) = s.
Proof.
  unfold YaManifest.fullpath, YaManifest.record_of, bind, gets, getitem, field,
    ret, raise.
  destruct (Dict.get filepath (data (self s))) as [r|]; [|reflexivity].
  destruct (r_fullpath r); reflexivity.
Qed.

Lemma on_restart_fullpath (filepath : string) (s : Manifest.cstate) :
  Manifest.on_restart (YaManifest.fullpath filepath) s =
  (match fullpath_of
           (data (Manifest.restart_manifest (Manifest.this s))) filepath with
   | Some fp => Normal fp
   | None =>
       match Dict.get filepath
               (data (Manifest.restart_manifest (Manifest.this s))) with
       | Some _ => Raised (KeyError "fullpath")
       | None => Raised (KeyError filepath)
       end
   end, s).
Proof.
  destruct s as [c tr]. unfold Manifest.on_restart, Manifest.zoom.
  rewrite fullpath_reads. cbn [self trace Manifest.this Manifest.ctrace].
  rewrite set_restart_manifest_same. f_equal.
  unfold YaManifest.fullpath, YaManifest.record_of, bind, gets, getitem, field,
    ret, raise, fullpath_of. cbn [self data fst].
  destruct (Dict.get filepath (data (Manifest.restart_manifest c))) as [r|];
    [|reflexivity].
  destruct (r_fullpath r); reflexivity.
Qed.

(** The scan changes nothing but the counter of the experiment. *)
Lemma scan_frame (fuel : nat) (paths : list string) :
  forall s : Manifest.cstate,
  exists o n,
    Manifest.scan fuel paths s =
    (o, {| Manifest.this := Manifest.set_counter (Manifest.this s) n;
           Manifest.ctrace := Manifest.ctrace s |}).
Proof.
  induction paths as [|p paths IH]; intros [c tr].
  - exists (Normal tt), (Manifest.counter (Manifest.expt c)).
    cbn [Manifest.this Manifest.ctrace]. now rewrite set_counter_same.
  - rewrite scan_cons. unfold bind at 1. rewrite on_restart_fullpath.
    cbn [Manifest.this Manifest.ctrace].
    destruct (fullpath_of (data (Manifest.restart_manifest c)) p) as [fp|].
    + destruct (Manifest.walk fuel (PosixPath.dirname fp)) as [n|].
      * cbv beta iota zeta delta [bind gets Manifest.on_this modify ret].
        cbn [Manifest.this Manifest.ctrace].
        destruct (Manifest.counter_is_zero _).
        -- now exists (Normal tt), (Some (n + 1)%Z).
        -- destruct (IH {| Manifest.this :=
                             Manifest.set_counter c (Some (n + 1)%Z);
                           Manifest.ctrace := tr |}) as (o & m & E).
           rewrite E. now exists o, m.
      * exists OutOfFuel, (Manifest.counter (Manifest.expt c)).
        now rewrite set_counter_same.
    + destruct (Dict.get p (data (Manifest.restart_manifest c)));
        eexists _, (Manifest.counter (Manifest.expt c));
        rewrite set_counter_same; reflexivity.
Qed.

(** The cases of what [setup] finds on disk for the input and executable
    manifests. *)
Ltac split_loads disk c :=
  destruct (disk (path (Manifest.input_manifest c))) as [[hi di]|] eqn:Di;
  simpl;
  [destruct (Manifest.get_default
               (Manifest.cfg_overwrite (Manifest.manifest_config c)) false)
     eqn:Ov; simpl;
   [|rewrite ?Di; simpl; destruct di as [|ri di]; simpl]|];
  (destruct (disk (path (Manifest.exe_manifest c))) as [[he de]|] eqn:De;
   simpl; [rewrite ?De; simpl; destruct de as [|re de]; simpl|]).

(** The cases of the restart manifest and of the flags under [reproduce]. *)
Ltac split_reproduce disk c :=
  destruct (disk (path (Manifest.restart_manifest c))) as [[hr [|rr dr]]|]
    eqn:Dr;
  simpl; rewrite ?Dr; simpl;
  destruct (Manifest.have_input_manifest c) eqn:Hin; simpl;
  destruct (Manifest.reproduce_exe c) eqn:Rexe; simpl;
  destruct (Manifest.have_exe_manifest c) eqn:Hexe; simpl.

Ltac frame_scan :=
  match goal with
  | |- context [Manifest.scan ?f ?ps ?s1] =>
      let o := fresh "o" in
      let n := fresh "n" in
      let E := fresh "E" in
      destruct (scan_frame f ps s1) as (o & n & E); rewrite E; clear E;
      cbn [Manifest.this Manifest.ctrace]
  end.

Section SetupMore.
Variable disk : string -> option YaManifest.persisted.
Variable PAYU_CURRENT_RUN : option string.

(** X2.  Without [reproduce], [setup] always returns normally, whatever is
    on disk and whatever the fuel: it loads the input manifest when its file
    exists and overwriting is not configured, the executable manifest when
    its file exists, sets each of their flags when the loaded document is
    not empty, never loads the restart manifest, leaves the experiment as it
    was, and leaves the restart flag false even when the restart manifest
    file exists.  It writes nothing but lines on standard output. *)
Theorem setup_without_reproduce (fuel : nat) (s : Manifest.cstate) :
  Manifest.reproduce (Manifest.this s) = false ->
  exists s' evs,
    Manifest.setup disk PAYU_CURRENT_RUN fuel s = (Normal tt, s')
    /\ Manifest.have_restart_manifest (Manifest.this s') = false
    /\ Manifest.restart_manifest (Manifest.this s')
       = Manifest.restart_manifest (Manifest.this s)
    /\ Manifest.expt (Manifest.this s') = Manifest.expt (Manifest.this s)
    /\ Manifest.have_input_manifest (Manifest.this s')
       = (Manifest.have_input_manifest (Manifest.this s)
          || (present_and_non_empty disk
                (path (Manifest.input_manifest (Manifest.this s)))
              && negb (Manifest.get_default
                         (Manifest.cfg_overwrite
                            (Manifest.manifest_config (Manifest.this s)))
                         false)))%bool
    /\ Manifest.have_exe_manifest (Manifest.this s')
       = (Manifest.have_exe_manifest (Manifest.this s)
          || present_and_non_empty disk
               (path (Manifest.exe_manifest (Manifest.this s))))%bool
    /\ Manifest.ctrace s' = Manifest.ctrace s ++ evs
    /\ forallb is_stdout evs = true.
Proof.
  destruct s as [c tr]. simpl. intros Hrep.
  unfold present_and_non_empty.
  run_setup. rewrite Hrep.
  split_loads disk c.
  all: do 2 eexists; split; [reflexivity|]; simpl.
  all: rewrite ?Ov; simpl;
    rewrite ?andb_false_r, ?andb_true_r, ?orb_false_r, ?orb_true_r.
  all: repeat (split; [reflexivity|]).
  all: try (split; [rewrite <- ?app_assoc; reflexivity | reflexivity]).
  all: try reflexivity.
  all: split; [symmetry; apply app_nil_r | reflexivity].
Qed.
(** X3.  When [reproduce] is off or [PAYU_CURRENT_RUN] is set to a
    non-empty string, [setup] makes no walk at all: it does the same with
    any fuel as with none, it always comes to an end, and it leaves the run
    counter as it was. *)
Theorem setup_without_inference (fuel : nat) (s : Manifest.cstate) :
  Manifest.reproduce (Manifest.this s) = false
  \/ Manifest.truthy PAYU_CURRENT_RUN = true ->
  Manifest.setup disk PAYU_CURRENT_RUN fuel s
    = Manifest.setup disk PAYU_CURRENT_RUN 0 s
  /\ fst (Manifest.setup disk PAYU_CURRENT_RUN fuel s) <> OutOfFuel
  /\ Manifest.counter
       (Manifest.expt
          (Manifest.this (snd (Manifest.setup disk PAYU_CURRENT_RUN fuel s))))
     = Manifest.counter (Manifest.expt (Manifest.this s)).
Proof.
  destruct s as [c tr]. simpl. intros H.
  run_setup.
  destruct (Manifest.reproduce c) eqn:Hrep.
  - destruct H as [H|Henv]; [discriminate|].
    split_loads disk c; split_reproduce disk c; rewrite ?Henv; simpl;
      (split; [reflexivity|]); (split; [discriminate | reflexivity]).
  - split_loads disk c;
      (split; [reflexivity|]); (split; [discriminate | reflexivity]).
Qed.

Lemma forallb_marked (ms : list Manifest.model) :
  forallb Manifest.model_have_restart_manifest
    (map (fun _ => {| Manifest.model_have_restart_manifest := true |}) ms)
  = true.
Proof. induction ms; simpl; auto. Qed.

(** X4.  When [setup] returns normally under [reproduce], the restart and
    input flags are set, the executable flag is set if executables are to be
    reproduced, the restart manifest in memory is the non-empty document
    read from its file, and every model has been told that there is a
    restart manifest. *)
Theorem setup_reproduce_postconditions
    (fuel : nat) (s s' : Manifest.cstate) :
  Manifest.reproduce (Manifest.this s) = true ->
  Manifest.setup disk PAYU_CURRENT_RUN fuel s = (Normal tt, s') ->
  Manifest.have_restart_manifest (Manifest.this s') = true
  /\ Manifest.have_input_manifest (Manifest.this s') = true
  /\ (Manifest.reproduce_exe (Manifest.this s') = true ->
      Manifest.have_exe_manifest (Manifest.this s') = true)
  /\ all_marked (Manifest.expt (Manifest.this s')) = true
  /\ length (Manifest.models (Manifest.expt (Manifest.this s')))
     = length (Manifest.models (Manifest.expt (Manifest.this s)))
  /\ data (Manifest.restart_manifest (Manifest.this s')) <> []
  /\ exists hr,
       disk (path (Manifest.restart_manifest (Manifest.this s)))
       = Some (hr, data (Manifest.restart_manifest (Manifest.this s'))).
Proof.
  intros Hrep H.
  assert (E1 : fst (Manifest.setup disk PAYU_CURRENT_RUN fuel s) = Normal tt)
    by now rewrite H.
  assert (E2 : snd (Manifest.setup disk PAYU_CURRENT_RUN fuel s) = s')
    by now rewrite H.
  subst s'. clear H. revert E1.
  destruct s as [c tr]. simpl in Hrep. unfold all_marked.
  run_setup. rewrite Hrep.
  split_loads disk c; split_reproduce disk c; try discriminate.
  all: destruct (Manifest.truthy PAYU_CURRENT_RUN); simpl.
  all: try frame_scan; simpl; intros _.
  all: rewrite ?forallb_marked, ?length_map.
  all: repeat split; try reflexivity; try discriminate; try congruence.
  all: eexists; reflexivity.
Qed.

(** X5.  Whatever is on disk and however it ends, [setup] writes nothing
    but lines on standard output, and it leaves alone the [reproduce] and
    [reproduce_exe] flags, the configuration, the ignore patterns and the
    path and ignore list of each of the three manifests. *)
Theorem setup_only_prints (fuel : nat) (s : Manifest.cstate) :
  let c := Manifest.this s in
  let c' := Manifest.this (snd (Manifest.setup disk PAYU_CURRENT_RUN fuel s)) in
  (exists evs,
     Manifest.ctrace (snd (Manifest.setup disk PAYU_CURRENT_RUN fuel s))
       = Manifest.ctrace s ++ evs
     /\ forallb is_stdout evs = true)
  /\ Manifest.reproduce c' = Manifest.reproduce c
  /\ Manifest.reproduce_exe c' = Manifest.reproduce_exe c
  /\ Manifest.manifest_config c' = Manifest.manifest_config c
  /\ Manifest.ignore_patterns c' = Manifest.ignore_patterns c
  /\ path (Manifest.input_manifest c') = path (Manifest.input_manifest c)
  /\ path (Manifest.exe_manifest c') = path (Manifest.exe_manifest c)
  /\ path (Manifest.restart_manifest c') = path (Manifest.restart_manifest c)
  /\ ignore (Manifest.input_manifest c') = ignore (Manifest.input_manifest c)
  /\ ignore (Manifest.exe_manifest c') = ignore (Manifest.exe_manifest c)
  /\ ignore (Manifest.restart_manifest c')
     = ignore (Manifest.restart_manifest c).
Proof.
  destruct s as [c tr]. simpl.
  run_setup.
  destruct (Manifest.reproduce c) eqn:Hrep.
  - split_loads disk c; split_reproduce disk c.
    all: destruct (Manifest.truthy PAYU_CURRENT_RUN); simpl.
    all: try frame_scan; simpl.
    all: (split; [eexists; split; [first [rewrite <- ?app_assoc; reflexivity
                                          | symmetry; apply app_nil_r]
                                  | reflexivity]|]).
    all: repeat split; simpl; rewrite ?Hrep, ?Rexe; reflexivity.
  - split_loads disk c.
    all: (split; [eexists; split; [first [rewrite <- ?app_assoc; reflexivity
                                          | symmetry; apply app_nil_r]
                                  | reflexivity]|]).
    all: repeat split; simpl; rewrite ?Hrep, ?Rexe; reflexivity.
Qed.

(** X6.  A coordinator with [reproduce] set and overwriting of the input
    manifest configured never gets through [setup]: the input manifest is
    not loaded, its flag stays false, and the call ends in [exit(1)], or in
    the error of [load] when there is no restart manifest file. *)
Theorem setup_reproduce_with_overwrite_fails
    (fuel : nat) (s : Manifest.cstate) :
  Manifest.reproduce (Manifest.this s) = true ->
  Manifest.get_default
    (Manifest.cfg_overwrite (Manifest.manifest_config (Manifest.this s)))
    false = true ->
  Manifest.have_input_manifest (Manifest.this s) = false ->
  fst (Manifest.setup disk PAYU_CURRENT_RUN fuel s) =
    match disk (path (Manifest.restart_manifest (Manifest.this s))) with
    | Some _ => SystemExit 1
    | None =>
        Raised (IOError (path (Manifest.restart_manifest (Manifest.this s))))
    end
  /\ Manifest.input_manifest
       (Manifest.this (snd (Manifest.setup disk PAYU_CURRENT_RUN fuel s)))
     = Manifest.input_manifest (Manifest.this s).
Proof.
  destruct s as [c tr]. simpl. intros Hrep Hov Hin.
  run_setup. rewrite Hrep, Hov.
  destruct (disk (path (Manifest.input_manifest c))) as [[hi di]|]; simpl;
    (destruct (disk (path (Manifest.exe_manifest c))) as [[he de]|] eqn:De;
     simpl; [rewrite ?De; simpl; destruct de as [|re de]; simpl|]);
    (destruct (disk (path (Manifest.restart_manifest c))) as [[hr [|rr dr]]|]
       eqn:Dr; simpl; rewrite ?Dr; simpl; rewrite ?Hin; simpl);
    split; reflexivity.
Qed.

(** The scan when the walk of every path comes to an end with a number
    other than -1: the last path decides. *)
Lemma scan_last (fuel : nat) (dr : Dict.t file_record) (paths : list string) :
  forall s : Manifest.cstate,
  data (Manifest.restart_manifest (Manifest.this s)) = dr ->
  (forall p, In p paths ->
     exists n, resolved fuel dr p = Some n /\ n <> (-1)%Z) ->
  exists s',
    Manifest.scan fuel paths s = (Normal tt, s') /\
    Manifest.counter (Manifest.expt (Manifest.this s')) =
      match paths with
      | [] => Manifest.counter (Manifest.expt (Manifest.this s))
      | _ => option_map (fun n => (n + 1)%Z)
               (resolved fuel dr (last paths ""))
      end.
Proof.
  induction paths as [|p paths IH]; intros s Hd Hp.
  - exists s. split; reflexivity.
  - destruct (Hp p (or_introl eq_refl)) as (n & R & N).
    destruct s as [c tr]. simpl in Hd. subst dr.
    rewrite scan_cons. unfold bind at 1. rewrite on_restart_fullpath.
    cbn [Manifest.this Manifest.ctrace].
    unfold resolved in R.
    destruct (fullpath_of (data (Manifest.restart_manifest c)) p) as [fp|]
      eqn:F; [|discriminate].
    rewrite R.
    cbv beta iota zeta delta [bind gets Manifest.on_this modify ret].
    cbn [Manifest.this Manifest.ctrace].
    unfold Manifest.counter_is_zero. simpl.
    destruct (Z.eqb_spec (n + 1) 0) as [Z0|_]; [lia|].
    match goal with
    | |- context [Manifest.scan fuel paths ?s1] =>
        destruct (IH s1) as (s' & E & C)
    end.
    { reflexivity. }
    { intros q I. apply Hp. now right. }
    exists s'. split; [exact E|]. rewrite C.
    destruct paths as [|q paths]; [|reflexivity].
    simpl. unfold resolved. rewrite F, R. reflexivity.
Qed.

(** X7.  Under [reproduce], with no [PAYU_CURRENT_RUN] and with manifests
    that pass the checks of [setup], if the walk above every tracked restart
    path comes to an end with a number other than -1, then [setup] returns
    normally and the run counter is the number found above the last tracked
    path, plus one: the scan goes through every path and the last one
    decides. *)
Theorem setup_counter_from_last_path
    (fuel : nat) (s : Manifest.cstate) (hr : Dict.t string)
    (dr : Dict.t file_record) :
  Manifest.reproduce (Manifest.this s) = true ->
  Manifest.truthy PAYU_CURRENT_RUN = false ->
  present_and_non_empty disk
    (path (Manifest.input_manifest (Manifest.this s))) = true ->
  Manifest.get_default
    (Manifest.cfg_overwrite (Manifest.manifest_config (Manifest.this s)))
    false = false ->
  (negb (Manifest.reproduce_exe (Manifest.this s))
   || present_and_non_empty disk
        (path (Manifest.exe_manifest (Manifest.this s))))%bool = true ->
  disk (path (Manifest.restart_manifest (Manifest.this s))) = Some (hr, dr) ->
  dr <> [] ->
  (forall p, In p (Dict.keys dr) ->
     exists n, resolved fuel dr p = Some n /\ n <> (-1)%Z) ->
  exists s',
    Manifest.setup disk PAYU_CURRENT_RUN fuel s = (Normal tt, s') /\
    Manifest.counter (Manifest.expt (Manifest.this s')) =
      option_map (fun n => (n + 1)%Z)
        (resolved fuel dr (last (Dict.keys dr) "")).
Proof.
  destruct s as [c tr]. simpl.
  intros Hrep Henv Hin Hov Hexe Hdisk Hne Hall.
  destruct dr as [|kr dr]; [congruence|].
  unfold present_and_non_empty in *.
  run_setup. rewrite Hrep, Hov.
  destruct (disk (path (Manifest.input_manifest c))) as [[hi [|ri di]]|] eqn:Di;
    try discriminate.
  simpl. rewrite ?Di. simpl.
  destruct (disk (path (Manifest.exe_manifest c))) as [[he [|re de]]|] eqn:De;
    simpl; rewrite ?De; simpl; rewrite ?Hdisk; simpl; rewrite ?Hdisk; simpl;
    destruct (Manifest.reproduce_exe c) eqn:Rexe; try discriminate; simpl;
    rewrite ?Rexe; simpl; rewrite Henv; simpl;
    match goal with
    | |- context [Manifest.scan fuel ?ps ?s1] =>
        destruct (scan_last fuel (kr :: dr) ps s1 eq_refl Hall) as (s' & E & C)
    end;
    exists s'; (split; [exact E | exact C]).
Qed.
End SetupMore.

(** ** More on dictionaries *)

Section DictMore.
Context {V : Type}.
Implicit Types (d : Dict.t V) (k : string) (v : V).

Lemma set_set d k v v' : Dict.set k v (Dict.set k v' d) = Dict.set k v d.
Proof.
  induction d as [|[k0 v0] d IH]; simpl.
  - now rewrite String.eqb_refl.
  - destruct (String.eqb k k0) eqn:E; simpl.
    + now rewrite String.eqb_refl.
    + now rewrite E, IH.
Qed.

Lemma set_get_same d k v : Dict.get k d = Some v -> Dict.set k v d = d.
Proof.
  induction d as [|[k0 v0] d IH]; simpl; [discriminate|].
  destruct (String.eqb_spec k k0) as [->|N].
  - now intros [= ->].
  - intros G. now rewrite IH.
Qed.

Lemma keys_set d k v :
  Dict.keys (Dict.set k v d) =
  if Dict.contains k d then Dict.keys d else Dict.keys d ++ [k].
Proof.
  unfold Dict.contains. induction d as [|[k0 v0] d IH]; simpl; [reflexivity|].
  destruct (String.eqb_spec k k0) as [->|N]; simpl; [reflexivity|].
  rewrite IH. now destruct (Dict.get k d).
Qed.
End DictMore.

(** ** add_filepath, composed *)

Section AddFilepath.
Variable isdir : string -> bool.
Variable fnmatch : string -> string -> bool.

(** What [add_filepath] does, in one step. *)
Lemma add_filepath_run (filepath fullpath : string) (copy : bool) (s : pstate) :
  PayuManifest.add_filepath isdir fnmatch filepath fullpath copy s =
  (Normal tt,
   if (isdir fullpath || PayuManifest.ignored fnmatch (self s) fullpath)%bool
   then s
   else {| self :=
             with_data (self s)
               (Dict.set filepath
                  (registered (Dict.get filepath (data (self s))) fullpath copy)
                  (data (self s)));
           trace := trace s |}).
Proof.
  unfold PayuManifest.add_filepath.
  destruct (isdir fullpath); simpl; [reflexivity|].
  unfold bind at 1. unfold gets at 1.
  destruct (PayuManifest.ignored fnmatch (self s) fullpath); [reflexivity|].
  destruct s as [m tr]. simpl.
  unfold YaManifest.record_of, Dict.contains, on_self, modify, bind, gets,
    getitem, ret, registered. simpl.
  destruct (Dict.get filepath (data m)) as [r|] eqn:G; simpl.
  - rewrite G. simpl. rewrite get_set_same. simpl.
    destruct r as [fp [h|] c]; simpl;
      destruct copy; simpl; repeat rewrite get_set_same; simpl;
      unfold with_data, with_fullpath, with_hashes, with_copy; simpl;
      repeat rewrite set_set; reflexivity.
  - rewrite get_set_same. simpl. repeat rewrite get_set_same. simpl.
    destruct copy; simpl; repeat rewrite get_set_same; simpl;
      unfold with_data, with_fullpath, with_hashes, with_copy, empty_record;
      simpl; repeat rewrite set_set; reflexivity.
Qed.
Lemma registered_well_formed old fullpath copy :
  wf_record (registered old fullpath copy) = true.
Proof. reflexivity. Qed.

Lemma registered_again old fullpath copy :
  registered (Some (registered old fullpath copy)) fullpath copy
  = registered old fullpath copy.
Proof. unfold registered. simpl. now destruct copy. Qed.

(** [copy_file] reads the flag and leaves the state alone. *)
Lemma copy_file_reads (filepath : string) (s : pstate) :
  PayuManifest.copy_file filepath s
  = (Normal (copy_flag (data (self s)) filepath), s).
Proof.
  unfold PayuManifest.copy_file, PayuManifest.except_KeyError,
    YaManifest.record_of, getitem, field, bind, gets, ret, raise, copy_flag.
  destruct (Dict.get filepath (data (self s))) as [r|]; [|reflexivity].
  destruct (r_copy r); reflexivity.
Qed.

(** X8.  Any sequence of [add_filepath] calls on a document in which every
    record has a full path and a hash dictionary returns normally, emits
    nothing, leaves such a document, and leaves its path, header and ignore
    list alone; no path tracked before is dropped. *)
Theorem add_filepath_keeps_well_formed
    (calls : list (string * string * bool)) (s : pstate) :
  wf_doc (data (self s)) = true ->
  let r := for_each calls (fun '(filepath, fullpath, copy) =>
             PayuManifest.add_filepath isdir fnmatch filepath fullpath copy) s in
  fst r = Normal tt
  /\ wf_doc (data (self (snd r))) = true
  /\ trace (snd r) = trace s
  /\ path (self (snd r)) = path (self s)
  /\ header (self (snd r)) = header (self s)
  /\ ignore (self (snd r)) = ignore (self s)
  /\ forall p, In p (Dict.keys (data (self s))) ->
               In p (Dict.keys (data (self (snd r)))).
Proof.
  revert s. induction calls as [|[[filepath fullpath] copy] calls IH];
    intros s W; cbn zeta.
  - simpl. repeat split; auto.
  - set (s1 := if (isdir fullpath
                   || PayuManifest.ignored fnmatch (self s) fullpath)%bool
               then s
               else {| self :=
                         with_data (self s)
                           (Dict.set filepath
                              (registered (Dict.get filepath (data (self s)))
                                 fullpath copy)
                              (data (self s)));
                       trace := trace s |}).
    assert (Eq : for_each ((filepath, fullpath, copy) :: calls)
                   (fun '(filepath, fullpath, copy) =>
                      PayuManifest.add_filepath isdir fnmatch
                        filepath fullpath copy) s
                 = for_each calls
                     (fun '(filepath, fullpath, copy) =>
                        PayuManifest.add_filepath isdir fnmatch
                          filepath fullpath copy) s1).
    { cbn [for_each]. unfold bind at 1. now rewrite add_filepath_run. }
    rewrite Eq. clear Eq.
    assert (W1 : wf_doc (data (self s1)) = true
                 /\ trace s1 = trace s /\ path (self s1) = path (self s)
                 /\ header (self s1) = header (self s)
                 /\ ignore (self s1) = ignore (self s)
                 /\ forall p, In p (Dict.keys (data (self s))) ->
                              In p (Dict.keys (data (self s1)))).
    { subst s1.
      destruct (isdir fullpath || PayuManifest.ignored fnmatch (self s) fullpath)%bool.
      - repeat split; auto.
      - cbn [self data trace with_data path header ignore].
        repeat split; auto.
        + apply wf_doc_set; auto.
        + intros p I. now apply keys_set_mono. }
    destruct W1 as (W1 & T1 & P1 & H1 & I1 & K1).
    pose proof (IH _ W1) as IH1. cbn zeta in IH1.
    destruct IH1 as (A & B & C & D & E & F & G).
    split; [exact A|]. split; [exact B|].
    split; [now rewrite C|]. split; [now rewrite D|].
    split; [now rewrite E|]. split; [now rewrite F|].
    intros p I. apply G. now apply K1.
Qed.

(** X9.  Calling [add_filepath] a second time with the same arguments
    changes nothing. *)
Theorem add_filepath_idempotent
    (filepath fullpath : string) (copy : bool) (s : pstate) :
  let s1 := snd (PayuManifest.add_filepath isdir fnmatch
                   filepath fullpath copy s) in
  PayuManifest.add_filepath isdir fnmatch filepath fullpath copy s1
  = (Normal tt, s1).
Proof.
  cbn zeta. rewrite !add_filepath_run. cbn [snd].
  destruct (isdir fullpath) eqn:Dir; simpl; [reflexivity|].
  destruct (PayuManifest.ignored fnmatch (self s) fullpath) eqn:Ig; simpl.
  - now rewrite Ig.
  - unfold PayuManifest.ignored in *. simpl. rewrite Ig.
    rewrite get_set_same, registered_again, set_set. reflexivity.
Qed.

(** X10.  [add_filepath] keeps the order of iteration: a path that is
    skipped or already tracked leaves the tracked paths and their order as
    they were, and a new path goes last. *)
Theorem add_filepath_iteration_order
    (filepath fullpath : string) (copy : bool) (s : pstate) :
  YaManifest.iter
    (self (snd (PayuManifest.add_filepath isdir fnmatch
                  filepath fullpath copy s)))
  = if (isdir fullpath || PayuManifest.ignored fnmatch (self s) fullpath
        || Dict.contains filepath (data (self s)))%bool
    then YaManifest.iter (self s)
    else YaManifest.iter (self s) ++ [filepath].
Proof.
  rewrite add_filepath_run. cbn [snd]. unfold YaManifest.iter.
  destruct (isdir fullpath || PayuManifest.ignored fnmatch (self s) fullpath)%bool;
    [reflexivity|].
  cbn [self data with_data orb]. apply keys_set.
Qed.

(** X11.  After [add_filepath] has registered a path, [copy_file] answers
    true when [copy] was true and otherwise what it answered before: a call
    with [copy] false does not take back the flag of an earlier call. *)
Theorem copy_file_after_add_filepath
    (filepath fullpath : string) (copy : bool) (s : pstate) :
  (isdir fullpath || PayuManifest.ignored fnmatch (self s) fullpath)%bool
    = false ->
  fst (PayuManifest.copy_file filepath
         (snd (PayuManifest.add_filepath isdir fnmatch
                 filepath fullpath copy s)))
  = Normal (copy || copy_flag (data (self s)) filepath)%bool.
Proof.
  intros Sk. rewrite add_filepath_run, copy_file_reads, Sk. cbn [fst snd].
  cbn [self data with_data]. unfold copy_flag. rewrite get_set_same.
  unfold registered. cbn [r_copy]. destruct copy; [reflexivity|].
  now destruct (Dict.get filepath (data (self s))).
Qed.
End AddFilepath.

(** ** make_links of one manifest *)

Lemma for_each_app {S A} (xs ys : list A) (body : A -> M S unit) (s : S) :
  for_each (xs ++ ys) body s = (for_each xs body ;;; for_each ys body) s.
Proof.
  revert s. induction xs as [|x xs IH]; intros s; simpl.
  - unfold bind, ret. now destruct (for_each ys body s) as [[]].
  - unfold bind. destruct (body x s) as [[[]| | |] s1]; try reflexivity.
    rewrite IH. reflexivity.
Qed.

Lemma link_calls_app (d : Dict.t file_record) (ps qs : list string) :
  link_calls d (ps ++ qs) = link_calls d ps ++ link_calls d qs.
Proof. unfold link_calls. apply flat_map_app. Qed.

Lemma calls_succeed_app (io_error : list event -> event -> option string)
    (a b : list event) :
  forall tr,
  calls_succeed io_error tr (a ++ b)
  = (calls_succeed io_error tr a && calls_succeed io_error (tr ++ a) b)%bool.
Proof.
  induction a as [|e a IH]; intros tr; simpl.
  - now rewrite app_nil_r.
  - destruct (io_error tr e); [reflexivity|].
    rewrite IH. now rewrite <- app_assoc.
Qed.

Section Links.
Variable io_error : list event -> event -> option string.

Lemma os_call_run (e : event) (m : manifest) (tr : list event) :
  os_call io_error e {| self := m; trace := tr |}
  = (match io_error tr e with
     | Some name => Raised (IOError name)
     | None => Normal tt
     end,
     {| self := m; trace := tr ++ [e] |}).
Proof.
  unfold os_call, bind, gets, emit, modify, raise, ret. cbn [trace self].
  now destruct (io_error tr e).
Qed.

(** The round for a path that has a full path: the call is made, and its
    error, if any, ends the round. *)
Lemma link_step (p fp : string) (m : manifest) (tr : list event) :
  fullpath_of (data m) p = Some fp ->
  (c <- PayuManifest.copy_file p ;;
   src <- YaManifest.fullpath p ;;
   if c then os_call io_error (CopyFile src p)
   else os_call io_error (Symlink src p)) {| self := m; trace := tr |}
  = (match io_error tr (link_call (data m) p fp) with
     | Some name => Raised (IOError name)
     | None => Normal tt
     end,
     {| self := m; trace := tr ++ [link_call (data m) p fp] |}).
Proof.
  intros Hp. unfold bind at 1. rewrite copy_file_reads. cbn [self data].
  unfold bind at 1. unfold YaManifest.fullpath, YaManifest.record_of.
  unfold bind at 1. unfold bind at 1. unfold gets at 1. cbn [self data].
  unfold fullpath_of in Hp. unfold getitem at 1.
  destruct (Dict.get p (data m)) as [r|] eqn:G; [|congruence].
  unfold ret at 1. unfold field at 1. rewrite Hp. unfold ret at 1.
  unfold link_call. destruct (copy_flag (data m) p); apply os_call_run.
Qed.

(** The round for a tracked path without a full path: no call is made. *)
Lemma link_step_missing (p : string) (m : manifest) (tr : list event) :
  In p (Dict.keys (data m)) ->
  fullpath_of (data m) p = None ->
  (c <- PayuManifest.copy_file p ;;
   src <- YaManifest.fullpath p ;;
   if c then os_call io_error (CopyFile src p)
   else os_call io_error (Symlink src p)) {| self := m; trace := tr |}
  = (Raised (KeyError "fullpath"), {| self := m; trace := tr |}).
Proof.
  intros I Hp. unfold bind at 1. rewrite copy_file_reads. cbn [self data].
  destruct (keys_get _ _ I) as [r G].
  unfold fullpath_of in Hp. rewrite G in Hp.
  unfold bind at 1. unfold YaManifest.fullpath, YaManifest.record_of.
  unfold bind at 1. unfold bind at 1. unfold gets at 1. cbn [self data].
  unfold getitem at 1. rewrite G. unfold ret at 1. unfold field at 1.
  rewrite Hp. reflexivity.
Qed.

(** The calls for the paths [ps] when each of them has a full path and no
    call fails. *)
Lemma link_loop (ps : list string) :
  forall (m : manifest) (tr : list event),
  (forall p, In p ps -> fullpath_of (data m) p <> None) ->
  calls_succeed io_error tr (link_calls (data m) ps) = true ->
  for_each ps (fun filepath =>
    c <- PayuManifest.copy_file filepath ;;
    src <- YaManifest.fullpath filepath ;;
    if c then os_call io_error (CopyFile src filepath)
    else os_call io_error (Symlink src filepath)) {| self := m; trace := tr |}
  = (Normal tt, {| self := m; trace := tr ++ link_calls (data m) ps |}).
Proof.
  induction ps as [|p ps IH]; intros m tr H C.
  - simpl. now rewrite app_nil_r.
  - destruct (fullpath_of (data m) p) as [fp|] eqn:Fp;
      [|exfalso; now apply (H p (or_introl eq_refl))].
    cbn [link_calls flat_map] in C |- *. rewrite Fp in C |- *.
    fold (link_calls (data m) ps) in C |- *.
    cbn [app calls_succeed] in C.
    destruct (io_error tr (link_call (data m) p fp)) eqn:Ok; [discriminate|].
    cbn [for_each]. unfold bind at 1.
    rewrite (link_step p fp m tr Fp), Ok.
    rewrite IH; [|intros q I; apply H; now right|exact C].
    cbn [app]. now rewrite <- app_assoc.
Qed.

(** The loop when the call for [p] is the first that fails. *)
Lemma link_loop_fails (before after : list string) (p fp name : string)
    (m : manifest) (tr : list event) :
  (forall q, In q before -> fullpath_of (data m) q <> None) ->
  calls_succeed io_error tr (link_calls (data m) before) = true ->
  fullpath_of (data m) p = Some fp ->
  io_error (tr ++ link_calls (data m) before) (link_call (data m) p fp)
    = Some name ->
  for_each (before ++ p :: after) (fun filepath =>
    c <- PayuManifest.copy_file filepath ;;
    src <- YaManifest.fullpath filepath ;;
    if c then os_call io_error (CopyFile src filepath)
    else os_call io_error (Symlink src filepath)) {| self := m; trace := tr |}
  = (Raised (IOError name),
     {| self := m;
        trace := tr ++ link_calls (data m) before
                 ++ [link_call (data m) p fp] |}).
Proof.
  intros Hb C Hp Hf. rewrite for_each_app.
  unfold bind at 1. rewrite link_loop by assumption.
  cbn [for_each]. unfold bind at 1.
  rewrite (link_step p fp m _ Hp), Hf. now rewrite <- app_assoc.
Qed.

(** X12.  When every tracked path has a full path and none of the calls
    fails, [make_links] returns normally, leaves the manifest as it is, and
    makes exactly one call for each tracked path, in the order of
    iteration: a copy for a path whose copy flag is true, a symbolic link
    for every other. *)
Theorem make_links_one_call_per_path (m : manifest) (tr : list event) :
  (forall p, In p (Dict.keys (data m)) -> fullpath_of (data m) p <> None) ->
  calls_succeed io_error tr (link_calls (data m) (Dict.keys (data m))) = true ->
  PayuManifest.make_links io_error {| self := m; trace := tr |}
  = (Normal tt,
     {| self := m;
        trace := tr ++ link_calls (data m) (Dict.keys (data m)) |})
  /\ length (link_calls (data m) (Dict.keys (data m))) = length (data m)
  /\ forallb is_link (link_calls (data m) (Dict.keys (data m))) = true.
Proof.
  intros H C. split; [|].
  - unfold PayuManifest.make_links. unfold bind at 1. unfold gets at 1.
    cbn [self]. unfold YaManifest.iter. now apply link_loop.
  - assert (G : forall ps, (forall p, In p ps -> fullpath_of (data m) p <> None) ->
              length (link_calls (data m) ps) = length ps
              /\ forallb is_link (link_calls (data m) ps) = true).
    { clear C. induction ps as [|p ps IH]; intros Hp; [now split|].
      destruct IH as [L F]; [intros q I; apply Hp; now right|].
      cbn [link_calls flat_map].
      destruct (fullpath_of (data m) p) as [fp|] eqn:E;
        [|exfalso; now apply (Hp p (or_introl eq_refl))].
      fold (link_calls (data m) ps). simpl. rewrite L, F. split; [reflexivity|].
      unfold link_call. now destruct (copy_flag (data m) p). }
    destruct (G _ H) as [L F]. unfold Dict.keys in L at 2.
    rewrite length_map in L. now split.
Qed.

(** X13.  [make_links] stops at the first tracked path whose record has no
    full path, when the calls for the paths before it succeed: it raises
    [KeyError('fullpath')] after those calls, makes no call for that path
    or any later one, and leaves the manifest as it is. *)
Theorem make_links_stops_at_missing_fullpath
    (m : manifest) (tr : list event) (before after : list string) (p : string) :
  Dict.keys (data m) = before ++ p :: after ->
  (forall q, In q before -> fullpath_of (data m) q <> None) ->
  calls_succeed io_error tr (link_calls (data m) before) = true ->
  fullpath_of (data m) p = None ->
  PayuManifest.make_links io_error {| self := m; trace := tr |}
  = (Raised (KeyError "fullpath"),
     {| self := m; trace := tr ++ link_calls (data m) before |}).
Proof.
  intros K Hb C Hp.
  unfold PayuManifest.make_links. unfold bind at 1. unfold gets at 1.
  cbn [self]. unfold YaManifest.iter. rewrite K, for_each_app.
  unfold bind at 1. rewrite link_loop by assumption.
  cbn [for_each]. unfold bind at 1.
  rewrite link_step_missing; [reflexivity| |exact Hp].
  rewrite K. apply in_or_app. right. now left.
Qed.

(** X21.  [make_links] stops at the first call that fails: the I/O error of
    that call reaches the caller, the calls for the paths before it have
    been made, and no call is made for a later path.  The manifest is left
    as it is. *)
Theorem make_links_stops_at_failed_call
    (m : manifest) (tr : list event) (before after : list string)
    (p fp name : string) :
  Dict.keys (data m) = before ++ p :: after ->
  (forall q, In q before -> fullpath_of (data m) q <> None) ->
  calls_succeed io_error tr (link_calls (data m) before) = true ->
  fullpath_of (data m) p = Some fp ->
  io_error (tr ++ link_calls (data m) before) (link_call (data m) p fp)
    = Some name ->
  PayuManifest.make_links io_error {| self := m; trace := tr |}
  = (Raised (IOError name),
     {| self := m;
        trace := tr ++ link_calls (data m) before
                 ++ [link_call (data m) p fp] |}).
Proof.
  intros K Hb C Hp Hf.
  unfold PayuManifest.make_links. unfold bind at 1. unfold gets at 1.
  cbn [self]. unfold YaManifest.iter. rewrite K.
  now apply link_loop_fails.
Qed.
End Links.

Section CheckMore.
Variable hash : string -> string -> option string.
Variable get_git_revision_hash : string.

Local Abbreviation mk pth hdr dat ign tr :=
  (Build_pstate (Build_manifest pth hdr dat ign) tr).

(** A check sees of a document the full path and the entry of its kind. *)
Lemma mismatch_ext (a b : Dict.t file_record) (kind p : string) :
  wf_doc a = true -> wf_doc b = true ->
  fullpath_of b p = fullpath_of a p ->
  entry b p kind = entry a p kind ->
  mismatch hash kind b p = mismatch hash kind a p.
Proof.
  intros Wa Wb F E. unfold mismatch, fullpath_of, entry in *.
  destruct (Dict.get p a) as [ra|] eqn:Ga;
    destruct (Dict.get p b) as [rb|] eqn:Gb; auto.
  - destruct (wf_record_fields ra (wf_doc_get a p ra Wa Ga))
      as (fa & sa & A1 & A2).
    destruct (wf_record_fields rb (wf_doc_get b p rb Wb Gb))
      as (fb & sb & B1 & B2).
    rewrite A1, A2 in *. rewrite B1, B2 in *. injection F as ->.
    unfold YaManifest.agrees. now rewrite E.
  - destruct (wf_record_fields ra (wf_doc_get a p ra Wa Ga))
      as (fa & sa & A1 & A2).
    rewrite A1 in F. discriminate.
  - destruct (wf_record_fields rb (wf_doc_get b p rb Wb Gb))
      as (fb & sb & B1 & B2).
    rewrite B1 in F. discriminate.
Qed.

(** Once the observed fast digests are saved, the fast check passes. *)
Lemma saved_all_pass (d dc : Dict.t file_record) :
  wf_doc d = true -> frame d dc -> fast_saved hash d dc ->
  all_pass hash "binhash" dc.
Proof.
  intros Wd Fr [S K] p.
  destruct (fast_mismatch hash d p) as [f|] eqn:M.
  - destruct (frame_tracked hash d dc "binhash" p f Fr M)
      as (r & fp & st & G & Hfp & Hst & _ & Hh).
    pose proof (S p f M) as E. unfold entry in E. rewrite G, Hst in E.
    unfold mismatch. rewrite G, Hfp, Hst, Hh.
    unfold YaManifest.agrees. rewrite E. now rewrite String.eqb_refl.
  - destruct Fr as (W & F & _).
    rewrite (mismatch_ext d dc "binhash" p Wd W (F p) (K p M)). exact M.
Qed.

(** X14.  When every tracked path of a well-formed document passes the fast
    check, [check_fast] does nothing, with or without [reproduce]: it
    returns normally, leaves the document as it is, prints nothing and
    dumps nothing. *)
Theorem check_fast_nothing_to_do
    (reproduce : bool) (m : manifest) (tr : list event) :
  wf_doc (data m) = true ->
  all_pass hash "binhash" (data m) ->
  PayuManifest.check_fast hash get_git_revision_hash reproduce
    {| self := m; trace := tr |}
  = (Normal tt, {| self := m; trace := tr |}).
Proof.
  intros W A.
  destruct (fast_check_failures hash m tr W) as (ok & hv & E & K & _ & O).
  assert (hv = []) as ->.
  { destruct hv as [|[k v] hv]; [reflexivity|].
    exfalso. apply (proj1 (K k)); [now left | apply A]. }
  assert (ok = true) as -> by now apply O.
  unfold PayuManifest.check_fast. unfold bind at 1. unfold gets at 1.
  cbn [self data]. unfold bind at 1. rewrite E. reflexivity.
Qed.

(** Regenerating the full digests: what else stays as it was. *)
Lemma add_full_shape pth hdr ign tr (paths : list string) :
  forall dc,
  wf_doc dc = true ->
  (forall p, In p paths -> In p (Dict.keys dc)) ->
  exists dc',
    YaManifest.add hash paths full_hashes true false (mk pth hdr dc ign tr)
    = (Normal tt, mk pth hdr dc' ign tr)
    /\ wf_doc dc' = true
    /\ (forall p, fullpath_of dc' p = fullpath_of dc p)
    /\ (forall p kind, kind <> "md5" -> entry dc' p kind = entry dc p kind)
    /\ (forall p, ~ In p paths -> Dict.get p dc' = Dict.get p dc)
    /\ (forall p, In p paths \/ full_mismatch hash dc p = None ->
                  full_mismatch hash dc' p = None).
Proof.
  induction paths as [|p paths IH]; intros dc W T.
  - exists dc. split; [reflexivity|]. split; [assumption|].
    split; [reflexivity|]. split; [reflexivity|]. split; [reflexivity|].
    intros p [[]|E]. exact E.
  - destruct (tracked_fields dc p W (T p (or_introl eq_refl)))
      as (r & fp0 & st & G & Hfp & Hst).
    unfold full_hashes.
    rewrite (add_cons hash _ _ _ _ _ "md5" false p paths r fp0 st G Hfp Hst).
    set (st1 := match hash "md5" fp0 with
                | Some h => Dict.set "md5" (Some h) st
                | None => st
                end).
    assert (W1 : wf_doc (Dict.set p (with_hashes r st1) dc) = true).
    { apply wf_doc_set; auto. unfold wf_record. simpl. now rewrite Hfp. }
    destruct (IH (Dict.set p (with_hashes r st1) dc) W1)
      as (dc' & E & W' & F' & Ot & Un & Md).
    { intros q I. apply keys_set_mono. apply T. now right. }
    exists dc'. split; [exact E|]. split; [exact W'|].
    split; [|split; [|split]].
    + intros q. rewrite F'. now apply rehash_fullpath.
    + intros q kind N. rewrite (Ot q kind N).
      destruct (String.eqb_spec q p) as [->|Nq].
      * rewrite rehash_entry_same. unfold entry. rewrite G, Hst.
        subst st1. destruct (hash "md5" fp0); [|reflexivity].
        now apply get_set_other.
      * now apply rehash_entry_other.
    + intros q N. rewrite Un by (intros I; apply N; now right).
      apply get_set_other. intros ->. apply N. now left.
    + intros q C. apply Md.
      destruct (String.eqb_spec q p) as [->|Nq].
      * right. unfold full_mismatch, mismatch. rewrite get_set_same.
        cbn [r_fullpath r_hashes with_hashes]. rewrite Hfp.
        subst st1. destruct (hash "md5" fp0) as [h|] eqn:Hh; [|reflexivity].
        unfold YaManifest.agrees. rewrite get_set_same.
        now rewrite String.eqb_refl.
      * destruct C as [[C|C]|C]; [congruence | now left |].
        right. unfold full_mismatch, mismatch in *.
        now rewrite get_set_other.
Qed.

(** X15.  On a well-formed document [check_fast] without [reproduce] always
    returns normally.  In the document it leaves, every tracked path passes
    the fast check, every path that had failed it passes the full check too,
    every path that had passed it has all its hash entries as before, and
    every path has the full path it had. *)
Theorem check_fast_update_heals (m : manifest) (tr : list event) :
  wf_doc (data m) = true ->
  let r := PayuManifest.check_fast hash get_git_revision_hash false
             {| self := m; trace := tr |} in
  let d' := data (self (snd r)) in
  fst r = Normal tt
  /\ wf_doc d' = true
  /\ all_pass hash "binhash" d'
  /\ (forall p, fast_mismatch hash (data m) p <> None ->
                full_mismatch hash d' p = None)
  /\ (forall p kind, fast_mismatch hash (data m) p = None ->
                     entry d' p kind = entry (data m) p kind)
  /\ (forall p, fullpath_of d' p = fullpath_of (data m) p).
Proof.
  destruct m as [pth hdr d ign]. cbn [data]. intros W.
  destruct (check_fast_saves hash get_git_revision_hash pth hdr d ign tr W)
    as (ok & hv & dc1 & Fi & B & O & Fr & Sv & E).
  destruct ok.
  - cbn zeta. rewrite (E false). cbn [fst snd self data].
    split; [reflexivity|]. split; [assumption|].
    split; [|split; [|split; [reflexivity | reflexivity]]].
    + intros p. destruct (mismatch hash "binhash" d p) as [f|] eqn:M;
        [|reflexivity].
      now destruct (B p f M).
    + intros p N. destruct (fast_mismatch hash d p) as [f|] eqn:M;
        [|congruence].
      now destruct (B p f M).
  - pose proof Fr as (W1 & F1 & E1). pose proof Sv as (S1 & K1).
    destruct (add_full_shape pth hdr ign
                (tr ++ [Stdout "Updating full hashes for {} files in {}"
                          [a_int (Z.of_nat (length hv)); a_str pth]])
                (Dict.keys hv) dc1 W1)
      as (dc' & Ea & W' & F' & Ot & Un & Md).
    { intros q I. pose proof (fast_item_key hash d hv q Fi I) as N.
      destruct (fast_mismatch hash d q) as [g|] eqn:Mq; [|congruence].
      destruct (frame_tracked hash d dc1 "binhash" q g Fr Mq)
        as (r & _ & _ & G & _).
      eapply get_keys; eauto. }
    assert (Run : exists hdr' tr',
              PayuManifest.check_fast hash get_git_revision_hash false
                (mk pth hdr d ign tr)
              = (Normal tt, mk pth hdr' dc' ign tr')).
    { do 2 eexists. rewrite (E false). cbn beta iota.
      unfold bind at 1. unfold gets at 1. cbn [self path].
      unfold bind at 1. unfold print at 1, emit at 1, modify at 1.
      cbn [self trace].
      unfold bind at 1. rewrite Ea.
      cbv beta iota zeta delta
        [bind ret gets modify on_self emit print YaManifest.dump
         PayuManifest.dump with_data with_header self trace path header data
         ignore fst snd].
      reflexivity. }
    destruct Run as (hdr' & tr' & Run).
    cbn zeta. rewrite Run. cbn [fst snd self data].
    split; [reflexivity|]. split; [assumption|].
    split; [|split; [|split]].
    + intros p.
      rewrite (mismatch_ext dc1 dc' "binhash" p W1 W' (F' p))
        by (apply Ot; discriminate).
      now apply (saved_all_pass d dc1).
    + intros p N. apply Md. left.
      destruct (fast_mismatch hash d p) as [f|] eqn:M; [|congruence].
      now destruct (B p f M).
    + intros p kind M.
      assert (Np : ~ In p (Dict.keys hv)).
      { intros I. now apply (fast_item_key hash d hv p Fi I). }
      unfold entry at 1. rewrite (Un p Np). fold (entry dc1 p kind).
      destruct (String.eqb_spec kind "binhash") as [->|N].
      * now apply K1.
      * now apply E1.
    + intros p. now rewrite F'.
Qed.
(** Under [reproduce] the call is the loop of rechecks, started once the
    observed fast digests are saved. *)
Lemma check_fast_reproduce_run pth hdr d ign tr :
  wf_doc d = true ->
  exists hv dc1,
    Forall (fast_item hash d) hv
    /\ (forall p f, fast_mismatch hash d p = Some f -> In p (Dict.keys hv))
    /\ frame d dc1 /\ fast_saved hash d dc1
    /\ PayuManifest.check_fast hash get_git_revision_hash true
         (mk pth hdr d ign tr)
       = for_each hv (fun '(filepath, vals) =>
           PayuManifest.recheck hash get_git_revision_hash filepath vals)
           (mk pth hdr dc1 ign tr).
Proof.
  intros W.
  destruct (check_fast_saves hash get_git_revision_hash pth hdr d ign tr W)
    as (ok & hv & dc1 & Fi & B & O & Fr & Sv & E).
  exists hv, dc1. split; [assumption|].
  split; [intros p f M; now destruct (B p f M)|].
  split; [assumption|]. split; [assumption|].
  rewrite (E true). destruct ok; [|reflexivity].
  destruct (O eq_refl) as [-> ->]. reflexivity.
Qed.

(** X16.  On a well-formed document [check_fast] under [reproduce] either
    returns normally or ends in [sys.exit(1)], and it exits exactly when
    some tracked path fails both the fast and the full check.  However it
    ends, the document in memory is still well formed, every path has the
    full path it had, no hash entry other than the fast one has changed,
    and every path has the full mismatch it had; when it returns normally,
    every path passes the fast check. *)
Theorem check_fast_reproduce_exits_iff (m : manifest) (tr : list event) :
  wf_doc (data m) = true ->
  let r := PayuManifest.check_fast hash get_git_revision_hash true
             {| self := m; trace := tr |} in
  let d' := data (self (snd r)) in
  (fst r = Normal tt \/ fst r = SystemExit 1)
  /\ (fst r = SystemExit 1 <->
      exists p, fast_mismatch hash (data m) p <> None
                /\ full_mismatch hash (data m) p <> None)
  /\ frame (data m) d'
  /\ (forall p, full_mismatch hash d' p = full_mismatch hash (data m) p)
  /\ (fst r = Normal tt -> all_pass hash "binhash" d').
Proof.
  destruct m as [pth hdr d ign]. cbn [data]. intros W.
  destruct (check_fast_reproduce_run pth hdr d ign tr W)
    as (hv & dc1 & Fi & B & Fr & Sv & E).
  destruct (recheck_loop hash get_git_revision_hash d pth ign hv hdr dc1 tr
              W Fr Sv Fi)
    as (o & hdr' & dc' & evs & El & Fr' & Sv' & _ & Last).
  cbn zeta. rewrite E, El. cbn [fst snd self data].
  assert (X : (o = Normal tt \/ o = SystemExit 1)
              /\ (o = SystemExit 1 <->
                  exists p, fast_mismatch hash d p <> None
                            /\ full_mismatch hash d p <> None)).
  { destruct (first_full_mismatch hash d (Dict.keys hv)) as [[q w]|] eqn:Ff.
    - destruct Last as [-> _]. split; [now right|]. split; [|reflexivity].
      intros _. destruct (first_full_mismatch_found hash d _ q w Ff) as [I M].
      exists q. split; [now apply (fast_item_key hash d hv)|congruence].
    - destruct Last as [-> _]. split; [now left|]. split; [discriminate|].
      intros (p & Nf & Nm). exfalso.
      destruct (fast_mismatch hash d p) as [f|] eqn:Mf; [|congruence].
      destruct (full_mismatch hash d p) as [v|] eqn:Mv; [|congruence].
      destruct (first_full_mismatch_some hash d (Dict.keys hv) p v
                  (B p f Mf) Mv) as (q & w & Eq & _).
      congruence. }
  destruct X as [X1 X2].
  split; [exact X1|]. split; [exact X2|]. split; [exact Fr'|].
  split.
  - intros p. unfold full_mismatch.
    apply (mismatch_frame hash d dc' "md5" p W Fr'). discriminate.
  - intros _. now apply (saved_all_pass d dc').
Qed.

(** X17.  Every document that [check_fast] dumps under [reproduce], on a
    well-formed document, passes the fast check on every tracked path while
    every path keeps the full mismatch it had: a file that has changed is
    recorded with its new fast digest and its old full digest, even in a
    run that then exits on that very file. *)
Theorem check_fast_reproduce_dumps_pass_fast_check
    (m : manifest) (tr : list event) :
  wf_doc (data m) = true ->
  exists evs,
    trace (snd (PayuManifest.check_fast hash get_git_revision_hash true
                  {| self := m; trace := tr |})) = tr ++ evs
    /\ forall pth hdr dat,
         In (Dumped pth hdr dat) evs ->
         all_pass hash "binhash" dat
         /\ forall p, full_mismatch hash dat p = full_mismatch hash (data m) p.
Proof.
  destruct m as [pth hdr d ign]. cbn [data]. intros W.
  destruct (check_fast_reproduce_run pth hdr d ign tr W)
    as (hv & dc1 & Fi & B & Fr & Sv & E).
  destruct (recheck_loop hash get_git_revision_hash d pth ign hv hdr dc1 tr
              W Fr Sv Fi)
    as (o & hdr' & dc' & evs & El & _ & _ & Dm & _).
  exists evs. rewrite E, El. split; [reflexivity|].
  intros pth0 hdr0 dat I. destruct (Dm pth0 hdr0 dat I) as [Fd Sd].
  split; [now apply (saved_all_pass d dat)|].
  intros p. unfold full_mismatch.
  apply (mismatch_frame hash d dat "md5" p W Fd). discriminate.
Qed.
End CheckMore.

(** ** The coordinator's make_links and copy_manifests *)

Lemma set_input_manifest_same (c : Manifest.coordinator) :
  Manifest.set_input_manifest c (Manifest.input_manifest c) = c.
Proof. destruct c. reflexivity. Qed.

Lemma set_exe_manifest_same (c : Manifest.coordinator) :
  Manifest.set_exe_manifest c (Manifest.exe_manifest c) = c.
Proof. destruct c. reflexivity. Qed.

(** A method that leaves its manifest alone, called on one of the three
    manifests. *)
Lemma zoom_reads {A} sel upd (f : M pstate A) (s : Manifest.cstate)
    (o : outcome A) (tr' : list event) :
  (forall c, upd c (sel c) = c) ->
  f {| self := sel (Manifest.this s); trace := Manifest.ctrace s |}
    = (o, {| self := sel (Manifest.this s); trace := tr' |}) ->
  Manifest.zoom sel upd f s
  = (o, {| Manifest.this := Manifest.this s; Manifest.ctrace := tr' |}).
Proof.
  intros U E. unfold Manifest.zoom. rewrite E. cbn [fst snd self trace].
  now rewrite U.
Qed.

(** A first step that returns normally. *)
Lemma bind_normal {S A B} (m : M S A) (k : A -> M S B) (s s' : S) (a : A) :
  m s = (Normal a, s') -> (x <- m ;; k x) s = k a s'.
Proof. intros E. unfold bind. now rewrite E. Qed.

Lemma cprint_run (fmt : string) (args : list arg)
    (c : Manifest.coordinator) (tr : list event) :
  Manifest.cprint fmt args {| Manifest.this := c; Manifest.ctrace := tr |}
  = (Normal tt,
     {| Manifest.this := c; Manifest.ctrace := tr ++ [Stdout fmt args] |}).
Proof. reflexivity. Qed.

Lemma wf_doc_fullpath (d : Dict.t file_record) (p : string) :
  wf_doc d = true -> In p (Dict.keys d) -> fullpath_of d p <> None.
Proof.
  intros W I. destruct (tracked_fields d p W I) as (r & fp & st & G & F & _).
  unfold fullpath_of. rewrite G, F. discriminate.
Qed.

Section Coordinator.
Variable hash : string -> string -> option string.
Variable get_git_revision_hash : string.
Variable io_error : list event -> event -> option string.
Variable mkpath_error : list event -> string -> option string.

(** [copy] of one of the three manifests. *)
Lemma zoom_copy sel upd (dest : string) (c : Manifest.coordinator)
    (tr : list event) :
  (forall c, upd c (sel c) = c) ->
  Manifest.zoom sel upd (PayuManifest.copy io_error dest)
    {| Manifest.this := c; Manifest.ctrace := tr |}
  = (match io_error tr (CopyFile (path (sel c)) dest) with
     | Some name => Raised (IOError name)
     | None => Normal tt
     end,
     {| Manifest.this := c;
        Manifest.ctrace := tr ++ [CopyFile (path (sel c)) dest] |}).
Proof.
  intros U.
  apply (zoom_reads sel upd _ {| Manifest.this := c; Manifest.ctrace := tr |}
           _ _ U).
  cbn [Manifest.this Manifest.ctrace].
  unfold PayuManifest.copy. unfold bind at 1. unfold gets at 1.
  cbn [self path]. apply os_call_run.
Qed.

(** X18.  [copy_manifests] first makes the directory; when that fails its
    error reaches the caller and nothing is copied.  Otherwise the call
    returns normally: it tries to copy the executable, the input and the
    restart manifest file, in this order, and gives up silently at the first
    copy that fails with an I/O error, so that the manifests after it are not
    copied and no error reaches the caller.  The coordinator is left as it
    is in both cases. *)
Theorem copy_manifests_swallows_failures
    (dest : string) (c : Manifest.coordinator) (tr : list event) :
  Manifest.copy_manifests io_error mkpath_error dest
    {| Manifest.this := c; Manifest.ctrace := tr |}
  = match mkpath_error tr dest with
    | Some msg =>
        (Raised (DistutilsFileError msg),
         {| Manifest.this := c; Manifest.ctrace := tr ++ [Mkpath dest] |})
    | None =>
        (Normal tt,
         {| Manifest.this := c;
            Manifest.ctrace :=
              (tr ++ [Mkpath dest]) ++
              copy_attempts io_error (tr ++ [Mkpath dest]) dest
                [path (Manifest.exe_manifest c);
                 path (Manifest.input_manifest c);
                 path (Manifest.restart_manifest c)] |})
    end.
Proof.
  unfold Manifest.copy_manifests, Manifest.mkpath.
  unfold bind at 1. unfold bind at 1. unfold gets at 1.
  cbn [Manifest.ctrace]. unfold bind at 1. unfold modify at 1.
  cbn [Manifest.this Manifest.ctrace].
  destruct (mkpath_error tr dest) as [msg|]; [reflexivity|].
  unfold ret at 1. unfold Manifest.except_IOError.
  unfold Manifest.on_exe, Manifest.on_input, Manifest.on_restart.
  set (t0 := tr ++ [Mkpath dest]).
  unfold bind at 1. rewrite (zoom_copy _ _ dest c t0 set_exe_manifest_same).
  cbn [copy_attempts].
  destruct (io_error t0 (CopyFile (path (Manifest.exe_manifest c)) dest));
    [reflexivity|].
  unfold bind at 1. rewrite (zoom_copy _ _ dest c _ set_input_manifest_same).
  destruct (io_error _ (CopyFile (path (Manifest.input_manifest c)) dest));
    [now rewrite <- !app_assoc|].
  rewrite (zoom_copy _ _ dest c _ set_restart_manifest_same).
  destruct (io_error _ (CopyFile (path (Manifest.restart_manifest c)) dest));
    now rewrite <- !app_assoc.
Qed.

(** [make_links] of a manifest of the coordinator whose document is well
    formed, when no call fails. *)
Lemma zoom_make_links sel upd (c : Manifest.coordinator) (tr : list event) :
  (forall c, upd c (sel c) = c) ->
  wf_doc (data (sel c)) = true ->
  calls_succeed io_error tr
    (link_calls (data (sel c)) (Dict.keys (data (sel c)))) = true ->
  Manifest.zoom sel upd (PayuManifest.make_links io_error)
    {| Manifest.this := c; Manifest.ctrace := tr |}
  = (Normal tt,
     {| Manifest.this := c;
        Manifest.ctrace :=
          tr ++ link_calls (data (sel c)) (Dict.keys (data (sel c))) |}).
Proof.
  intros U W C.
  apply (zoom_reads sel upd _ {| Manifest.this := c; Manifest.ctrace := tr |}
           _ _ U).
  cbn [Manifest.this Manifest.ctrace].
  unfold PayuManifest.make_links. unfold bind at 1. unfold gets at 1.
  cbn [self]. unfold YaManifest.iter. apply link_loop; [|exact C].
  intros p I. now apply wf_doc_fullpath.
Qed.

(** [check_fast] of a manifest of the coordinator on which every path passes
    the fast check. *)
Lemma zoom_check_fast_quiet sel upd (reproduce : bool)
    (c : Manifest.coordinator) (tr : list event) :
  (forall c, upd c (sel c) = c) ->
  wf_doc (data (sel c)) = true ->
  all_pass hash "binhash" (data (sel c)) ->
  Manifest.zoom sel upd
    (PayuManifest.check_fast hash get_git_revision_hash reproduce)
    {| Manifest.this := c; Manifest.ctrace := tr |}
  = (Normal tt, {| Manifest.this := c; Manifest.ctrace := tr |}).
Proof.
  intros U W A.
  apply (zoom_reads sel upd _ {| Manifest.this := c; Manifest.ctrace := tr |}
           _ _ U).
  cbn [Manifest.this Manifest.ctrace].
  destruct (fast_check_failures hash (sel c) tr W) as (ok & hv & E & K & _ & O).
  assert (hv = []) as ->.
  { destruct hv as [|[k v] hv]; [reflexivity|].
    exfalso. apply (proj1 (K k)); [now left | apply A]. }
  assert (ok = true) as -> by now apply O.
  unfold PayuManifest.check_fast. unfold bind at 1. unfold gets at 1.
  cbn [self data]. unfold bind at 1. rewrite E. reflexivity.
Qed.

(** The first half of [make_links] when no call fails. *)
Lemma make_links_first_half (c : Manifest.coordinator) (tr : list event)
    (k : M Manifest.cstate unit) :
  wf_doc (data (Manifest.exe_manifest c)) = true ->
  wf_doc (data (Manifest.input_manifest c)) = true ->
  wf_doc (data (Manifest.restart_manifest c)) = true ->
  calls_succeed io_error (tr ++ [Stdout "Making links from manifests" []])
    (link_calls_all c) = true ->
  (Manifest.cprint "Making links from manifests" [] ;;;
   Manifest.on_exe (PayuManifest.make_links io_error) ;;;
   Manifest.on_input (PayuManifest.make_links io_error) ;;;
   Manifest.on_restart (PayuManifest.make_links io_error) ;;;
   Manifest.cprint "Checking exe and input manifests" [] ;;;
   k) {| Manifest.this := c; Manifest.ctrace := tr |}
  = k {| Manifest.this := c; Manifest.ctrace := tr ++ links_made c |}.
Proof.
  intros We Wi Wr C. unfold link_calls_all in C.
  rewrite !calls_succeed_app in C.
  apply andb_prop in C as [Ce C]. apply andb_prop in C as [Ci Cr].
  rewrite <- app_assoc in Cr.
  rewrite (bind_normal _ _ _ _ tt (cprint_run _ _ c tr)).
  unfold Manifest.on_exe, Manifest.on_input, Manifest.on_restart.
  rewrite (bind_normal _ _ _ _ tt
             (zoom_make_links _ _ c _ set_exe_manifest_same We Ce)).
  rewrite (bind_normal _ _ _ _ tt
             (zoom_make_links _ _ c _ set_input_manifest_same Wi Ci)).
  rewrite <- app_assoc.
  rewrite (bind_normal _ _ _ _ tt
             (zoom_make_links _ _ c _ set_restart_manifest_same Wr Cr)).
  rewrite (bind_normal _ _ _ _ tt (cprint_run _ _ c _)).
  unfold links_made, link_calls_all.
  f_equal. f_equal. rewrite <- !app_assoc. reflexivity.
Qed.

(** X19.  When the three documents are well formed, no link or copy call
    fails and every tracked path of each document passes the fast check,
    the coordinator's [make_links] returns normally and leaves the
    coordinator as it is.  It writes its first line, makes the calls for the
    executable, the input and the restart manifest in this order, and writes
    the two lines that announce the checks; it dumps no manifest. *)
Theorem make_links_clean_run (c : Manifest.coordinator) (tr : list event) :
  wf_doc (data (Manifest.exe_manifest c)) = true ->
  wf_doc (data (Manifest.input_manifest c)) = true ->
  wf_doc (data (Manifest.restart_manifest c)) = true ->
  calls_succeed io_error (tr ++ [Stdout "Making links from manifests" []])
    (link_calls_all c) = true ->
  all_pass hash "binhash" (data (Manifest.exe_manifest c)) ->
  all_pass hash "binhash" (data (Manifest.input_manifest c)) ->
  all_pass hash "binhash" (data (Manifest.restart_manifest c)) ->
  Manifest.make_links hash get_git_revision_hash io_error
    {| Manifest.this := c; Manifest.ctrace := tr |}
  = (Normal tt,
     {| Manifest.this := c;
        Manifest.ctrace :=
          tr ++ links_made c ++
          [Stdout (if Manifest.reproduce c then "Checking restart manifest"
                   else "Creating restart manifest") []] |}).
Proof.
  intros We Wi Wr C Ae Ai Ar.
  unfold Manifest.make_links.
  rewrite (make_links_first_half c tr _ We Wi Wr C).
  unfold bind at 1. unfold gets at 1. cbn [Manifest.this].
  unfold Manifest.on_exe, Manifest.on_input, Manifest.on_restart.
  rewrite (bind_normal _ _ _ _ tt
             (zoom_check_fast_quiet _ _ _ c _ set_exe_manifest_same We Ae)).
  rewrite (bind_normal _ _ _ _ tt
             (zoom_check_fast_quiet _ _ _ c _ set_input_manifest_same Wi Ai)).
  assert (P : (if Manifest.reproduce c
               then Manifest.cprint "Checking restart manifest" []
               else Manifest.cprint "Creating restart manifest" [])
                {| Manifest.this := c; Manifest.ctrace := tr ++ links_made c |}
              = (Normal tt,
                 {| Manifest.this := c;
                    Manifest.ctrace :=
                      (tr ++ links_made c) ++
                      [Stdout (if Manifest.reproduce c
                               then "Checking restart manifest"
                               else "Creating restart manifest") []] |}))
    by now destruct (Manifest.reproduce c).
  rewrite (bind_normal _ _ _ _ tt P).
  rewrite (zoom_check_fast_quiet _ _ _ c _ set_restart_manifest_same Wr Ar).
  now rewrite <- app_assoc.
Qed.

(** Under [reproduce] a path that fails both checks ends the check. *)
Lemma check_fast_exits (m : manifest) (tr : list event) (p : string) :
  wf_doc (data m) = true ->
  fast_mismatch hash (data m) p <> None ->
  full_mismatch hash (data m) p <> None ->
  exists m' evs,
    PayuManifest.check_fast hash get_git_revision_hash true
      {| self := m; trace := tr |}
    = (SystemExit 1, {| self := m'; trace := tr ++ evs |}).
Proof.
  destruct m as [pth hdr d ign]. cbn [data]. intros W Nf Nm.
  destruct (check_fast_reproduce_run hash get_git_revision_hash
              pth hdr d ign tr W) as (hv & dc1 & Fi & B & Fr & Sv & E).
  destruct (recheck_loop hash get_git_revision_hash d pth ign hv hdr dc1 tr
              W Fr Sv Fi) as (o & hdr' & dc' & evs & El & _ & _ & _ & Last).
  rewrite E, El.
  destruct (fast_mismatch hash d p) as [f|] eqn:Mf; [|congruence].
  destruct (full_mismatch hash d p) as [v|] eqn:Mv; [|congruence].
  destruct (first_full_mismatch_some hash d (Dict.keys hv) p v
              (B p f Mf) Mv) as (q & w & Eq & _).
  rewrite Eq in Last. destruct Last as [-> _]. now eexists _, _.
Qed.

(** X20.  When no link or copy call fails, executables are to be reproduced
    and a path of the executable manifest fails both the fast and the full
    check, the coordinator's [make_links] ends in [sys.exit(1)], and it does
    so only after the calls for all the tracked paths of the three manifests
    have been made.  The input and restart manifests are left as they
    were. *)
Theorem make_links_exits_after_linking
    (c : Manifest.coordinator) (tr : list event) (p : string) :
  Manifest.reproduce_exe c = true ->
  wf_doc (data (Manifest.exe_manifest c)) = true ->
  wf_doc (data (Manifest.input_manifest c)) = true ->
  wf_doc (data (Manifest.restart_manifest c)) = true ->
  calls_succeed io_error (tr ++ [Stdout "Making links from manifests" []])
    (link_calls_all c) = true ->
  fast_mismatch hash (data (Manifest.exe_manifest c)) p <> None ->
  full_mismatch hash (data (Manifest.exe_manifest c)) p <> None ->
  let r := Manifest.make_links hash get_git_revision_hash io_error
             {| Manifest.this := c; Manifest.ctrace := tr |} in
  fst r = SystemExit 1
  /\ Manifest.input_manifest (Manifest.this (snd r))
     = Manifest.input_manifest c
  /\ Manifest.restart_manifest (Manifest.this (snd r))
     = Manifest.restart_manifest c
  /\ exists evs, Manifest.ctrace (snd r) = tr ++ links_made c ++ evs.
Proof.
  intros Re We Wi Wr C Nf Nm.
  destruct (check_fast_exits (Manifest.exe_manifest c) (tr ++ links_made c) p
              We Nf Nm) as (m' & evs & E).
  assert (Run : Manifest.make_links hash get_git_revision_hash io_error
                  {| Manifest.this := c; Manifest.ctrace := tr |}
                = (SystemExit 1,
                   {| Manifest.this := Manifest.set_exe_manifest c m';
                      Manifest.ctrace := (tr ++ links_made c) ++ evs |})).
  { unfold Manifest.make_links.
    rewrite (make_links_first_half c tr _ We Wi Wr C).
    unfold bind at 1. unfold gets at 1. cbn [Manifest.this]. rewrite Re.
    unfold bind at 1. unfold Manifest.on_exe at 1, Manifest.zoom at 1.
    cbn [Manifest.this Manifest.ctrace]. rewrite E. reflexivity. }
  cbv zeta. rewrite Run. cbn [fst snd Manifest.this Manifest.ctrace].
  split; [reflexivity|]. split; [reflexivity|]. split; [reflexivity|].
  exists evs. now rewrite <- app_assoc.
Qed.

(** X22.  When a link or copy call for a path of the executable manifest
    fails, the coordinator's [make_links] ends with the I/O error of that
    call: no later path is linked, nothing is linked for the input and
    restart manifests, and no manifest is checked. *)
Theorem make_links_fails_before_checks
    (c : Manifest.coordinator) (tr : list event)
    (before after : list string) (p fp name : string) :
  Dict.keys (data (Manifest.exe_manifest c)) = before ++ p :: after ->
  (forall q, In q before ->
     fullpath_of (data (Manifest.exe_manifest c)) q <> None) ->
  calls_succeed io_error (tr ++ [Stdout "Making links from manifests" []])
    (link_calls (data (Manifest.exe_manifest c)) before) = true ->
  fullpath_of (data (Manifest.exe_manifest c)) p = Some fp ->
  io_error
    ((tr ++ [Stdout "Making links from manifests" []])
     ++ link_calls (data (Manifest.exe_manifest c)) before)
    (link_call (data (Manifest.exe_manifest c)) p fp) = Some name ->
  Manifest.make_links hash get_git_revision_hash io_error
    {| Manifest.this := c; Manifest.ctrace := tr |}
  = (Raised (IOError name),
     {| Manifest.this := c;
        Manifest.ctrace :=
          (tr ++ [Stdout "Making links from manifests" []])
          ++ link_calls (data (Manifest.exe_manifest c)) before
          ++ [link_call (data (Manifest.exe_manifest c)) p fp] |}).
Proof.
  intros K Hb C Hp Hf.
  unfold Manifest.make_links.
  rewrite (bind_normal _ _ _ _ tt (cprint_run _ _ c tr)).
  unfold bind at 1. unfold Manifest.on_exe at 1.
  assert (E : PayuManifest.make_links io_error
                {| self := Manifest.exe_manifest c;
                   trace := tr ++ [Stdout "Making links from manifests" []] |}
              = (Raised (IOError name),
                 {| self := Manifest.exe_manifest c;
                    trace :=
                      (tr ++ [Stdout "Making links from manifests" []])
                      ++ link_calls (data (Manifest.exe_manifest c)) before
                      ++ [link_call (data (Manifest.exe_manifest c)) p fp] |})).
  { unfold PayuManifest.make_links. unfold bind at 1. unfold gets at 1.
    cbn [self]. unfold YaManifest.iter. rewrite K.
    now apply link_loop_fails. }
  rewrite (zoom_reads _ _ _
             {| Manifest.this := c;
                Manifest.ctrace :=
                  tr ++ [Stdout "Making links from manifests" []] |}
             _ _ set_exe_manifest_same E).
  reflexivity.
Qed.
End Coordinator.

(** ** The further properties at sample inputs *)

(** X2 at a coordinator without [reproduce], with all three files on disk. *)
Lemma setup_without_reproduce_witness :
  exists s',
    Manifest.setup (sample_disk two_restarts) None 0
      (Manifest.init [] sample_expt false) = (Normal tt, s')
    /\ Manifest.have_restart_manifest (Manifest.this s') = false
    /\ Manifest.have_input_manifest (Manifest.this s') = true.
Proof.
  destruct (setup_without_reproduce (sample_disk two_restarts) None 0
              (Manifest.init [] sample_expt false) eq_refl)
    as (s' & evs & E & R & _ & _ & I & _).
  exists s'. split; [exact E|]. split; [exact R | exact I].
Defined.

(** X3 at a run whose number is given from outside, over a restart manifest
    on which the walk would not end. *)
Lemma setup_without_inference_witness :
  fst (Manifest.setup (sample_disk stray_restart) (Some "7") 5
         (Manifest.init [] sample_expt true)) <> OutOfFuel
  /\ Manifest.counter
       (Manifest.expt
          (Manifest.this
             (snd (Manifest.setup (sample_disk stray_restart) (Some "7") 5
                     (Manifest.init [] sample_expt true))))) = Some 0%Z.
Proof.
  destruct (setup_without_inference (sample_disk stray_restart) (Some "7") 5
              (Manifest.init [] sample_expt true) (or_intror eq_refl))
    as (_ & F & C).
  split; [exact F | exact C].
Defined.

(** X4 at [deep_restart]. *)
Lemma setup_reproduce_postconditions_witness :
  all_marked
    (Manifest.expt
       (Manifest.this
          (snd (Manifest.setup (sample_disk deep_restart) None 5
                  (Manifest.init [] sample_expt true))))) = true
  /\ data (Manifest.restart_manifest
             (Manifest.this
                (snd (Manifest.setup (sample_disk deep_restart) None 5
                        (Manifest.init [] sample_expt true))))) <> [].
Proof.
  assert (E : Manifest.setup (sample_disk deep_restart) None 5
                (Manifest.init [] sample_expt true)
              = (Normal tt,
                 snd (Manifest.setup (sample_disk deep_restart) None 5
                        (Manifest.init [] sample_expt true))))
    by (vm_compute; reflexivity).
  destruct (setup_reproduce_postconditions (sample_disk deep_restart) None 5
              (Manifest.init [] sample_expt true) _ eq_refl E)
    as (_ & _ & _ & A & _ & D & _).
  split; [exact A | exact D].
Defined.

(** X6 at [overwrite_expt], with all three files on disk. *)
Lemma setup_reproduce_with_overwrite_fails_witness :
  fst (Manifest.setup (sample_disk two_restarts) None 5
         (Manifest.init [] overwrite_expt true)) = SystemExit 1.
Proof.
  destruct (setup_reproduce_with_overwrite_fails (sample_disk two_restarts)
              None 5 (Manifest.init [] overwrite_expt true)
              eq_refl eq_refl eq_refl) as [E _].
  exact E.
Defined.

(** X7 at [two_restarts]: the second path decides. *)
Lemma setup_counter_from_last_path_witness :
  exists s',
    Manifest.setup (sample_disk two_restarts) None 5
      (Manifest.init [] sample_expt true) = (Normal tt, s')
    /\ Manifest.counter (Manifest.expt (Manifest.this s')) = Some 8%Z.
Proof.
  apply (setup_counter_from_last_path (sample_disk two_restarts) None 5
           (Manifest.init [] sample_expt true) [] two_restarts);
    try reflexivity.
  - discriminate.
  - intros p [<-|[<-|[]]].
    + exists 3%Z. split; [reflexivity | discriminate].
    + exists 7%Z. split; [reflexivity | discriminate].
Defined.

(** X8 at [sample_manifest], for two calls. *)
Lemma add_filepath_keeps_well_formed_witness :
  wf_doc
    (data (self (snd (for_each
       [("a.nc", "/data/a.nc", true); ("report.txt", "/data/new.txt", false)]
       (fun '(filepath, fullpath, copy) =>
          PayuManifest.add_filepath (fun _ => false) (fun _ _ => false)
            filepath fullpath copy)
       {| self := sample_manifest; trace := [] |})))) = true.
Proof.
  pose proof (add_filepath_keeps_well_formed (fun _ => false)
                (fun _ _ => false)
                [("a.nc", "/data/a.nc", true);
                 ("report.txt", "/data/new.txt", false)]
                {| self := sample_manifest; trace := [] |} eq_refl) as H.
  cbv zeta in H. destruct H as (_ & W & _). exact W.
Defined.

(** X11 at [sample_manifest], after an earlier call that set the flag. *)
Lemma copy_file_after_add_filepath_witness :
  fst (PayuManifest.copy_file "report.txt"
         (snd (PayuManifest.add_filepath (fun _ => false) (fun _ _ => false)
                 "report.txt" "/data/report.txt" false
                 (snd (PayuManifest.add_filepath (fun _ => false)
                         (fun _ _ => false)
                         "report.txt" "/data/report.txt" true
                         {| self := sample_manifest; trace := [] |})))))
  = Normal true.
Proof.
  apply (copy_file_after_add_filepath (fun _ => false) (fun _ _ => false)
           "report.txt" "/data/report.txt" false
           (snd (PayuManifest.add_filepath (fun _ => false) (fun _ _ => false)
                   "report.txt" "/data/report.txt" true
                   {| self := sample_manifest; trace := [] |}))).
  reflexivity.
Defined.

(** X12 at [two_files], on a file system where no call fails. *)
Lemma make_links_one_call_per_path_witness :
  PayuManifest.make_links no_error {| self := two_files; trace := [] |}
  = (Normal tt,
     {| self := two_files;
        trace := [Symlink "/data/a.nc" "a.nc"; Symlink "/data/b.nc" "b.nc"] |}).
Proof.
  apply (make_links_one_call_per_path no_error two_files []);
    [|reflexivity].
  intros p [<-|[<-|[]]]; discriminate.
Defined.

(** X13 at [broken_manifest], on a file system where no call fails. *)
Lemma make_links_stops_at_missing_fullpath_witness :
  PayuManifest.make_links no_error {| self := broken_manifest; trace := [] |}
  = (Raised (KeyError "fullpath"),
     {| self := broken_manifest; trace := [Symlink "/data/a.nc" "a.nc"] |}).
Proof.
  apply (make_links_stops_at_missing_fullpath no_error broken_manifest []
           ["a.nc"] ["c.nc"] "b.nc");
    [reflexivity | | reflexivity | reflexivity].
  intros q [<-|[]]. discriminate.
Defined.

(** X21 at [three_copies], when the second file cannot be copied. *)
Lemma make_links_stops_at_failed_call_witness :
  PayuManifest.make_links b_unreadable
    {| self := three_copies; trace := [] |}
  = (Raised (IOError "/data/b.nc"),
     {| self := three_copies;
        trace := [CopyFile "/data/a.nc" "a.nc";
                  CopyFile "/data/b.nc" "b.nc"] |}).
Proof.
  apply (make_links_stops_at_failed_call b_unreadable three_copies []
           ["a.nc"] ["c.nc"] "b.nc" "/data/b.nc" "/data/b.nc");
    [reflexivity | | reflexivity | reflexivity | reflexivity].
  intros q [<-|[]]. discriminate.
Defined.

(** X14 at [sample_manifest], when the file has the digests recorded. *)
Lemma check_fast_nothing_to_do_witness :
  PayuManifest.check_fast steady_hash "rev" true
    {| self := sample_manifest; trace := [] |}
  = (Normal tt, {| self := sample_manifest; trace := [] |}).
Proof.
  apply (check_fast_nothing_to_do steady_hash "rev" true sample_manifest []);
    [reflexivity|].
  intros p. unfold mismatch. cbn [data sample_manifest Dict.get].
  destruct (String.eqb p "report.txt"); reflexivity.
Defined.

(** X15 at [sample_manifest], when both digests of the file have changed. *)
Lemma check_fast_update_heals_witness :
  fst (PayuManifest.check_fast (sample_hash "m9") "rev" false
         {| self := sample_manifest; trace := [] |}) = Normal tt
  /\ all_pass (sample_hash "m9") "binhash"
       (data (self (snd (PayuManifest.check_fast (sample_hash "m9") "rev" false
                           {| self := sample_manifest; trace := [] |})))).
Proof.
  pose proof (check_fast_update_heals (sample_hash "m9") "rev"
                sample_manifest [] eq_refl) as H.
  cbv zeta in H. destruct H as (N & _ & A & _). split; [exact N | exact A].
Defined.

(** X16 at [two_files]: the second file fails both checks. *)
Lemma check_fast_reproduce_exits_iff_witness :
  fst (PayuManifest.check_fast two_files_hash "rev" true
         {| self := two_files; trace := [] |}) = SystemExit 1.
Proof.
  pose proof (check_fast_reproduce_exits_iff two_files_hash "rev"
                two_files [] eq_refl) as H.
  cbv zeta in H. destruct H as (_ & [_ X] & _). apply X.
  exists "b.nc". split; discriminate.
Defined.

(** X17 at [two_files]. *)
Lemma check_fast_reproduce_dumps_pass_fast_check_witness :
  exists evs,
    trace (snd (PayuManifest.check_fast two_files_hash "rev" true
                  {| self := two_files; trace := [] |})) = [] ++ evs
    /\ forall pth hdr dat,
         In (Dumped pth hdr dat) evs ->
         all_pass two_files_hash "binhash" dat
         /\ forall p, full_mismatch two_files_hash dat p
                      = full_mismatch two_files_hash (data two_files) p.
Proof.
  apply (check_fast_reproduce_dumps_pass_fast_check two_files_hash "rev"
           two_files [] eq_refl).
Defined.

(** X19 at [sample_coordinator], when the file has the digests recorded
    and no call fails. *)
Lemma make_links_clean_run_witness :
  Manifest.make_links steady_hash "rev" no_error
    {| Manifest.this := sample_coordinator; Manifest.ctrace := [] |}
  = (Normal tt,
     {| Manifest.this := sample_coordinator;
        Manifest.ctrace :=
          [] ++ links_made sample_coordinator ++
          [Stdout "Checking restart manifest" []] |}).
Proof.
  apply (make_links_clean_run steady_hash "rev" no_error
           sample_coordinator []);
    try reflexivity;
    intros p; unfold mismatch;
    cbn [data sample_coordinator Manifest.set_exe_manifest
         Manifest.set_input_manifest Manifest.set_restart_manifest
         Manifest.exe_manifest Manifest.input_manifest
         Manifest.restart_manifest sample_manifest Dict.get];
    destruct (String.eqb p "report.txt"); reflexivity.
Defined.

(** X20 at [sample_coordinator], when both digests of the file have
    changed and no call fails. *)
Lemma make_links_exits_after_linking_witness :
  fst (Manifest.make_links (sample_hash "m9") "rev" no_error
         {| Manifest.this := sample_coordinator; Manifest.ctrace := [] |})
  = SystemExit 1.
Proof.
  pose proof (make_links_exits_after_linking (sample_hash "m9") "rev"
                no_error sample_coordinator [] "report.txt"
                eq_refl eq_refl eq_refl eq_refl eq_refl) as H.
  cbv zeta in H. destruct H as [E _]; [discriminate | discriminate |].
  exact E.
Defined.

(** X22 at a coordinator whose executable manifest is [three_copies],
    when the second file cannot be copied. *)
Lemma make_links_fails_before_checks_witness :
  Manifest.make_links steady_hash "rev" b_unreadable
    {| Manifest.this :=
         Manifest.set_exe_manifest sample_coordinator three_copies;
       Manifest.ctrace := [] |}
  = (Raised (IOError "/data/b.nc"),
     {| Manifest.this :=
          Manifest.set_exe_manifest sample_coordinator three_copies;
        Manifest.ctrace :=
          [Stdout "Making links from manifests" [];
           CopyFile "/data/a.nc" "a.nc"; CopyFile "/data/b.nc" "b.nc"] |}).
Proof.
  apply (make_links_fails_before_checks steady_hash "rev" b_unreadable
           (Manifest.set_exe_manifest sample_coordinator three_copies) []
           ["a.nc"] ["c.nc"] "b.nc" "/data/b.nc" "/data/b.nc");
    [reflexivity | | reflexivity | reflexivity | reflexivity].
  intros q [<-|[]]. discriminate.
Defined.

(** X1 at a path two names below [restart003]. *)
Lemma walk_finds_nearest_restart_number_witness :
  Manifest.walk 40 "/scratch/archive/restart003/ocean" = Some 3%Z.
Proof.
  apply (proj1 (proj2 (walk_finds_nearest_restart_number 40
                         "/scratch/archive/restart003/ocean")));
    [reflexivity | simpl; lia].
Defined.
